(** * The tool-invocation bridge of mcp-azuredevops-bridge

    A shallow embedding of the tool handlers of the bridge (workitems.go,
    tag.go, wiki.go and the sprint handlers) together with the properties
    of the specification that concern them.

    Handlers are written in a small monad that threads the state of the
    remote service, records every request that leaves the process and
    distinguishes a returned result from a run-time panic (a failed
    unchecked type assertion or a nil dereference). *)

From Stdlib Require Import ZArith String Ascii List Bool Lia DecimalString.
From Stdlib Require DecimalZ DecimalPos.
From stdpp Require Import base gmap strings list sets.

(** ** Go library functions on byte strings *)

(** [strconv.Itoa] and the [%d] verb of [fmt.Sprintf]. *)
Definition itoa (z : Z) : string := NilZero.string_of_int (Z.to_int z).

(** [strings.HasPrefix s prefix]. *)
Definition strings_HasPrefix (s pre : string) : bool := String.prefix pre s.

(** [strings.Contains s substr]: [substr] starts at some position of [s]. *)
Fixpoint strings_Contains (s substr : string) : bool :=
  String.prefix substr s ||
  match s with
  | EmptyString => false
  | String _ s' => strings_Contains s' substr
  end.

(** [strings.Index s substr]: the first position of [substr] in [s], or -1. *)
Fixpoint strings_Index (s substr : string) : Z :=
  if String.prefix substr s then 0%Z
  else match s with
       | EmptyString => (-1)%Z
       | String _ s' =>
           let i := strings_Index s' substr in
           if Z.ltb i 0 then (-1)%Z else (i + 1)%Z
       end.

(** [strings.Join elems sep]. *)
Fixpoint strings_Join (elems : list string) (sep : string) : string :=
  match elems with
  | [] => ""
  | [x] => x
  | x :: rest => x +:+ sep +:+ strings_Join rest sep
  end.

(** The scan behind [strings.Split] for a non-empty separator: the input is
    read left to right, [skip] counts the bytes of a separator occurrence
    that are still to be dropped, and every occurrence closes the current
    piece. *)
Fixpoint split_scan (sep s : string) (skip : nat) : list string :=
  match s with
  | EmptyString => [""]
  | String c s' =>
      match skip with
      | S k => split_scan sep s' k
      | O =>
          if String.prefix sep s
          then "" :: split_scan sep s' (String.length sep - 1)
          else match split_scan sep s' 0 with
               | [] => [String c ""]
               | piece :: rest => String c piece :: rest
               end
      end
  end.

(** [strings.Split s sep], for [sep] non-empty (the only use in the bridge). *)
Definition strings_Split (s sep : string) : list string := split_scan sep s 0.

(** The scan behind [strings.Replace s old new (-1)] for a non-empty [old]. *)
Fixpoint replace_scan (old new s : string) (skip : nat) : string :=
  match s with
  | EmptyString => ""
  | String c s' =>
      match skip with
      | S k => replace_scan old new s' k
      | O =>
          if String.prefix old s
          then new +:+ replace_scan old new s' (String.length old - 1)
          else String c (replace_scan old new s' 0)
      end
  end.

(** [strings.Replace s old new n] with [n < 0] (replace every occurrence). *)
Definition strings_ReplaceAll (s old new : string) : string :=
  replace_scan old new s 0.

(** ** Data model *)

(** A dynamically typed JSON value ([interface{}] in the source). JSON
    numbers decode to [float64]; the handlers only ever convert them with
    [int(...)], so the model carries the integer they convert to. *)
#[local] Set Warnings "-register-all".
Inductive Value : Type :=
| VNull
| VString (s : string)
| VNumber (n : Z)
| VBool (b : bool)
| VArray (elems : list Value)
| VObject (members : list (string * Value)).
#[local] Set Warnings "register-all".

(** [mcp.CallToolResult] as built by [mcp.NewToolResultText] and
    [mcp.NewToolResultError]. *)
Inductive CallToolResult : Type :=
| NewToolResultText (text : string)
| NewToolResultError (text : string).

(** The argument bag [request.Params.Arguments]. *)
Record CallToolRequest : Type := {
  Arguments : gmap string Value
}.

(** [AzureDevOpsConfig] of main.go. *)
Record AzureDevOpsConfig : Type := {
  OrganizationURL : string;
  PersonalAccessToken : string;
  Project : string
}.

(** [webapi.Operation] and [webapi.JsonPatchOperation]. *)
Inductive Operation : Type := OpAdd | OpRemove | OpReplace.

Record JsonPatchOperation : Type := {
  Op : Operation;
  Path : string;
  PatchValue : Value
}.

(** [workitemtracking.WorkItemRelation], [WorkItem], [WorkItemReference] and
    [WorkItemQueryResult]; a pointer field is an [option]. *)
Record WorkItemRelation : Type := {
  Rel : option string;
  Url : option string
}.

Record WorkItem : Type := {
  Id : option Z;
  Fields : option (gmap string Value);
  Relations : option (list WorkItemRelation)
}.

Record WorkItemReference : Type := {
  RefId : option Z
}.

Record WorkItemQueryResult : Type := {
  WorkItems : option (list WorkItemReference)
}.

(** The argument structs of the work item tracking client, with the fields
    the bridge sets. *)
Record CreateWorkItemArgs : Type := {
  cwType : string;
  cwProject : string;
  cwDocument : list JsonPatchOperation
}.

Record UpdateWorkItemArgs : Type := {
  uwId : Z;
  uwProject : string;
  uwDocument : list JsonPatchOperation
}.

Record GetWorkItemArgs : Type := {
  gwId : Z;
  gwProject : string;
  gwExpand : option string
}.

Record GetWorkItemsArgs : Type := {
  gwsIds : list Z;
  gwsProject : option string;
  gwsExpand : option string
}.

Record QueryByWiqlArgs : Type := {
  qwQuery : string;
  qwProject : string
}.

(** [wiki.Wiki] and the arguments of [wikiClient.CreateOrUpdatePage]. *)
Record Wiki : Type := {
  WikiId : option string;
  WikiName : option string
}.

Record CreateOrUpdatePageArgs : Type := {
  cpWikiIdentifier : string;
  cpPath : string;
  cpProject : string;
  cpContent : string
}.

(** An [http.Request] after [SetBasicAuth], and the part of an
    [http.Response] the handlers read; [Body] is the outcome of reading the
    body to its end. *)
Record HttpRequest : Type := {
  Method : string;
  URL : string;
  BasicAuth : string * string
}.

(** A call that returns [(value, error)]. *)
Inductive result (A : Type) : Type :=
| Ok (a : A)
| Err (err : string).
Arguments Ok {A} a.
Arguments Err {A} err.

Record HttpResponse : Type := {
  StatusCode : Z;
  Body : result string
}.

(** Every request that leaves the process. *)
Inductive Request : Type :=
| ReqCreateWorkItem (a : CreateWorkItemArgs)
| ReqUpdateWorkItem (a : UpdateWorkItemArgs)
| ReqGetWorkItem (a : GetWorkItemArgs)
| ReqGetWorkItems (a : GetWorkItemsArgs)
| ReqQueryByWiql (a : QueryByWiqlArgs)
| ReqCreateOrUpdatePage (a : CreateOrUpdatePageArgs)
| ReqHttp (r : HttpRequest).

(** The remote service behind [workItemClient], [wikiClient] and
    [http.Client]: each call answers from the current state of the service
    and moves it. *)
Record Client (St : Type) : Type := {
  CreateWorkItem : CreateWorkItemArgs -> St -> result WorkItem * St;
  UpdateWorkItem : UpdateWorkItemArgs -> St -> result WorkItem * St;
  GetWorkItem : GetWorkItemArgs -> St -> result WorkItem * St;
  GetWorkItems : GetWorkItemsArgs -> St -> result (option (list WorkItem)) * St;
  QueryByWiql : QueryByWiqlArgs -> St -> result WorkItemQueryResult * St;
  CreateOrUpdatePage : CreateOrUpdatePageArgs -> St -> result unit * St;
  Do : HttpRequest -> St -> result HttpResponse * St
}.
Arguments CreateWorkItem {St} _ _ _.
Arguments UpdateWorkItem {St} _ _ _.
Arguments GetWorkItem {St} _ _ _.
Arguments GetWorkItems {St} _ _ _.
Arguments QueryByWiql {St} _ _ _.
Arguments CreateOrUpdatePage {St} _ _ _.
Arguments Do {St} _ _ _.

(** ** The handler monad *)

(** What a handler does: it returns, or it panics. *)
Inductive outcome (A : Type) : Type :=
| Done (a : A)
| Panic (msg : string).
Arguments Done {A} a.
Arguments Panic {A} msg.

(** The state of the remote service and the requests issued so far, oldest
    first. *)
Record World (St : Type) : Type := {
  remote : St;
  issued : list Request
}.
Arguments remote {St} _.
Arguments issued {St} _.

Definition M (St A : Type) : Type := World St -> outcome A * World St.

Definition ret {St A} (a : A) : M St A := fun w => (Done a, w).

Definition panic {St A} (msg : string) : M St A := fun w => (Panic msg, w).

Definition bind {St A B} (m : M St A) (k : A -> M St B) : M St B :=
  fun w =>
    match m w with
    | (Done a, w') => k a w'
    | (Panic msg, w') => (Panic msg, w')
    end.

Declare Scope handler_scope.
Delimit Scope handler_scope with handler.
Notation "x <- m ;; k" := (bind m (fun x => k))
  (at level 100, m at next level, right associativity) : handler_scope.


(** One round trip: the request is recorded, the service answers. *)
Definition call {St A} (req : Request) (f : St -> result A * St) : M St (result A) :=
  fun w =>
    let (r, s') := f (remote w) in
    (Done r, {| remote := s'; issued := issued w ++ [req] |}).

(** [*p]: a nil pointer panics. *)
Definition deref {St A} (p : option A) : M St A :=
  match p with
  | Some a => ret a
  | None => panic "runtime error: invalid memory address or nil pointer dereference"
  end.

(** The dynamic type of an argument as a failed assertion reports it; an
    absent key reads as the nil interface. *)
Definition dynamic_type (v : option Value) : string :=
  match v with
  | None | Some VNull => "nil"
  | Some (VString _) => "string"
  | Some (VNumber _) => "float64"
  | Some (VBool _) => "bool"
  | Some (VArray _) => "[]interface {}"
  | Some (VObject _) => "map[string]interface {}"
  end.

(** The unchecked assertions [v.(string)] and [v.(float64)] followed by
    [int(...)]: any other dynamic type, and the nil of an absent key,
    panics. *)
Definition assert_string {St} (v : option Value) : M St string :=
  match v with
  | Some (VString s) => ret s
  | _ =>
      panic ("interface conversion: interface {} is " +:+ dynamic_type v
               +:+ ", not string")
  end.

Definition assert_int {St} (v : option Value) : M St Z :=
  match v with
  | Some (VNumber n) => ret n
  | _ =>
      panic ("interface conversion: interface {} is " +:+ dynamic_type v
               +:+ ", not float64")
  end.

(** The checked assertions [s, ok := v.(string)] and [b, ok := v.(bool)]:
    the zero value and [false] for any other dynamic type. *)
Definition string_ok (v : option Value) : string * bool :=
  match v with
  | Some (VString s) => (s, true)
  | _ => ("", false)
  end.

Definition bool_ok (v : option Value) : bool * bool :=
  match v with
  | Some (VBool b) => (b, true)
  | _ => (false, false)
  end.


(** [for _, x := range xs { ... }] with a body that may panic. *)
Fixpoint mapM {St A B} (f : A -> M St B) (xs : list A) : M St (list B) :=
  match xs with
  | [] => ret []
  | x :: rest =>
      (y <- f x ;;
       ys <- mapM f rest ;;
       ret (y :: ys))%handler
  end.

(** ** Library functions outside the repository *)

(** The decoded element of the [updates] array of batch_update_work_items. *)
Record Update : Type := {
  ID : Z;
  Field : string;
  UpdateValue : string
}.

(** The decoded element of the iterations response; the two timestamps are
    kept as received and rendered by [Format_date]. *)
Record Sprint : Type := {
  SprintName : string;
  StartDate : string;
  EndDate : string
}.

(** The decoded wiki page response, page list entry and search entry. *)
Record WikiPageResponse : Type := {
  Content : string;
  SubPages : list (string * string)
}.

Record WikiListEntry : Type := {
  EntryPath : string;
  IsFolder : bool
}.

Record WikiSearchEntry : Type := {
  FileName : string;
  PagePath : string
}.

(** Functions of the Go standard library whose definition lies outside the
    repository and that the handlers only call: the Unicode-aware string
    functions, the [%v] verb, URL escaping, request construction, JSON
    decoding at each response type, date formatting, and the order in which
    [range] walks the keys of a map (any order, but every key once). *)
Record Externals : Type := {
  TrimSpace : string -> string;
  ToLower : string -> string;
  fmt_v : Value -> string;
  PathEscape : string -> string;
  Encode : list (string * string) -> string;
  NewRequest_error : string -> string -> option string;
  Format_date : string -> string;
  Unmarshal_updates : string -> result (list Update);
  Decode_sprints : string -> result (list Sprint);
  Unmarshal_wikis : string -> result (list (option Wiki));
  Unmarshal_page : string -> result WikiPageResponse;
  Unmarshal_list : string -> result (list WikiListEntry);
  Unmarshal_search : string -> result (list WikiSearchEntry);
  range_keys : gmap string bool -> list string;
  range_keys_perm : forall m, range_keys m ≡ₚ elements (dom m)
}.

(** The line feed of the ["\n"] literals. *)
Definition nl : string := String (ascii_of_nat 10) "".

(** ** Handlers of workitems.go and tag.go *)

Section Bridge.

Context {St : Type}.
Variable ext : Externals.
Variable config : AzureDevOpsConfig.
Variable client : Client St.

Local Open Scope handler_scope.

Definition arg (request : CallToolRequest) (name : string) : option Value :=
  Arguments request !! name.

(** [handleUpdateWorkItem]. *)
Definition handleUpdateWorkItem (request : CallToolRequest) : M St CallToolResult :=
  id <- assert_int (arg request "id") ;;
  field <- assert_string (arg request "field") ;;
  value <- assert_string (arg request "value") ;;
  let updateArgs :=
    {| uwId := id;
       uwProject := Project config;
       uwDocument :=
         [ {| Op := OpReplace; Path := "/fields/" +:+ field; PatchValue := VString value |} ] |} in
  r <- call (ReqUpdateWorkItem updateArgs) (UpdateWorkItem client updateArgs) ;;
  match r with
  | Err err => ret (NewToolResultError ("Failed to update work item: " +:+ err))
  | Ok workItem =>
      wid <- deref (Id workItem) ;;
      ret (NewToolResultText ("Updated work item #" +:+ itoa wid))
  end.

(** [handleCreateWorkItem]. *)
Definition handleCreateWorkItem (request : CallToolRequest) : M St CallToolResult :=
  workItemType <- assert_string (arg request "type") ;;
  title <- assert_string (arg request "title") ;;
  description <- assert_string (arg request "description") ;;
  let '(priority, hasPriority) := string_ok (arg request "priority") in
  let document :=
    [ {| Op := OpAdd; Path := "/fields/System.Title"; PatchValue := VString title |};
      {| Op := OpAdd; Path := "/fields/System.Description";
         PatchValue := VString description |} ] in
  let document :=
    if hasPriority
    then document ++
         [ {| Op := OpAdd; Path := "/fields/Microsoft.VSTS.Common.Priority";
              PatchValue := VString priority |} ]
    else document in
  let createArgs :=
    {| cwType := workItemType; cwProject := Project config; cwDocument := document |} in
  r <- call (ReqCreateWorkItem createArgs) (CreateWorkItem client createArgs) ;;
  match r with
  | Err err => ret (NewToolResultError ("Failed to create work item: " +:+ err))
  | Ok workItem =>
      fields <- deref (Fields workItem) ;;
      let extractedTitle := fst (string_ok (fields !! "System.Title")) in
      wid <- deref (Id workItem) ;;
      ret (NewToolResultText
             ("Created work item #" +:+ itoa wid +:+ ": " +:+ extractedTitle))
  end.

(** The cap [maxDetailsToFetch] of [handleQueryWorkItems]. *)
Definition maxDetailsToFetch : nat := 20.

(** The line of one fetched work item in [handleQueryWorkItems]. *)
Definition query_detail_line (item : WorkItem) : M St string :=
  id <- deref (Id item) ;;
  let field_text (name : string) : string :=
    match Fields item with
    | Some fields =>
        match fields !! name with
        | Some v => fmt_v ext v
        | None => ""
        end
    | None => ""
    end in
  let title := field_text "System.Title" in
  let state := field_text "System.State" in
  let workItemType := field_text "System.WorkItemType" in
  ret ("ID: " +:+ itoa id +:+ " - [" +:+ workItemType +:+ "] " +:+ title
         +:+ " (" +:+ state +:+ ")").

(** The fallback line of one query match in [handleQueryWorkItems]. *)
Definition query_id_line (itemRef : WorkItemReference) : M St string :=
  id <- deref (RefId itemRef) ;;
  ret ("ID: " +:+ itoa id).

(** [handleQueryWorkItems]. *)
Definition handleQueryWorkItems (request : CallToolRequest) : M St CallToolResult :=
  query <- assert_string (arg request "query") ;;
  let wiqlArgs := {| qwQuery := query; qwProject := Project config |} in
  r <- call (ReqQueryByWiql wiqlArgs) (QueryByWiql client wiqlArgs) ;;
  match r with
  | Err err => ret (NewToolResultError ("Failed to query work items: " +:+ err))
  | Ok queryResult =>
      match WorkItems queryResult with
      | None => ret (NewToolResultText "No work items found matching the query.")
      | Some workItemRefs =>
          if Nat.eqb (length workItemRefs) 0
          then ret (NewToolResultText "No work items found matching the query.")
          else
            results <-
              (if Nat.ltb 0 (length workItemRefs)
               then
                 let count := length workItemRefs in
                 let count :=
                   if Nat.ltb maxDetailsToFetch count then maxDetailsToFetch else count in
                 ids <- mapM (fun ref => deref (RefId ref)) (firstn count workItemRefs) ;;
                 if Nat.ltb 0 (length ids)
                 then
                   let results :=
                     [ "Found " +:+ itoa (Z.of_nat (length workItemRefs))
                         +:+ " work items. Showing details for the first "
                         +:+ itoa (Z.of_nat count) +:+ ":";
                       "" ] in
                   let getArgs :=
                     {| gwsIds := ids; gwsProject := None; gwsExpand := None |} in
                   r <- call (ReqGetWorkItems getArgs) (GetWorkItems client getArgs) ;;
                   lines <-
                     match r with
                     | Ok (Some (item :: items)) => mapM query_detail_line (item :: items)
                     | _ => mapM query_id_line workItemRefs
                     end ;;
                   ret (results ++ lines)
                 else ret []
               else ret []) ;;
            ret (NewToolResultText (strings_Join results nl))
      end
  end.

(** [relationTypeMap] of [handleManageWorkItemRelations]. *)
Definition relationTypeMap : gmap string string :=
  list_to_map
    [ ("parent", "System.LinkTypes.Hierarchy-Reverse");
      ("child", "System.LinkTypes.Hierarchy-Forward");
      ("related", "System.LinkTypes.Related") ].

(** The URL of a work item as [handleManageWorkItemRelations] builds it. *)
Definition workItemUrl (targetID : Z) : string :=
  OrganizationURL config +:+ "/_apis/wit/workItems/" +:+ itoa targetID.

(** The scan of the relation array in the remove branch of
    [handleManageWorkItemRelations]: [i] is the position of the head of
    [relations] in the array; the scan stops at the first match. *)
Fixpoint relation_scan (azureRelationType : string) (targetID : Z)
    (relations : list WorkItemRelation) (i : nat) : M St (list JsonPatchOperation) :=
  match relations with
  | [] => ret []
  | relation :: rest =>
      rel <- deref (Rel relation) ;;
      if String.eqb rel azureRelationType
      then
        let targetUrl := workItemUrl targetID in
        url <- deref (Url relation) ;;
        if String.eqb url targetUrl
        then ret [ {| Op := OpRemove;
                      Path := "/relations/" +:+ itoa (Z.of_nat i);
                      PatchValue := VNull |} ]
        else relation_scan azureRelationType targetID rest (S i)
      else relation_scan azureRelationType targetID rest (S i)
  end.

(** [handleManageWorkItemRelations]. *)
Definition handleManageWorkItemRelations (request : CallToolRequest)
    : M St CallToolResult :=
  sourceID <- assert_int (arg request "source_id") ;;
  targetID <- assert_int (arg request "target_id") ;;
  let '(relationType, ok) := string_ok (arg request "relation_type") in
  if negb ok then ret (NewToolResultError "Invalid relation_type")
  else
    operation <- assert_string (arg request "operation") ;;
    let azureRelationType := default "" (relationTypeMap !! relationType) in
    let update (ops : list JsonPatchOperation) : M St CallToolResult :=
      let updateArgs :=
        {| uwId := sourceID; uwProject := Project config; uwDocument := ops |} in
      r <- call (ReqUpdateWorkItem updateArgs) (UpdateWorkItem client updateArgs) ;;
      match r with
      | Err err =>
          ret (NewToolResultError ("Failed to update work item relations: " +:+ err))
      | Ok _ =>
          ret (NewToolResultText
                 ("Successfully " +:+ operation +:+ "d " +:+ relationType
                    +:+ " relationship"))
      end in
    if String.eqb operation "add"
    then
      update
        [ {| Op := OpAdd;
             Path := "/relations/-";
             PatchValue :=
               VObject
                 [ ("rel", VString azureRelationType);
                   ("url", VString (workItemUrl targetID));
                   ("attributes", VObject [ ("comment", VString "Added via MCP") ]) ] |} ]
    else
      let getArgs :=
        {| gwId := sourceID; gwProject := Project config; gwExpand := None |} in
      r <- call (ReqGetWorkItem getArgs) (GetWorkItem client getArgs) ;;
      match r with
      | Err err => ret (NewToolResultError ("Failed to get work item: " +:+ err))
      | Ok workItem =>
          match Relations workItem with
          | None => ret (NewToolResultError "Work item has no relations")
          | Some relations =>
              ops <- relation_scan azureRelationType targetID relations 0 ;;
              if Nat.eqb (length ops) 0
              then ret (NewToolResultError "Specified relation not found")
              else update ops
          end
      end.

(** [fieldMap] of [handleBatchUpdateWorkItems]. *)
Definition fieldMap : gmap string string :=
  list_to_map
    [ ("Title", "System.Title");
      ("Description", "System.Description");
      ("State", "System.State");
      ("Priority", "Microsoft.VSTS.Common.Priority") ].

(** The body of the loop of [handleBatchUpdateWorkItems]: the line appended
    to [results] for one update. *)
Definition batch_update_item (update : Update) : M St string :=
  match fieldMap !! Field update with
  | None => ret ("Invalid field for #" +:+ itoa (ID update) +:+ ": " +:+ Field update)
  | Some systemField =>
      let updateArgs :=
        {| uwId := ID update;
           uwProject := Project config;
           uwDocument :=
             [ {| Op := OpReplace; Path := "/fields/" +:+ systemField;
                  PatchValue := VString (UpdateValue update) |} ] |} in
      r <- call (ReqUpdateWorkItem updateArgs) (UpdateWorkItem client updateArgs) ;;
      match r with
      | Err err => ret ("Failed to update #" +:+ itoa (ID update) +:+ ": " +:+ err)
      | Ok workItem =>
          wid <- deref (Id workItem) ;;
          ret ("Updated work item #" +:+ itoa wid)
      end
  end.

(** [handleBatchUpdateWorkItems]. *)
Definition handleBatchUpdateWorkItems (request : CallToolRequest)
    : M St CallToolResult :=
  updatesJSON <- assert_string (arg request "updates") ;;
  match Unmarshal_updates ext updatesJSON with
  | Err err => ret (NewToolResultError ("Invalid JSON format: " +:+ err))
  | Ok updates =>
      results <- mapM batch_update_item updates ;;
      ret (NewToolResultText (strings_Join results nl))
  end.

(** The loops that fill [tagMap] in [handleManageWorkItemTags]. *)
Definition tagMap_insert (tagMap : gmap string bool) (tags : list string)
    : gmap string bool :=
  foldl (fun m tag => <[TrimSpace ext tag := true]> m) tagMap tags.

(** [case "add"] of [handleManageWorkItemTags]. *)
Definition tags_add (currentTags tags : list string) : list string :=
  let tagMap := tagMap_insert ∅ currentTags in
  let tagMap := tagMap_insert tagMap tags in
  range_keys ext tagMap.

(** [case "remove"] of [handleManageWorkItemTags]. *)
Definition tags_remove (currentTags tags : list string) : list string :=
  let tagMap := tagMap_insert ∅ tags in
  List.filter
    (fun tag => negb (default false (tagMap !! TrimSpace ext tag)))
    currentTags.

(** The parse of the [System.Tags] field in [handleManageWorkItemTags]. *)
Definition current_tags (fields : gmap string Value) : list string :=
  match string_ok (fields !! "System.Tags") with
  | (tags, true) => if String.eqb tags "" then [] else strings_Split tags "; "
  | _ => []
  end.

(** [handleManageWorkItemTags], tag.go. *)
Definition handleManageWorkItemTags (request : CallToolRequest)
    : M St CallToolResult :=
  id <- assert_int (arg request "id") ;;
  operation <- assert_string (arg request "operation") ;;
  tagsStr <- assert_string (arg request "tags") ;;
  let tags := strings_Split tagsStr "," in
  let getArgs := {| gwId := id; gwProject := Project config; gwExpand := None |} in
  r <- call (ReqGetWorkItem getArgs) (GetWorkItem client getArgs) ;;
  match r with
  | Err err => ret (NewToolResultError ("Failed to get work item: " +:+ err))
  | Ok workItem =>
      fields <- deref (Fields workItem) ;;
      let currentTags := current_tags fields in
      let newTags :=
        if String.eqb operation "add" then tags_add currentTags tags
        else if String.eqb operation "remove" then tags_remove currentTags tags
        else [] in
      let updateArgs :=
        {| uwId := id;
           uwProject := Project config;
           uwDocument :=
             [ {| Op := OpReplace; Path := "/fields/System.Tags";
                  PatchValue := VString (strings_Join newTags "; ") |} ] |} in
      r <- call (ReqUpdateWorkItem updateArgs) (UpdateWorkItem client updateArgs) ;;
      match r with
      | Err err => ret (NewToolResultError ("Failed to update tags: " +:+ err))
      | Ok _ =>
          ret (NewToolResultText
                 ("Successfully " +:+ operation +:+ "d tags for work item #"
                    +:+ itoa id))
      end
  end.

(** ** The sprint handlers *)

(** The outcome of the request block every HTTP handler repeats:
    [http.NewRequest], [SetBasicAuth], [client.Do]. *)
Inductive GetOutcome : Type :=
| CreateFailed (err : string)
| DoFailed (err : string)
| Response (resp : HttpResponse).

Definition http_get (fullURL : string) : M St GetOutcome :=
  match NewRequest_error ext "GET" fullURL with
  | Some err => ret (CreateFailed err)
  | None =>
      let req :=
        {| Method := "GET"; URL := fullURL;
           BasicAuth := ("", PersonalAccessToken config) |} in
      r <- call (ReqHttp req) (Do client req) ;;
      match r with
      | Err err => ret (DoFailed err)
      | Ok resp => ret (Response resp)
      end
  end.

(** [json.NewDecoder(resp.Body).Decode]: a failed read fails the decode. *)
Definition decode_body {A} (decode : string -> result A) (body : result string)
    : result A :=
  match body with
  | Ok bytes => decode bytes
  | Err err => Err err
  end.

(** [http.StatusOK]. *)
Definition StatusOK : Z := 200.

(** [handleGetCurrentSprint]. *)
Definition handleGetCurrentSprint (request : CallToolRequest) : M St CallToolResult :=
  let '(team, _) := string_ok (arg request "team") in
  let team := if String.eqb team "" then Project config +:+ " Team" else team in
  let baseURL :=
    OrganizationURL config +:+ "/" +:+ Project config
      +:+ "/_apis/work/teamsettings/iterations" in
  let queryParams := [ ("$timeframe", "current"); ("api-version", "7.2-preview") ] in
  let fullURL := baseURL +:+ "?" +:+ Encode ext queryParams in
  g <- http_get fullURL ;;
  match g with
  | CreateFailed err => ret (NewToolResultError ("Failed to create request: " +:+ err))
  | DoFailed err => ret (NewToolResultError ("Failed to get current sprint: " +:+ err))
  | Response resp =>
      if negb (Z.eqb (StatusCode resp) StatusOK)
      then ret (NewToolResultError
                  ("Failed to get current sprint. Status: " +:+ itoa (StatusCode resp)))
      else
        match decode_body (Decode_sprints ext) (Body resp) with
        | Err err => ret (NewToolResultError ("Failed to parse response: " +:+ err))
        | Ok [] => ret (NewToolResultText "No active sprint found")
        | Ok (sprint :: _) =>
            ret (NewToolResultText
                   ("Current Sprint: " +:+ SprintName sprint
                      +:+ nl +:+ "Start Date: " +:+ Format_date ext (StartDate sprint)
                      +:+ nl +:+ "End Date: " +:+ Format_date ext (EndDate sprint)))
        end
  end.

(** [handleGetSprints]. *)
Definition handleGetSprints (request : CallToolRequest) : M St CallToolResult :=
  let '(team, _) := string_ok (arg request "team") in
  let '(includeCompleted, _) := bool_ok (arg request "include_completed") in
  let team := if String.eqb team "" then Project config +:+ " Team" else team in
  let baseURL :=
    OrganizationURL config +:+ "/" +:+ Project config
      +:+ "/_apis/work/teamsettings/iterations" in
  let queryParams :=
    (if negb includeCompleted then [ ("$timeframe", "current,future") ] else [])
      ++ [ ("api-version", "7.2-preview") ] in
  let fullURL := baseURL +:+ "?" +:+ Encode ext queryParams in
  g <- http_get fullURL ;;
  match g with
  | CreateFailed err => ret (NewToolResultError ("Failed to create request: " +:+ err))
  | DoFailed err => ret (NewToolResultError ("Failed to get sprints: " +:+ err))
  | Response resp =>
      if negb (Z.eqb (StatusCode resp) StatusOK)
      then ret (NewToolResultError
                  ("Failed to get sprints. Status: " +:+ itoa (StatusCode resp)))
      else
        match decode_body (Decode_sprints ext) (Body resp) with
        | Err err => ret (NewToolResultError ("Failed to parse response: " +:+ err))
        | Ok value =>
            let results :=
              List.map
                (fun sprint =>
                   "Sprint: " +:+ SprintName sprint
                     +:+ nl +:+ "Start: " +:+ Format_date ext (StartDate sprint)
                     +:+ nl +:+ "End: " +:+ Format_date ext (EndDate sprint)
                     +:+ nl +:+ "---")
                value in
            if Nat.eqb (length results) 0
            then ret (NewToolResultText "No sprints found")
            else ret (NewToolResultText (strings_Join results nl))
        end
  end.

(** ** Handlers of wiki.go *)

(** [getWikisForProject]. *)
Definition getWikisForProject : M St (result (list (option Wiki))) :=
  let wikiApiUrl :=
    OrganizationURL config +:+ "/" +:+ PathEscape ext (Project config)
      +:+ "/_apis/wiki/wikis?api-version=7.2-preview" in
  g <- http_get wikiApiUrl ;;
  match g with
  | CreateFailed err => ret (Err err)
  | DoFailed err => ret (Err err)
  | Response resp =>
      match Body resp with
      | Err err => ret (Err ("Failed to read response body: " +:+ err))
      | Ok bodyBytes =>
          if negb (Z.eqb (StatusCode resp) StatusOK)
          then ret (Err ("Failed to get wikis. Status: " +:+ itoa (StatusCode resp)))
          else
            match Unmarshal_wikis ext bodyBytes with
            | Err err => ret (Err ("Failed to parse wikis response: " +:+ err))
            | Ok value =>
                _ <- match value with
                     | first :: _ =>
                         w <- deref first ;;
                         _ <- deref (WikiName w) ;;
                         _ <- deref (WikiId w) ;;
                         ret tt
                     | [] => ret tt
                     end ;;
                ret (Ok value)
            end
      end
  end.

(** The selection loop the four wiki handlers repeat, each with its own
    test [matches] on the wiki name: [wikiId] holds the default, the first
    wiki whose name passes the test replaces it and ends the loop. *)
Fixpoint select_wiki (matches : string -> bool) (wikis : list (option Wiki))
    (wikiId : string) : M St string :=
  match wikis with
  | [] => ret wikiId
  | wiki :: rest =>
      w <- deref wiki ;;
      name <- deref (WikiName w) ;;
      if matches name
      then deref (WikiId w)
      else select_wiki matches rest wikiId
  end.

(** The test of [handleManageWikiPage], [handleListWikiPages] and
    [handleSearchWiki]. *)
Definition matches_project (name : string) : bool :=
  strings_Contains name (Project config).

(** The test of [handleGetWikiPage]. *)
Definition matches_project_or_documentation (name : string) : bool :=
  let projectName := strings_ReplaceAll (Project config) " " "" in
  let projectName := ToLower ext projectName in
  let wikiName := ToLower ext name in
  strings_Contains wikiName projectName || strings_Contains wikiName "documentation".

(** [wikiId := *wikis[0].Id] followed by the selection loop. *)
Definition default_then_select (matches : string -> bool)
    (first : option Wiki) (wikis : list (option Wiki)) : M St string :=
  w <- deref first ;;
  wikiId <- deref (WikiId w) ;;
  select_wiki matches wikis wikiId.

(** [handleManageWikiPage]. *)
Definition handleManageWikiPage (request : CallToolRequest) : M St CallToolResult :=
  path <- assert_string (arg request "path") ;;
  content <- assert_string (arg request "content") ;;
  r <- getWikisForProject ;;
  match r with
  | Err err => ret (NewToolResultError ("Failed to get wikis: " +:+ err))
  | Ok [] => ret (NewToolResultError "No wikis found for this project")
  | Ok (first :: others) =>
      wikiId <- default_then_select matches_project first (first :: others) ;;
      let wikiIdentifier := wikiId in
      let pageArgs :=
        {| cpWikiIdentifier := wikiIdentifier; cpPath := path;
           cpProject := Project config; cpContent := content |} in
      r <- call (ReqCreateOrUpdatePage pageArgs) (CreateOrUpdatePage client pageArgs) ;;
      match r with
      | Err err => ret (NewToolResultError ("Failed to manage wiki page: " +:+ err))
      | Ok _ => ret (NewToolResultText ("Successfully managed wiki page: " +:+ path))
      end
  end.

(** The URL of the pages endpoint of one wiki. *)
Definition pagesURL (wikiId : string) (queryParams : list (string * string)) : string :=
  let baseURL :=
    OrganizationURL config +:+ "/" +:+ PathEscape ext (Project config)
      +:+ "/_apis/wiki/wikis/" +:+ wikiId +:+ "/pages" in
  baseURL +:+ "?" +:+ Encode ext queryParams.

(** [handleGetWikiPage]. *)
Definition handleGetWikiPage (request : CallToolRequest) : M St CallToolResult :=
  path <- assert_string (arg request "path") ;;
  let '(includeChildren, _) := bool_ok (arg request "include_children") in
  let path := if negb (strings_HasPrefix path "/") then "/" +:+ path else path in
  let recursionLevel := if includeChildren then "oneLevel" else "none" in
  r <- getWikisForProject ;;
  match r with
  | Err err => ret (NewToolResultError ("Failed to get wikis: " +:+ err))
  | Ok wikis =>
      _ <- mapM (fun wiki =>
                   w <- deref wiki ;;
                   _ <- deref (WikiName w) ;;
                   deref (WikiId w)) wikis ;;
      match wikis with
      | [] => ret (NewToolResultError "No wikis found for this project")
      | first :: _ =>
          wikiId <- default_then_select matches_project_or_documentation first wikis ;;
          let queryParams :=
            [ ("path", path); ("recursionLevel", recursionLevel);
              ("includeContent", "true"); ("api-version", "7.2-preview") ] in
          g <- http_get (pagesURL wikiId queryParams) ;;
          match g with
          | CreateFailed err =>
              ret (NewToolResultError ("Failed to create request: " +:+ err))
          | DoFailed err => ret (NewToolResultError ("Failed to get wiki page: " +:+ err))
          | Response resp =>
              match Body resp with
              | Err err =>
                  ret (NewToolResultError ("Failed to read response body: " +:+ err))
              | Ok responseBody =>
                  if negb (Z.eqb (StatusCode resp) StatusOK)
                  then ret (NewToolResultError
                              ("Failed to get wiki page. Status: "
                                 +:+ itoa (StatusCode resp)))
                  else
                    match Unmarshal_page ext responseBody with
                    | Err err =>
                        ret (NewToolResultError ("Failed to parse response: " +:+ err))
                    | Ok wikiResponse =>
                        let result :=
                          "=== " +:+ path +:+ " ===" +:+ nl +:+ nl
                            +:+ Content wikiResponse in
                        let result :=
                          if includeChildren
                             && Nat.ltb 0 (length (SubPages wikiResponse))
                          then
                            foldl
                              (fun acc subPage =>
                                 acc +:+ nl +:+ "=== " +:+ fst subPage +:+ " ===" +:+ nl
                                   +:+ snd subPage +:+ nl)
                              (result +:+ nl +:+ nl +:+ "Sub-pages:" +:+ nl)
                              (SubPages wikiResponse)
                          else result in
                        ret (NewToolResultText result)
                    end
              end
          end
      end
  end.

(** [handleListWikiPages]. *)
Definition handleListWikiPages (request : CallToolRequest) : M St CallToolResult :=
  let '(path, _) := string_ok (arg request "path") in
  let '(recursive, _) := bool_ok (arg request "recursive") in
  let recursionLevel := if recursive then "full" else "oneLevel" in
  r <- getWikisForProject ;;
  match r with
  | Err err => ret (NewToolResultError ("Failed to get wikis: " +:+ err))
  | Ok [] => ret (NewToolResultError "No wikis found for this project")
  | Ok (first :: others) =>
      wikiId <- default_then_select matches_project first (first :: others) ;;
      let queryParams :=
        (if negb (String.eqb path "") then [ ("path", path) ] else [])
          ++ [ ("recursionLevel", recursionLevel); ("api-version", "7.2-preview") ] in
      g <- http_get (pagesURL wikiId queryParams) ;;
      match g with
      | CreateFailed err => ret (NewToolResultError ("Failed to create request: " +:+ err))
      | DoFailed err => ret (NewToolResultError ("Failed to list wiki pages: " +:+ err))
      | Response resp =>
          match Body resp with
          | Err err => ret (NewToolResultError ("Failed to read response body: " +:+ err))
          | Ok responseBody =>
              if negb (Z.eqb (StatusCode resp) StatusOK)
              then ret (NewToolResultError
                          ("Failed to list wiki pages. Status: "
                             +:+ itoa (StatusCode resp)))
              else
                match Unmarshal_list ext responseBody with
                | Err err =>
                    ret (NewToolResultError ("Failed to parse response: " +:+ err))
                | Ok value =>
                    let locationText :=
                      if negb (String.eqb path "") then " in " +:+ path else "" in
                    let result :=
                      foldl
                        (fun acc item =>
                           let prefix := if IsFolder item then "ðŸ“ " else "ðŸ“„ " in
                           acc +:+ prefix +:+ EntryPath item +:+ nl)
                        ("Wiki pages" +:+ locationText +:+ ":" +:+ nl +:+ nl)
                        value in
                    ret (NewToolResultText result)
                end
          end
      end
  end.

(** [page.FileName[start:end]]: out-of-range bounds panic. *)
Definition slice (s : string) (lo hi : Z) : M St string :=
  if (Z.leb 0 lo && Z.leb lo hi && Z.leb hi (Z.of_nat (String.length s)))%bool
  then ret (String.substring (Z.to_nat lo) (Z.to_nat (hi - lo)) s)
  else panic "runtime error: slice bounds out of range".

(** The body of the result loop of [handleSearchWiki]: the entries one
    page contributes. *)
Definition search_page (query queryLower : string) (page : WikiSearchEntry)
    : M St (list string) :=
  if strings_Contains (ToLower ext (FileName page)) queryLower
  then
    let contentLower := ToLower ext (FileName page) in
    let index := strings_Index contentLower queryLower in
    let len s := Z.of_nat (String.length s) in
    let start := if Z.ltb 100 index then (index - 100)%Z else 0%Z in
    let end_ :=
      if Z.ltb (index + len query + 100) (len (FileName page))
      then (index + len query + 100)%Z
      else len (FileName page) in
    snippet <- slice (FileName page) start end_ ;;
    let snippet := if Z.ltb 0 start then "..." +:+ snippet else snippet in
    let snippet :=
      if Z.ltb end_ (len (FileName page)) then snippet +:+ "..." else snippet in
    ret [ "Page: " +:+ PagePath page +:+ nl +:+ "Match: " +:+ snippet +:+ nl
            +:+ "---" +:+ nl ]
  else ret [].

(** [handleSearchWiki]. *)
Definition handleSearchWiki (request : CallToolRequest) : M St CallToolResult :=
  query <- assert_string (arg request "query") ;;
  let '(path, hasPath) := string_ok (arg request "path") in
  r <- getWikisForProject ;;
  match r with
  | Err err => ret (NewToolResultError ("Failed to get wikis: " +:+ err))
  | Ok [] => ret (NewToolResultError "No wikis found for this project")
  | Ok (first :: others) =>
      wikiId <- default_then_select matches_project first (first :: others) ;;
      let queryParams :=
        [ ("recursionLevel", "full") ]
          ++ (if hasPath then [ ("path", path) ] else [])
          ++ [ ("includeContent", "true"); ("api-version", "7.2-preview") ] in
      g <- http_get (pagesURL wikiId queryParams) ;;
      match g with
      | CreateFailed err => ret (NewToolResultError ("Failed to create request: " +:+ err))
      | DoFailed err => ret (NewToolResultError ("Failed to search wiki: " +:+ err))
      | Response resp =>
          match Body resp with
          | Err err => ret (NewToolResultError ("Failed to read response body: " +:+ err))
          | Ok responseBody =>
              if negb (Z.eqb (StatusCode resp) StatusOK)
              then ret (NewToolResultError
                          ("Failed to search wiki. Status: " +:+ itoa (StatusCode resp)))
              else
                match Unmarshal_search ext responseBody with
                | Err err =>
                    ret (NewToolResultError ("Failed to parse response: " +:+ err))
                | Ok pages =>
                    let queryLower := ToLower ext query in
                    found <- mapM (search_page query queryLower) pages ;;
                    let results := concat found in
                    if Nat.eqb (length results) 0
                    then ret (NewToolResultText
                                ("No matches found for '" +:+ query +:+ "'"))
                    else ret (NewToolResultText
                                ("Found " +:+ itoa (Z.of_nat (length results))
                                   +:+ " matches:" +:+ nl +:+ nl
                                   +:+ strings_Join results nl))
                end
          end
      end
  end.

End Bridge.

(** ** Further library functions *)

(** The range of [int] on a 64-bit platform. *)
Definition in_int_range (z : Z) : bool :=
  (Z.leb (- 2 ^ 63) z && Z.leb z (2 ^ 63 - 1))%bool.

(** [strconv.Atoi s], [None] for its error: an optional sign, then one or
    more decimal digits, the value within the range of [int]. *)
Definition strconv_Atoi (s : string) : option Z :=
  let parsed :=
    match s with
    | EmptyString => None
    | String c rest =>
        if Ascii.eqb c "+"
        then option_map Decimal.Pos (NilZero.uint_of_string rest)
        else NilZero.int_of_string s
    end in
  match parsed with
  | Some d => if in_int_range (Z.of_int d) then Some (Z.of_int d) else None
  | None => None
  end.

(** The decoded element of the [items] array of batch_create_work_items; an
    omitted priority decodes to the empty string. *)
Record NewItem : Type := {
  ItemType : string;
  ItemTitle : string;
  ItemDescription : string;
  ItemPriority : string
}.

(** Further functions of the Go standard library that the handlers below
    call: the decoder of the [items] array, the [%T] verb, and the order in
    which [range] walks the fields of a work item. *)
Record MoreExternals : Type := {
  Unmarshal_items : string -> result (list NewItem);
  fmt_T : Value -> string;
  range_fields : gmap string Value -> list (string * Value);
  range_fields_perm : forall m, range_fields m ≡ₚ map_to_list m
}.

(** ** Further handlers of workitems.go, tag.go, attachment.go and wiki.go *)

Section MoreHandlers.

Context {St : Type}.
Variable ext : Externals.
Variable more : MoreExternals.
Variable config : AzureDevOpsConfig.
Variable client : Client St.

Local Open Scope handler_scope.

(** [handleGetWorkItemTags], tag.go. *)
Definition handleGetWorkItemTags (request : CallToolRequest) : M St CallToolResult :=
  id <- assert_int (arg request "id") ;;
  let getArgs := {| gwId := id; gwProject := Project config; gwExpand := None |} in
  r <- call (ReqGetWorkItem getArgs) (GetWorkItem client getArgs) ;;
  match r with
  | Err err => ret (NewToolResultError ("Failed to get work item: " +:+ err))
  | Ok workItem =>
      fields <- deref (Fields workItem) ;;
      let '(tags, ok) := string_ok (fields !! "System.Tags") in
      if ok && negb (String.eqb tags "")
      then ret (NewToolResultText
                  ("Tags for work item #" +:+ itoa id +:+ ":" +:+ nl +:+ tags))
      else ret (NewToolResultText ("No tags found for work item #" +:+ itoa id))
  end.

(** The loop of [handleGetWorkItemDetails] over the pieces of [ids]: the
    parsed IDs, or the first piece that is no integer. *)
Fixpoint parse_ids (idStrs : list string) : string + list Z :=
  match idStrs with
  | [] => inr []
  | idStr :: rest =>
      match strconv_Atoi (TrimSpace ext idStr) with
      | None => inl idStr
      | Some id =>
          match parse_ids rest with
          | inl bad => inl bad
          | inr ids => inr (id :: ids)
          end
      end
  end.

(** The entry of one work item in [handleGetWorkItemDetails]. *)
Definition details_entry (item : WorkItem) : M St string :=
  fields <- deref (Fields item) ;;
  let title := fst (string_ok (fields !! "System.Title")) in
  let description := fst (string_ok (fields !! "System.Description")) in
  let state := fst (string_ok (fields !! "System.State")) in
  id <- deref (Id item) ;;
  ret ("ID: " +:+ itoa id +:+ nl +:+ "Title: " +:+ title +:+ nl
         +:+ "State: " +:+ state +:+ nl +:+ "Description: " +:+ description +:+ nl
         +:+ "---" +:+ nl).

(** [handleGetWorkItemDetails], workitems.go. *)
Definition handleGetWorkItemDetails (request : CallToolRequest) : M St CallToolResult :=
  idsStr <- assert_string (arg request "ids") ;;
  let idStrs := strings_Split idsStr "," in
  match parse_ids idStrs with
  | inl idStr => ret (NewToolResultError ("Invalid ID format: " +:+ idStr))
  | inr ids =>
      let getArgs :=
        {| gwsIds := ids; gwsProject := Some (Project config); gwsExpand := Some "all" |} in
      r <- call (ReqGetWorkItems getArgs) (GetWorkItems client getArgs) ;;
      match r with
      | Err err => ret (NewToolResultError ("Failed to get work items: " +:+ err))
      | Ok workItems =>
          items <- deref workItems ;;
          results <- mapM details_entry items ;;
          ret (NewToolResultText (strings_Join results nl))
      end
  end.

(** [relationTypeMap] of [handleGetRelatedWorkItems]. *)
Definition relationTypeMap_related : gmap string string :=
  list_to_map
    [ ("parent", "System.LinkTypes.Hierarchy-Reverse");
      ("children", "System.LinkTypes.Hierarchy-Forward");
      ("related", "System.LinkTypes.Related") ].

(** The loop of [handleGetRelatedWorkItems] over the relations: the debug
    lines and the IDs collected. *)
Fixpoint related_scan (relationType : string) (relations : list WorkItemRelation)
    : M St (list string * list Z) :=
  match relations with
  | [] => ret ([], [])
  | relation :: rest =>
      rel <- deref (Rel relation) ;;
      found <-
        (if String.eqb relationType "all"
            || String.eqb rel (default "" (relationTypeMap_related !! relationType))
         then
           url <- deref (Url relation) ;;
           let parts := strings_Split url "/" in
           match strconv_Atoi (List.last parts "") with
           | Some relatedID => ret [relatedID]
           | None => ret []
           end
         else ret []) ;;
      collected <- related_scan relationType rest ;;
      ret (("Found relation of type: " +:+ rel) :: fst collected, found ++ snd collected)
  end.

(** [handleGetRelatedWorkItems], workitems.go. *)
Definition handleGetRelatedWorkItems (request : CallToolRequest) : M St CallToolResult :=
  id <- assert_int (arg request "id") ;;
  relationType <- assert_string (arg request "relation_type") ;;
  let getArgs :=
    {| gwId := id; gwProject := Project config; gwExpand := Some "relations" |} in
  r <- call (ReqGetWorkItem getArgs) (GetWorkItem client getArgs) ;;
  match r with
  | Err err => ret (NewToolResultError ("Failed to get work item: " +:+ err))
  | Ok workItem =>
      match Relations workItem with
      | None => ret (NewToolResultText "No related items found")
      | Some relations =>
          let debugInfo :=
            [ "Looking for relation type: " +:+ relationType +:+ " (mapped to: "
                +:+ default "" (relationTypeMap_related !! relationType) +:+ ")" ] in
          collected <- related_scan relationType relations ;;
          let debugInfo := debugInfo ++ fst collected in
          let relatedIds := snd collected in
          if Nat.eqb (length relatedIds) 0
          then ret (NewToolResultText
                      ("Debug info:" +:+ nl +:+ strings_Join debugInfo nl +:+ nl +:+ nl
                         +:+ "No matching related items found"))
          else
            let getsArgs :=
              {| gwsIds := relatedIds; gwsProject := Some (Project config);
                 gwsExpand := None |} in
            r <- call (ReqGetWorkItems getsArgs) (GetWorkItems client getsArgs) ;;
            match r with
            | Err err => ret (NewToolResultError ("Failed to get related items: " +:+ err))
            | Ok relatedItems =>
                items <- deref relatedItems ;;
                results <-
                  mapM (fun item =>
                          fields <- deref (Fields item) ;;
                          let title := fst (string_ok (fields !! "System.Title")) in
                          wid <- deref (Id item) ;;
                          ret ("ID: " +:+ itoa wid +:+ ", Title: " +:+ title))
                    items ;;
                ret (NewToolResultText (strings_Join results nl))
            end
      end
  end.

(** [handleGetWorkItemFields], workitems.go. *)
Definition handleGetWorkItemFields (request : CallToolRequest) : M St CallToolResult :=
  id <- assert_int (arg request "work_item_id") ;;
  let getArgs := {| gwId := id; gwProject := Project config; gwExpand := None |} in
  r <- call (ReqGetWorkItem getArgs) (GetWorkItem client getArgs) ;;
  match r with
  | Err err => ret (NewToolResultError ("Failed to get work item details: " +:+ err))
  | Ok workItem =>
      let '(fieldName, hasFieldFilter) := string_ok (arg request "field_name") in
      fields <- deref (Fields workItem) ;;
      let results :=
        List.map
          (fun field =>
             "Field: " +:+ fst field +:+ nl +:+ "Value: " +:+ fmt_v ext (snd field) +:+ nl
               +:+ "Type: " +:+ fmt_T more (snd field) +:+ nl +:+ "---")
          (List.filter
             (fun field =>
                negb (hasFieldFilter
                      && negb (strings_Contains (ToLower ext (fst field))
                                 (ToLower ext fieldName))))
             (range_fields more fields)) in
      if Nat.eqb (length results) 0
      then
        if hasFieldFilter
        then ret (NewToolResultText ("No fields found matching: " +:+ fieldName))
        else ret (NewToolResultText "No fields found")
      else ret (NewToolResultText (strings_Join results nl))
  end.

(** The body of the loop of [handleBatchCreateWorkItems]: the line appended
    to [results] for one item. *)
Definition batch_create_item (item : NewItem) : M St string :=
  let document :=
    [ {| Op := OpAdd; Path := "/fields/System.Title";
         PatchValue := VString (ItemTitle item) |};
      {| Op := OpAdd; Path := "/fields/System.Description";
         PatchValue := VString (ItemDescription item) |} ] in
  let document :=
    if negb (String.eqb (ItemPriority item) "")
    then document ++
         [ {| Op := OpAdd; Path := "/fields/Microsoft.VSTS.Common.Priority";
              PatchValue := VString (ItemPriority item) |} ]
    else document in
  let createArgs :=
    {| cwType := ItemType item; cwProject := Project config; cwDocument := document |} in
  r <- call (ReqCreateWorkItem createArgs) (CreateWorkItem client createArgs) ;;
  match r with
  | Err err => ret ("Failed to create '" +:+ ItemTitle item +:+ "': " +:+ err)
  | Ok workItem =>
      wid <- deref (Id workItem) ;;
      ret ("Created work item #" +:+ itoa wid +:+ ": " +:+ ItemTitle item)
  end.

(** [handleBatchCreateWorkItems], workitems.go. *)
Definition handleBatchCreateWorkItems (request : CallToolRequest)
    : M St CallToolResult :=
  itemsJSON <- assert_string (arg request "items") ;;
  match Unmarshal_items more itemsJSON with
  | Err err => ret (NewToolResultError ("Invalid JSON format: " +:+ err))
  | Ok items =>
      results <- mapM batch_create_item items ;;
      ret (NewToolResultText (strings_Join results nl))
  end.

(** The scan of the relation array in [handleRemoveWorkItemAttachment]:
    [relationIndex], -1 when no entry matches; [i] is the position of the
    head of [relations] in the array. *)
Fixpoint attachment_scan (attachmentID : string) (relations : list WorkItemRelation)
    (i : nat) : M St Z :=
  match relations with
  | [] => ret (-1)%Z
  | relation :: rest =>
      rel <- deref (Rel relation) ;;
      if String.eqb rel "AttachedFile"
      then
        url <- deref (Url relation) ;;
        if strings_Contains url attachmentID
        then ret (Z.of_nat i)
        else attachment_scan attachmentID rest (S i)
      else attachment_scan attachmentID rest (S i)
  end.

(** [handleRemoveWorkItemAttachment], attachment.go. *)
Definition handleRemoveWorkItemAttachment (request : CallToolRequest)
    : M St CallToolResult :=
  id <- assert_int (arg request "id") ;;
  attachmentID <- assert_string (arg request "attachment_id") ;;
  let getArgs :=
    {| gwId := id; gwProject := Project config; gwExpand := Some "relations" |} in
  r <- call (ReqGetWorkItem getArgs) (GetWorkItem client getArgs) ;;
  match r with
  | Err err => ret (NewToolResultError ("Failed to get work item: " +:+ err))
  | Ok workItem =>
      match Relations workItem with
      | None => ret (NewToolResultError "Work item has no attachments")
      | Some relations =>
          relationIndex <- attachment_scan attachmentID relations 0 ;;
          if Z.eqb relationIndex (-1)
          then ret (NewToolResultError "Attachment not found")
          else
            let updateArgs :=
              {| uwId := id;
                 uwProject := Project config;
                 uwDocument :=
                   [ {| Op := OpRemove;
                        Path := "/relations/" +:+ itoa relationIndex;
                        PatchValue := VNull |} ] |} in
            r <- call (ReqUpdateWorkItem updateArgs) (UpdateWorkItem client updateArgs) ;;
            match r with
            | Err err => ret (NewToolResultError ("Failed to remove attachment: " +:+ err))
            | Ok _ =>
                ret (NewToolResultText
                       ("Removed attachment from work item #" +:+ itoa id))
            end
      end
  end.

(** The entry of one wiki in [handleGetWikis]; [i] counts from 0. *)
Definition wiki_entry (i : nat) (wiki : option Wiki) : M St string :=
  w <- deref wiki ;;
  name <- deref (WikiName w) ;;
  wikiId <- deref (WikiId w) ;;
  ret (itoa (Z.of_nat i + 1) +:+ ". Wiki Name: " +:+ name +:+ nl
         +:+ "   Wiki ID: " +:+ wikiId +:+ nl +:+ nl).

(** [handleGetWikis], wiki.go. *)
Definition handleGetWikis (request : CallToolRequest) : M St CallToolResult :=
  r <- getWikisForProject ext config client ;;
  match r with
  | Err err => ret (NewToolResultError ("Failed to get wikis: " +:+ err))
  | Ok wikis =>
      if Nat.eqb (length wikis) 0
      then ret (NewToolResultError "No wikis found for this project")
      else
        entries <- mapM (fun iw => wiki_entry (fst iw) (snd iw))
                     (combine (seq 0 (length wikis)) wikis) ;;
        ret (NewToolResultText
               (foldl append
                  ("Found " +:+ itoa (Z.of_nat (length wikis)) +:+ " wikis for project "
                     +:+ Project config +:+ ":" +:+ nl +:+ nl)
                  entries))
  end.

End MoreHandlers.



(** ** The prompt handlers of workitems.go *)

(** [mcp.GetPromptRequest]: the arguments of a prompt are strings. *)
Record GetPromptRequest : Type := {
  PromptArguments : gmap string string
}.

(** [mcp.GetPromptResult] as built by [mcp.NewGetPromptResult]: a
    description and the messages, each a role with its text. *)
Record GetPromptResult : Type := {
  PromptDescription : string;
  Messages : list (string * string)
}.

(** [request.Params.Arguments[name]] on a map of strings: the empty string
    for a missing key. *)
Definition prompt_arg (request : GetPromptRequest) (name : string) : string :=
  default "" (PromptArguments request !! name).

(** [handleWiqlQueryFormatPrompt]. *)
Definition handleWiqlQueryFormatPrompt (request : GetPromptRequest)
    : result GetPromptResult :=
  match PromptArguments request !! "query_type" with
  | None => Err "query_type is required"
  | Some queryType =>
      let additionalFields := prompt_arg request "additional_fields" in
      let baseFields :=
        "[System.Id], [System.Title], [System.WorkItemType], [System.State], [System.AssignedTo]" in
      let baseFields :=
        if negb (String.eqb additionalFields "")
        then baseFields +:+ ", " +:+ additionalFields
        else baseFields in
      let '(template, explanation) :=
        if String.eqb queryType "current_sprint" then
          ("SELECT " +:+ baseFields
             +:+ " FROM WorkItems WHERE [System.IterationPath] = @currentIteration('fanapp')",
           "This query gets all work items in the current sprint. The @currentIteration macro automatically resolves to the current sprint path.")
        else if String.eqb queryType "assigned_to_me" then
          ("SELECT " +:+ baseFields
             +:+ " FROM WorkItems WHERE [System.AssignedTo] = @me AND [System.State] <> 'Closed'",
           "This query gets all active work items assigned to the current user. The @me macro automatically resolves to the current user.")
        else if String.eqb queryType "active_bugs" then
          ("SELECT " +:+ baseFields
             +:+ " FROM WorkItems WHERE [System.WorkItemType] = 'Bug' AND [System.State] <> 'Closed' ORDER BY [Microsoft.VSTS.Common.Priority]",
           "This query gets all active bugs, ordered by priority.")
        else if String.eqb queryType "blocked_items" then
          ("SELECT " +:+ baseFields
             +:+ " FROM WorkItems WHERE [System.State] <> 'Closed' AND [Microsoft.VSTS.Common.Blocked] = 'Yes'",
           "This query gets all work items that are marked as blocked.")
        else if String.eqb queryType "recent_activity" then
          ("SELECT " +:+ baseFields
             +:+ " FROM WorkItems WHERE [System.ChangedDate] > @today-7 ORDER BY [System.ChangedDate] DESC",
           "This query gets all work items modified in the last 7 days, ordered by most recent first.")
        else ("", "") in
      Ok {| PromptDescription := "WIQL Query Format Helper";
            Messages :=
              [ ("system",
                 "You are a WIQL query expert. Help format queries for Azure DevOps work items.");
                ("assistant",
                 "Here's a template for a " +:+ queryType +:+ " query:" +:+ nl +:+ nl
                   +:+ "```sql" +:+ nl +:+ template +:+ nl +:+ "```" +:+ nl +:+ nl
                   +:+ explanation +:+ nl +:+ nl
                   +:+ "Common WIQL Tips:" +:+ nl
                   +:+ "- Use square brackets [] around field names" +:+ nl
                   +:+ "- Common macros: @me, @today, @currentIteration" +:+ nl
                   +:+ "- Date arithmetic: @today+/-n" +:+ nl
                   +:+ "- String comparison is case-insensitive" +:+ nl
                   +:+ "- Use 'Contains' for partial matches") ] |}
  end.

(** [handleFormatWorkItemDescription]. *)
Definition handleFormatWorkItemDescription (request : GetPromptRequest)
    : result GetPromptResult :=
  let description := prompt_arg request "description" in
  Ok {| PromptDescription := "Azure DevOps Work Item Description Formatter";
        Messages :=
          [ ("system",
             "You format work item descriptions for Azure DevOps. Use proper HTML formatting with <ul>, <li> for bullet points, <p> for paragraphs, and <br> for line breaks.");
            ("assistant",
             "Here's your description formatted with HTML:" +:+ nl +:+ nl +:+ "<ul>" +:+ nl
               +:+ strings_Join (strings_Split description "-") ("</li>" +:+ nl +:+ "<li>")
               +:+ nl +:+ "</ul>") ] |}.

(** ** Specification-side definitions *)

(** The Patch document of create_work_item as the specification words it:
    title, description, then priority if and only if one was supplied. *)
Definition create_document (title description : string) (priority : option string)
    : list JsonPatchOperation :=
  [ {| Op := OpAdd; Path := "/fields/System.Title"; PatchValue := VString title |};
    {| Op := OpAdd; Path := "/fields/System.Description";
       PatchValue := VString description |} ]
  ++ match priority with
     | Some p =>
         [ {| Op := OpAdd; Path := "/fields/Microsoft.VSTS.Common.Priority";
              PatchValue := VString p |} ]
     | None => []
     end.

(** An argument that was supplied as a string, in the sense of the checked
    assertion [s, ok := v.(string)]. *)
Definition supplied_string (v : option Value) : option string :=
  match v with
  | Some (VString s) => Some s
  | _ => None
  end.

(** An argument that was supplied as a number, in the sense of the
    assertion [v.(float64)]. *)
Definition supplied_int (v : option Value) : option Z :=
  match v with
  | Some (VNumber n) => Some n
  | _ => None
  end.

(** Two invocations that differ at most in the value of one argument,
    which may also be absent from either. *)
Definition differ_only_in (name : string) (request1 request2 : CallToolRequest)
    : Prop :=
  delete name (Arguments request1) = delete name (Arguments request2).

(** A tag set as the remote service hands it out: no tag twice, and no tag
    with white space around it. *)
Definition tag_set (ext : Externals) (T : list string) : Prop :=
  NoDup T /\ Forall (fun t => TrimSpace ext t = t) T.

(** A relation entry that matches the mapped relation type and the URL of
    the target item. *)
Definition relation_matches (azureRelationType targetUrl : string)
    (relation : WorkItemRelation) : Prop :=
  Rel relation = Some azureRelationType /\ Url relation = Some targetUrl.

#[global] Instance relation_matches_dec azureRelationType targetUrl relation :
  Decision (relation_matches azureRelationType targetUrl relation).
Proof. unfold relation_matches. apply _. Defined.

(** A relation entry as the remote service sends it, with its type and its
    URL present. *)
Definition relation_complete (relation : WorkItemRelation) : Prop :=
  is_Some (Rel relation) /\ is_Some (Url relation).

(** The Patch operation that removes the relation at position [i]. *)
Definition remove_relation_at (i : nat) : JsonPatchOperation :=
  {| Op := OpRemove; Path := "/relations/" +:+ itoa (Z.of_nat i); PatchValue := VNull |}.

(** A query match as the remote service sends it, with its ID present. *)
Definition reference (id : Z) : WorkItemReference := {| RefId := Some id |}.

(** The fetched work items all carry their ID. *)
Definition details_have_ids (r : result (option (list WorkItem))) : Prop :=
  match r with
  | Ok (Some items) => Forall (fun item => is_Some (Id item)) items
  | _ => True
  end.

(** The header line of the transcript of query_work_items. *)
Definition query_header (total shown : nat) : string :=
  "Found " +:+ itoa (Z.of_nat total) +:+ " work items. Showing details for the first "
    +:+ itoa (Z.of_nat shown) +:+ ":".

(** An update of the batch that names one of the four aliases. *)
Definition valid_field (update : Update) : Prop := is_Some (fieldMap !! Field update).

(** The inline error line of an update that names another field. *)
Definition invalid_field_line (update : Update) : string :=
  "Invalid field for #" +:+ itoa (ID update) +:+ ": " +:+ Field update.

(** A line is marked as an invalid-field failure. *)
Definition is_invalid_field_line (line : string) : bool :=
  strings_HasPrefix line "Invalid field for #".

(** The line of a valid update reports the outcome of its own Patch: the
    success, or the failure with the ID the update named. *)
Definition update_outcome_line (update : Update) (line : string) : Prop :=
  (exists id : Z, line = "Updated work item #" +:+ itoa id)
  \/ (exists err : string,
        line = "Failed to update #" +:+ itoa (ID update) +:+ ": " +:+ err).

(** The Patch request of a valid update of the batch. *)
Definition batch_update_request (config : AzureDevOpsConfig) (update : Update)
    : Request :=
  ReqUpdateWorkItem
    {| uwId := ID update;
       uwProject := Project config;
       uwDocument :=
         [ {| Op := OpReplace;
              Path := "/fields/" +:+ default "" (fieldMap !! Field update);
              PatchValue := VString (UpdateValue update) |} ] |}.

(** The remote service answers a successful update with a work item that
    carries its ID. *)
Definition updates_answer_with_id {St} (client : Client St) : Prop :=
  forall a s workItem s',
    UpdateWorkItem client a s = (Ok workItem, s') -> is_Some (Id workItem).

(** A wiki as the remote service sends it, given by its ID and its name. *)
Definition present_wiki (wiki : string * string) : option Wiki :=
  Some {| WikiId := Some (fst wiki); WikiName := Some (snd wiki) |}.

(** The selection as the specification words it: the ID of the first wiki,
    in returned order, whose name passes the test, and otherwise the ID of
    the first wiki. *)
Definition choose_wiki (test : string -> bool) (first : string * string)
    (others : list (string * string)) : string :=
  match List.find (fun wiki => test (snd wiki)) (first :: others) with
  | Some wiki => fst wiki
  | None => fst first
  end.

(** The request that lists the wikis of the project, and the request for
    the pages of one wiki. *)
Definition wikis_request (ext : Externals) (config : AzureDevOpsConfig) : HttpRequest :=
  {| Method := "GET";
     URL := OrganizationURL config +:+ "/" +:+ PathEscape ext (Project config)
              +:+ "/_apis/wiki/wikis?api-version=7.2-preview";
     BasicAuth := ("", PersonalAccessToken config) |}.

Definition pages_request (ext : Externals) (config : AzureDevOpsConfig)
    (wikiId : string) (queryParams : list (string * string)) : HttpRequest :=
  {| Method := "GET";
     URL := pagesURL ext config wikiId queryParams;
     BasicAuth := ("", PersonalAccessToken config) |}.

(** The remote service, asked in state [s] for the wikis of the project,
    answers with status 200 and a body that decodes to [wikis], and moves
    to state [s1]. *)
Definition wikis_listed {St} (ext : Externals) (config : AzureDevOpsConfig)
    (client : Client St) (s : St) (wikis : list (string * string)) (s1 : St) : Prop :=
  exists resp body,
    Do client (wikis_request ext config) s = (Ok resp, s1)
    /\ Body resp = Ok body
    /\ StatusCode resp = StatusOK
    /\ Unmarshal_wikis ext body = Ok (present_wiki <$> wikis).

(** A string that can be a piece of a split at [sep]: [sep] occurs in
    [e +:+ sep] at the end only. *)
Fixpoint piece_of (sep e : string) : bool :=
  match e with
  | EmptyString => true
  | String _ e' => negb (String.prefix sep (e +:+ sep)) && piece_of sep e'
  end.

(** A relation entry that [handleRemoveWorkItemAttachment] takes for the
    attachment: an attached file whose URL contains the identifier. *)
Definition attachment_matches (attachmentID : string) (relation : WorkItemRelation)
    : Prop :=
  Rel relation = Some "AttachedFile"
  /\ strings_Contains (default "" (Url relation)) attachmentID = true.

#[global] Instance attachment_matches_dec attachmentID relation :
  Decision (attachment_matches attachmentID relation).
Proof. unfold attachment_matches. apply _. Defined.

(** A relation entry that is an attached file. *)
Definition is_attached_file (relation : WorkItemRelation) : Prop :=
  Rel relation = Some "AttachedFile".

#[global] Instance is_attached_file_dec relation : Decision (is_attached_file relation).
Proof. unfold is_attached_file. apply _. Defined.

(** The Patch request of update_work_item for a field name taken as it is. *)
Definition single_update_request (config : AzureDevOpsConfig) (id : Z)
    (field value : string) : Request :=
  ReqUpdateWorkItem
    {| uwId := id;
       uwProject := Project config;
       uwDocument :=
         [ {| Op := OpReplace; Path := "/fields/" +:+ field;
              PatchValue := VString value |} ] |}.

(** The Patch of the add branch of manage_work_item_relations. *)
Definition add_relation_args (config : AzureDevOpsConfig) (sourceID targetID : Z)
    (azureRelationType : string) : UpdateWorkItemArgs :=
  {| uwId := sourceID;
     uwProject := Project config;
     uwDocument :=
       [ {| Op := OpAdd;
            Path := "/relations/-";
            PatchValue :=
              VObject
                [ ("rel", VString azureRelationType);
                  ("url", VString (workItemUrl config targetID));
                  ("attributes", VObject [ ("comment", VString "Added via MCP") ]) ] |} ] |}.

(** The details request of query_work_items did not yield any work item:
    it failed, or came back nil or empty. *)
Definition details_unavailable (r : result (option (list WorkItem))) : Prop :=
  match r with
  | Ok (Some (_ :: _)) => False
  | _ => True
  end.

(** The fallback line of one match of query_work_items. *)
Definition id_line (id : Z) : string := "ID: " +:+ itoa id.

(** The create request of one item of a batch: the document of
    create_work_item, with the priority left out when it is empty. *)
Definition batch_create_request (config : AzureDevOpsConfig) (item : NewItem) : Request :=
  ReqCreateWorkItem
    {| cwType := ItemType item;
       cwProject := Project config;
       cwDocument :=
         create_document (ItemTitle item) (ItemDescription item)
           (if decide (ItemPriority item = "") then None else Some (ItemPriority item)) |}.

(** The line the batch reports for one item: a failure or a creation, in
    both cases with the title of the input. *)
Definition create_outcome_line (item : NewItem) (line : string) : Prop :=
  (exists err, line = "Failed to create '" +:+ ItemTitle item +:+ "': " +:+ err)
  \/ (exists id, line = "Created work item #" +:+ itoa id +:+ ": " +:+ ItemTitle item).

(** Every work item the service creates carries its ID. *)
Definition creations_have_ids {St : Type} (client : Client St) : Prop :=
  forall a s workItem s',
    CreateWorkItem client a s = (Ok workItem, s') -> is_Some (Id workItem).

(** Every byte of [s] satisfies [P]. *)
Fixpoint string_forall (P : ascii -> bool) (s : string) : bool :=
  match s with
  | EmptyString => true
  | String c s' => P c && string_forall P s'
  end.

(** The bytes [strconv.Itoa] writes: the minus sign and the ten digits. *)
Definition decimal_char (c : ascii) : bool :=
  Ascii.eqb c "-" || (Nat.leb 48 (nat_of_ascii c) && Nat.leb (nat_of_ascii c) 57).

(** The details request of get_work_item_details for a list of IDs. *)
Definition details_request (config : AzureDevOpsConfig) (ids : list Z) : Request :=
  ReqGetWorkItems
    {| gwsIds := ids; gwsProject := Some (Project config); gwsExpand := Some "all" |}.

(** A piece of the [ids] argument that names the integer [n]: it has no
    comma, and trimmed of white space it is the decimal form of [n]. *)
Definition names_id (ext : Externals) (piece : string) (n : Z) : Prop :=
  strings_Contains piece "," = false
  /\ TrimSpace ext piece = itoa n
  /\ in_int_range n = true.

(** The relation entry that the add branch of manage_work_item_relations
    sends for a link of type [azureRelationType] to [targetID]. *)
Definition link_to (config : AzureDevOpsConfig) (azureRelationType : string)
    (targetID : Z) : WorkItemRelation :=
  {| Rel := Some azureRelationType; Url := Some (workItemUrl config targetID) |}.

(** The relation types get_related_work_items knows by name. *)
Definition known_relation_type (relationType : string) : Prop :=
  relationType = "all" \/ relationType = "parent" \/ relationType = "children"
  \/ relationType = "related".

(** A link, as a pair of its Azure relation type and its target, is one
    that get_related_work_items is asked for. *)
Definition asked_link (relationType : string) (link : string * Z) : bool :=
  String.eqb relationType "all"
  || String.eqb (fst link) (default "" (relationTypeMap_related !! relationType)).

(** The two requests of get_related_work_items: the relations of the work
    item, then the details of the related ones. *)
Definition related_requests (config : AzureDevOpsConfig) (id : Z) (relatedIds : list Z)
    : list Request :=
  [ ReqGetWorkItem
      {| gwId := id; gwProject := Project config; gwExpand := Some "relations" |};
    ReqGetWorkItems
      {| gwsIds := relatedIds; gwsProject := Some (Project config); gwsExpand := None |} ].

(** The entry get_work_item_fields shows for one field. *)
Definition field_entry (ext : Externals) (more : MoreExternals) (field : string * Value)
    : string :=
  "Field: " +:+ fst field +:+ nl +:+ "Value: " +:+ fmt_v ext (snd field) +:+ nl
    +:+ "Type: " +:+ fmt_T more (snd field) +:+ nl +:+ "---".

(** The reference name of a field contains the filter, letter case apart. *)
Definition field_matches (ext : Externals) (fieldName : string) (field : string * Value)
    : bool :=
  strings_Contains (ToLower ext (fst field)) (ToLower ext fieldName).

(** The query types the WIQL prompt has a template for. *)
Definition known_query_type (queryType : string) : Prop :=
  queryType = "current_sprint" \/ queryType = "assigned_to_me"
  \/ queryType = "active_bugs" \/ queryType = "blocked_items"
  \/ queryType = "recent_activity".

(** The text of the assistant message of a prompt result. *)
Definition assistant_text (r : result GetPromptResult) : option string :=
  match r with
  | Ok prompt => snd <$> List.find (fun m => String.eqb (fst m) "assistant") (Messages prompt)
  | Err _ => None
  end.

(** The assistant message of the WIQL prompt around a template and its
    explanation. *)
Definition wiql_answer (queryType template explanation : string) : string :=
  "Here's a template for a " +:+ queryType +:+ " query:" +:+ nl +:+ nl
    +:+ "```sql" +:+ nl +:+ template +:+ nl +:+ "```" +:+ nl +:+ nl
    +:+ explanation +:+ nl +:+ nl
    +:+ "Common WIQL Tips:" +:+ nl
    +:+ "- Use square brackets [] around field names" +:+ nl
    +:+ "- Common macros: @me, @today, @currentIteration" +:+ nl
    +:+ "- Date arithmetic: @today+/-n" +:+ nl
    +:+ "- String comparison is case-insensitive" +:+ nl
    +:+ "- Use 'Contains' for partial matches".

(** ** Test doubles

    A concrete instance of the library functions for strings of ASCII
    bytes, and remote services with scripted answers, on which the handlers
    can be evaluated. *)

Definition is_space (c : ascii) : bool :=
  let n := nat_of_ascii c in
  (Nat.leb 9 n && Nat.leb n 13) || Nat.eqb n 32.

Fixpoint trim_left (s : string) : string :=
  match s with
  | EmptyString => ""
  | String c s' => if is_space c then trim_left s' else s
  end.

Fixpoint trim_right (s : string) : string :=
  match s with
  | EmptyString => ""
  | String c s' =>
      match trim_right s' with
      | EmptyString => if is_space c then "" else String c ""
      | t => String c t
      end
  end.

Definition ascii_TrimSpace (s : string) : string := trim_right (trim_left s).

Definition lower_char (c : ascii) : ascii :=
  let n := nat_of_ascii c in
  if Nat.leb 65 n && Nat.leb n 90 then ascii_of_nat (n + 32) else c.

Fixpoint ascii_ToLower (s : string) : string :=
  match s with
  | EmptyString => ""
  | String c s' => String (lower_char c) (ascii_ToLower s')
  end.

Definition plain_fmt_v (v : Value) : string :=
  match v with
  | VNull => "<nil>"
  | VString s => s
  | VNumber n => itoa n
  | VBool true => "true"
  | VBool false => "false"
  | _ => ""
  end.

Definition plain_Encode (params : list (string * string)) : string :=
  strings_Join (List.map (fun kv => fst kv +:+ "=" +:+ snd kv) params) "&".

(** Library functions for examples: the decoders answer with the given
    decoded values whatever the text. *)
Definition test_externals (updates : list Update) (sprints : list Sprint)
    (wikis : list (option Wiki)) : Externals :=
  {| TrimSpace := ascii_TrimSpace;
     ToLower := ascii_ToLower;
     fmt_v := plain_fmt_v;
     PathEscape := fun s => s;
     Encode := plain_Encode;
     NewRequest_error := fun _ _ => None;
     Format_date := fun s => s;
     Unmarshal_updates := fun _ => Ok updates;
     Decode_sprints := fun _ => Ok sprints;
     Unmarshal_wikis := fun _ => Ok wikis;
     Unmarshal_page := fun body => Ok {| Content := body; SubPages := [] |};
     Unmarshal_list := fun _ => Ok [];
     Unmarshal_search := fun _ => Ok [];
     range_keys := fun m => elements (dom m);
     range_keys_perm := fun m => Permutation_refl (elements (dom m)) |}.

Definition test_config : AzureDevOpsConfig :=
  {| OrganizationURL := "https://dev.azure.com/org";
     PersonalAccessToken := "pat";
     Project := "Demo" |}.

(** The title a create request carries in its first operation. *)
Definition document_title (document : list JsonPatchOperation) : Value :=
  match document with
  | op :: _ => PatchValue op
  | [] => VNull
  end.

(** A remote service without state: creation echoes the title under the
    given ID, updates answer with the ID they were addressed to unless it
    is listed in [failing], reads answer with the given work item, queries
    with the given references, and HTTP requests with status 200 and the
    given body. *)
Definition scripted_client (newId : Z) (failing : list Z) (stored : WorkItem)
    (matches : list WorkItemReference) (body : string) : Client unit :=
  {| CreateWorkItem := fun a s =>
       (Ok {| Id := Some newId;
              Fields := Some {[ "System.Title" := document_title (cwDocument a) ]};
              Relations := None |}, s);
     UpdateWorkItem := fun a s =>
       (if bool_decide (uwId a ∈ failing)
        then Err "remote rejection"
        else Ok {| Id := Some (uwId a); Fields := None; Relations := None |}, s);
     GetWorkItem := fun _ s => (Ok stored, s);
     GetWorkItems := fun _ s => (Err "details unavailable", s);
     QueryByWiql := fun _ s => (Ok {| WorkItems := Some matches |}, s);
     CreateOrUpdatePage := fun _ s => (Ok tt, s);
     Do := fun _ s => (Ok {| StatusCode := 200; Body := Ok body |}, s) |}.

Definition empty_item : WorkItem :=
  {| Id := None; Fields := Some ∅; Relations := None |}.

Definition start : World unit := {| remote := tt; issued := [] |}.

Definition request_of (args : list (string * Value)) : CallToolRequest :=
  {| Arguments := list_to_map args |}.

Definition login_fails_request : CallToolRequest :=
  request_of
    [ ("type", VString "Bug");
      ("title", VString "Login fails");
      ("description", VString "NPE on null token") ].

Definition tagged_item : WorkItem :=
  {| Id := Some 5%Z;
     Fields := Some {[ "System.Tags" := VString "a; b" ]};
     Relations := None |}.

Definition related (id : string) : WorkItemRelation :=
  {| Rel := Some "System.LinkTypes.Related";
     Url := Some ("https://dev.azure.com/org/_apis/wit/workItems/" +:+ id) |}.

Definition linked_item : WorkItem :=
  {| Id := Some 1%Z;
     Fields := Some ∅;
     Relations :=
       Some [ related "8";
              {| Rel := Some "System.LinkTypes.Hierarchy-Forward";
                 Url := Some "https://dev.azure.com/org/_apis/wit/workItems/9" |};
              related "9"; related "9" ] |}.

Definition remove_related_request (targetID : Z) : CallToolRequest :=
  request_of
    [ ("source_id", VNumber 1); ("target_id", VNumber targetID);
      ("relation_type", VString "related"); ("operation", VString "remove") ].

Definition twenty_five_ids : list Z := List.map Z.of_nat (seq 101 25).

Definition query_request : CallToolRequest :=
  request_of [ ("query", VString "SELECT [System.Id] FROM WorkItems") ].

Definition batch_of_four : list Update :=
  [ {| ID := 1; Field := "State"; UpdateValue := "Closed" |};
    {| ID := 2; Field := "Severity"; UpdateValue := "High" |};
    {| ID := 3; Field := "Title"; UpdateValue := "Renamed" |};
    {| ID := 4; Field := "Priority"; UpdateValue := "1" |} ].

Definition batch_request : CallToolRequest :=
  request_of [ ("updates", VString "[four updates]") ].

Definition three_wikis : list (string * string) :=
  [ ("id-1", "Handbook"); ("id-2", "Team Documentation"); ("id-3", "Demo.wiki") ].

Definition home_page_request : CallToolRequest :=
  request_of [ ("path", VString "Home") ].

Definition attached (url : string) : WorkItemRelation :=
  {| Rel := Some "AttachedFile"; Url := Some url |}.

Definition item_with_attachments : WorkItem :=
  {| Id := Some 1%Z;
     Fields := Some ∅;
     Relations :=
       Some [ related "8";
              attached "https://dev.azure.com/org/_apis/wit/attachments/abc-1";
              attached "https://dev.azure.com/org/_apis/wit/attachments/abc-12" ] |}.

Definition remove_attachment_request (attachmentID : string) : CallToolRequest :=
  request_of [ ("id", VNumber 1); ("attachment_id", VString attachmentID) ].

Definition three_ids : list Z := [ 7; 8; 9 ]%Z.

Definition titled_item (id : Z) (title : string) : WorkItem :=
  {| Id := Some id;
     Fields := Some {[ "System.Title" := VString title ]};
     Relations := None |}.

(** A remote service that answers every details request with the same
    work items, and is the scripted one otherwise. *)
Definition answering_client (stored : WorkItem) (matches : list WorkItemReference)
    (details : list WorkItem) : Client unit :=
  let scripted := scripted_client 42 [] stored matches "" in
  {| CreateWorkItem := CreateWorkItem scripted;
     UpdateWorkItem := UpdateWorkItem scripted;
     GetWorkItem := GetWorkItem scripted;
     GetWorkItems := fun _ s => (Ok (Some details), s);
     QueryByWiql := QueryByWiql scripted;
     CreateOrUpdatePage := CreateOrUpdatePage scripted;
     Do := Do scripted |}.

Definition three_items : list WorkItem :=
  [ titled_item 7 "First"; titled_item 8 "Second"; titled_item 9 "Third" ].

Definition plain_fmt_T (v : Value) : string :=
  match v with
  | VNull => "<nil>"
  | VString _ => "string"
  | VNumber _ => "float64"
  | VBool _ => "bool"
  | VArray _ => "[]interface {}"
  | VObject _ => "map[string]interface {}"
  end.

Definition test_more (items : list NewItem) : MoreExternals :=
  {| Unmarshal_items := fun _ => Ok items;
     fmt_T := plain_fmt_T;
     range_fields := map_to_list;
     range_fields_perm := fun m => Permutation_refl (map_to_list m) |}.

Definition two_new_items : list NewItem :=
  [ {| ItemType := "Bug"; ItemTitle := "Crash"; ItemDescription := "On start";
       ItemPriority := "" |};
    {| ItemType := "Task"; ItemTitle := "Docs"; ItemDescription := "Write them";
       ItemPriority := "2" |} ].

Definition batch_create_call : CallToolRequest :=
  request_of [ ("items", VString "[...]") ].

Definition details_call (ids : string) : CallToolRequest :=
  request_of [ ("ids", VString ids) ].

Definition related_call (relationType : string) : CallToolRequest :=
  request_of [ ("id", VNumber 1); ("relation_type", VString relationType) ].

(** A work item with a parent, two children and a related item, linked as
    manage_work_item_relations links them. *)
Definition family_links : list (string * Z) :=
  [ ("System.LinkTypes.Hierarchy-Reverse", 3%Z);
    ("System.LinkTypes.Hierarchy-Forward", 11%Z);
    ("System.LinkTypes.Related", 20%Z);
    ("System.LinkTypes.Hierarchy-Forward", 12%Z) ].

Definition family_item : WorkItem :=
  {| Id := Some 1%Z;
     Fields := Some ∅;
     Relations := Some ((fun link => link_to test_config (fst link) (snd link))
                          <$> family_links) |}.

Definition readme_page : WikiSearchEntry :=
  {| FileName := "Release-Notes.md"; PagePath := "/Release-Notes" |}.

(** A remote service whose HTTP endpoint cannot be reached. *)
Definition unreachable_client : Client unit :=
  let scripted := scripted_client 42 [] empty_item [] "" in
  {| CreateWorkItem := CreateWorkItem scripted;
     UpdateWorkItem := UpdateWorkItem scripted;
     GetWorkItem := GetWorkItem scripted;
     GetWorkItems := GetWorkItems scripted;
     QueryByWiql := QueryByWiql scripted;
     CreateOrUpdatePage := CreateOrUpdatePage scripted;
     Do := fun _ s => (Err "connection refused", s) |}.

Definition wiki_call : CallToolRequest :=
  request_of
    [ ("path", VString "/Home"); ("content", VString "# Home");
      ("query", VString "home") ].

Definition described_item : WorkItem :=
  {| Id := Some 5%Z;
     Fields := Some {[ "System.Title" := VString "Crash";
                       "System.State" := VString "Active";
                       "Microsoft.VSTS.Common.Priority" := VNumber 2 ]};
     Relations := None |}.

Definition fields_call (fieldName : string) : CallToolRequest :=
  request_of [ ("work_item_id", VNumber 5); ("field_name", VString fieldName) ].

Definition prompt_of (args : list (string * string)) : GetPromptRequest :=
  {| PromptArguments := list_to_map args |}.

(** ** Running the monad *)

Lemma run_bind {St A B} (m : M St A) (k : A -> M St B) (w w' : World St) (a : A) :
  m w = (Done a, w') -> bind m k w = k a w'.
Proof. intros H. unfold bind. now rewrite H. Qed.

Lemma run_bind_panic {St A B} (m : M St A) (k : A -> M St B) (w w' : World St) msg :
  m w = (Panic msg, w') -> bind m k w = (Panic msg, w').
Proof. intros H. unfold bind. now rewrite H. Qed.

Lemma HasPrefix_append (pre s : string) : strings_HasPrefix (pre +:+ s) pre = true.
Proof.
  unfold strings_HasPrefix. induction pre as [|c pre IH]; [now destruct s|].
  simpl. destruct (ascii_dec c c); [exact IH | congruence].
Qed.

(** ** Splitting a joined list *)

Lemma append_cons (c : ascii) (s t : string) : String c s +:+ t = String c (s +:+ t).
Proof. reflexivity. Qed.

Lemma append_assoc (s1 s2 s3 : string) : (s1 +:+ s2) +:+ s3 = s1 +:+ s2 +:+ s3.
Proof. induction s1 as [|c s1 IH]; [reflexivity|]. rewrite !append_cons. now f_equal. Qed.

Lemma length_append (s1 s2 : string) :
  String.length (s1 +:+ s2) = String.length s1 + String.length s2.
Proof.
  induction s1 as [|c s1 IH]; [reflexivity|].
  rewrite append_cons. cbn [String.length plus]. now f_equal.
Qed.

Lemma prefix_empty (s : string) : String.prefix "" s = true.
Proof. now destruct s. Qed.

Lemma prefix_append_true (p s t : string) :
  String.prefix p s = true -> String.prefix p (s +:+ t) = true.
Proof.
  revert s. induction p as [|a p IH]; intros s H; [apply prefix_empty|].
  destruct s as [|b s]; [discriminate|]. rewrite append_cons. cbn [String.prefix] in *.
  destruct (ascii_dec a b); [now apply IH | discriminate].
Qed.

Lemma prefix_append_false (p s t : string) :
  String.length p <= String.length s ->
  String.prefix p s = false -> String.prefix p (s +:+ t) = false.
Proof.
  revert s. induction p as [|a p IH]; intros s Hlen H.
  - now rewrite prefix_empty in H.
  - destruct s as [|b s]; [cbn [String.length] in Hlen; lia|].
    rewrite append_cons. cbn [String.prefix String.length] in *.
    destruct (ascii_dec a b); [apply IH; [lia | assumption] | reflexivity].
Qed.

Lemma split_scan_skip (sep skipped rest : string) :
  split_scan sep (skipped +:+ rest) (String.length skipped) = split_scan sep rest 0.
Proof.
  induction skipped as [|c skipped IH]; [reflexivity|].
  rewrite append_cons. exact IH.
Qed.

Lemma split_scan_piece (sep e rest : string) :
  sep <> "" ->
  piece_of sep e = true ->
  split_scan sep (e +:+ sep +:+ rest) 0 = e :: split_scan sep rest 0.
Proof.
  intros Hsep. induction e as [|c e IH]; intros Hpiece.
  - destruct sep as [|a sep]; [contradiction|].
    change ("" +:+ String a sep +:+ rest) with (String a (sep +:+ rest)).
    cbn [split_scan].
    pose proof (HasPrefix_append (String a sep) rest) as Hpre.
    unfold strings_HasPrefix in Hpre. rewrite append_cons in Hpre. rewrite Hpre.
    replace (String.length (String a sep) - 1) with (String.length sep)
      by (cbn [String.length]; lia).
    now rewrite split_scan_skip.
  - cbn [piece_of] in Hpiece. apply andb_true_iff in Hpiece as [Hhead Htail].
    apply negb_true_iff in Hhead.
    assert (Hno : String.prefix sep (String c e +:+ sep +:+ rest) = false).
    { rewrite <- append_assoc. apply prefix_append_false; [|exact Hhead].
      rewrite length_append. lia. }
    rewrite append_cons in Hno |- *.
    cbn [split_scan]. rewrite Hno. now rewrite (IH Htail).
Qed.

Lemma split_scan_last (sep e : string) :
  piece_of sep e = true -> split_scan sep e 0 = [e].
Proof.
  induction e as [|c e IH]; intros Hpiece; [reflexivity|].
  cbn [piece_of] in Hpiece. apply andb_true_iff in Hpiece as [Hhead Htail].
  apply negb_true_iff in Hhead.
  cbn [split_scan].
  destruct (String.prefix sep (String c e)) eqn:Hpre.
  - apply (prefix_append_true _ _ sep) in Hpre. congruence.
  - now rewrite (IH Htail).
Qed.

(** Splitting a joined non-empty list of pieces gives the list back. *)
Lemma Split_Join (sep : string) (elems : list string) :
  sep <> "" ->
  elems <> [] ->
  Forall (fun e => piece_of sep e = true) elems ->
  strings_Split (strings_Join elems sep) sep = elems.
Proof.
  intros Hsep Hne Hpieces. unfold strings_Split.
  induction Hpieces as [|e [|e2 rest] He Hrest IH]; [contradiction| |].
  - now apply split_scan_last.
  - change (strings_Join (e :: e2 :: rest) sep)
      with (e +:+ sep +:+ strings_Join (e2 :: rest) sep).
    rewrite (split_scan_piece sep e _ Hsep He). f_equal. now apply IH.
Qed.

(** A string without line feed is a piece of a split at the line feed. *)
Lemma piece_of_nl (line : string) :
  strings_Contains line nl = false -> piece_of nl line = true.
Proof.
  induction line as [|c line IH]; [reflexivity|].
  cbn [strings_Contains piece_of]. intros H.
  apply orb_false_iff in H as [Hhead Htail].
  rewrite (IH Htail), andb_true_r. apply negb_true_iff.
  unfold nl in *. rewrite append_cons. cbn [String.prefix] in *.
  destruct (ascii_dec _ c); [|reflexivity].
  now rewrite prefix_empty in Hhead.
Qed.

Lemma run_ret {St A B} (a : A) (k : A -> M St B) (w : World St) :
  bind (ret a) k w = k a w.
Proof. reflexivity. Qed.

Lemma run_deref {St A B} (a : A) (k : A -> M St B) (w : World St) :
  bind (deref (Some a)) k w = k a w.
Proof. reflexivity. Qed.

Lemma run_call {St A} (req : Request) (f : St -> result A * St) (w : World St) r s' :
  f (remote w) = (r, s') ->
  call req f w = (Done r, {| remote := s'; issued := issued w ++ [req] |}).
Proof. intros H. unfold call. now rewrite H. Qed.

Lemma assert_string_ok {St} (v : option Value) (s : string) (w : World St) :
  v = Some (VString s) -> assert_string v w = (Done s, w).
Proof. now intros ->. Qed.

Lemma assert_int_ok {St} (v : option Value) (n : Z) (w : World St) :
  v = Some (VNumber n) -> assert_int v w = (Done n, w).
Proof. now intros ->. Qed.

Lemma supplied_string_fmap (v : option Value) (p : option string) :
  v = VString <$> p -> supplied_string v = p.
Proof. intros ->. now destruct p. Qed.

Lemma supplied_string_mistyped (v : option Value) :
  (forall s, v <> Some (VString s)) -> supplied_string v = None.
Proof. intros H. destruct v as [[]|]; try reflexivity. now destruct (H s). Qed.

(** ** Patch document of create_work_item *)

Section CreateWorkItem.

Context {St : Type}.
Variable config : AzureDevOpsConfig.
Variable client : Client St.

Lemma handleCreateWorkItem_call (request : CallToolRequest) (w : World St)
    (workItemType title description : string) (priority : option string) :
  arg request "type" = Some (VString workItemType) ->
  arg request "title" = Some (VString title) ->
  arg request "description" = Some (VString description) ->
  supplied_string (arg request "priority") = priority ->
  let createArgs :=
    {| cwType := workItemType; cwProject := Project config;
       cwDocument := create_document title description priority |} in
  handleCreateWorkItem config client request w =
  bind (call (ReqCreateWorkItem createArgs) (CreateWorkItem client createArgs))
    (fun r =>
       match r with
       | Err err => ret (NewToolResultError ("Failed to create work item: " +:+ err))
       | Ok workItem =>
           bind (deref (Fields workItem)) (fun fields =>
           bind (deref (Id workItem)) (fun wid =>
           ret (NewToolResultText
                  ("Created work item #" +:+ itoa wid +:+ ": "
                     +:+ fst (string_ok (fields !! "System.Title"))))))
       end) w.
Proof.
  intros Hty Hti Hde Hpr. unfold handleCreateWorkItem.
  rewrite (run_bind _ _ w w workItemType) by now apply assert_string_ok.
  rewrite (run_bind _ _ w w title) by now apply assert_string_ok.
  rewrite (run_bind _ _ w w description) by now apply assert_string_ok.
  subst priority. unfold supplied_string, string_ok.
  destruct (arg request "priority") as [[]|]; reflexivity.
Qed.

(** C1. For every title, description and optional priority, the handler of
    create_work_item sends a Patch document whose first operation adds
    [/fields/System.Title] with the given title, whose second operation adds
    [/fields/System.Description] with the given description, and which has a
    third operation, an add on the priority field, exactly when a priority
    was supplied. *)
Theorem create_work_item_patch_document (request : CallToolRequest) (w : World St)
    (workItemType title description : string) (priority : option string) :
  arg request "type" = Some (VString workItemType) ->
  arg request "title" = Some (VString title) ->
  arg request "description" = Some (VString description) ->
  arg request "priority" = VString <$> priority ->
  exists document,
    issued (snd (handleCreateWorkItem config client request w)) =
      issued w ++
      [ ReqCreateWorkItem
          {| cwType := workItemType; cwProject := Project config;
             cwDocument := document |} ]
    /\ document !! 0%nat =
         Some {| Op := OpAdd; Path := "/fields/System.Title";
                 PatchValue := VString title |}
    /\ document !! 1%nat =
         Some {| Op := OpAdd; Path := "/fields/System.Description";
                 PatchValue := VString description |}
    /\ (forall p, priority = Some p <->
          document !! 2%nat =
            Some {| Op := OpAdd; Path := "/fields/Microsoft.VSTS.Common.Priority";
                    PatchValue := VString p |})
    /\ (priority = None <-> length document = 2%nat)
    /\ document = create_document title description priority.
Proof.
  intros Hty Hti Hde Hpr.
  exists (create_document title description priority).
  rewrite (handleCreateWorkItem_call request w _ _ _ _ Hty Hti Hde
             (supplied_string_fmap _ _ Hpr)).
  cbv zeta. unfold bind, call.
  destruct (CreateWorkItem client _ (remote w)) as [r s'] eqn:Hcall.
  split.
  - destruct r as [workItem|err]; [|reflexivity].
    destruct (Fields workItem), (Id workItem); reflexivity.
  - repeat split; try reflexivity.
    + intros ->. reflexivity.
    + destruct priority as [q|]; simpl; [intros [= ->]; reflexivity | discriminate].
    + intros ->. reflexivity.
    + destruct priority; [discriminate | reflexivity].
Qed.

(** C8. On successful creation the handler of create_work_item renders
    [Created work item #<id>: <title>] with the ID and the title of the
    response of the remote service: the title is the [System.Title] field
    of the response, whatever title the caller gave. *)
Theorem create_work_item_result_text (request : CallToolRequest) (w : World St)
    (workItemType title description : string) (priority : option string)
    (workItem : WorkItem) (s' : St) (wid : Z) (fields : gmap string Value)
    (responseTitle : string) :
  arg request "type" = Some (VString workItemType) ->
  arg request "title" = Some (VString title) ->
  arg request "description" = Some (VString description) ->
  arg request "priority" = VString <$> priority ->
  CreateWorkItem client
    {| cwType := workItemType; cwProject := Project config;
       cwDocument := create_document title description priority |} (remote w)
    = (Ok workItem, s') ->
  Id workItem = Some wid ->
  Fields workItem = Some fields ->
  fields !! "System.Title" = Some (VString responseTitle) ->
  fst (handleCreateWorkItem config client request w) =
    Done (NewToolResultText
            ("Created work item #" +:+ itoa wid +:+ ": " +:+ responseTitle)).
Proof.
  intros Hty Hti Hde Hpr Hcall Hid Hfields Htitle.
  rewrite (handleCreateWorkItem_call request w _ _ _ _ Hty Hti Hde
             (supplied_string_fmap _ _ Hpr)).
  cbv zeta. rewrite (run_bind _ _ _ _ _ (run_call _ _ _ _ _ Hcall)).
  rewrite Hfields, Hid. unfold bind, deref, ret. simpl.
  now rewrite Htitle.
Qed.

End CreateWorkItem.

Lemma create_work_item_patch_document_witness :
  exists document,
    issued (snd (handleCreateWorkItem test_config
                   (scripted_client 42 [] empty_item [] "") login_fails_request start)) =
      [ ReqCreateWorkItem
          {| cwType := "Bug"; cwProject := "Demo"; cwDocument := document |} ]
    /\ length document = 2%nat.
Proof.
  destruct (create_work_item_patch_document test_config
              (scripted_client 42 [] empty_item [] "") login_fails_request start
              "Bug" "Login fails" "NPE on null token" None
              eq_refl eq_refl eq_refl eq_refl)
    as (document & Hissued & _ & _ & _ & Hlen & _).
  exists document. split; [exact Hissued | now apply Hlen].
Defined.

(** The end-to-end example of C8: a Bug titled "Login fails" without
    priority, against a service that echoes ID 42 and the title. *)
Lemma create_work_item_result_text_witness :
  fst (handleCreateWorkItem test_config
         (scripted_client 42 [] empty_item [] "") login_fails_request start) =
    Done (NewToolResultText "Created work item #42: Login fails").
Proof.
  exact (create_work_item_result_text test_config
           (scripted_client 42 [] empty_item [] "") login_fails_request start
           "Bug" "Login fails" "NPE on null token" None
           {| Id := Some 42%Z;
              Fields := Some {[ "System.Title" := VString "Login fails" ]};
              Relations := None |}
           tt 42%Z {[ "System.Title" := VString "Login fails" ]} "Login fails"
           eq_refl eq_refl eq_refl eq_refl eq_refl eq_refl eq_refl eq_refl).
Defined.

(** ** The team argument of the sprint handlers *)

Section Sprints.

Context {St : Type}.
Variable ext : Externals.
Variable config : AzureDevOpsConfig.
Variable client : Client St.

Lemma differ_only_in_arg (name other : string) (request1 request2 : CallToolRequest) :
  differ_only_in name request1 request2 ->
  other <> name ->
  arg request1 other = arg request2 other.
Proof.
  unfold differ_only_in, arg. intros Heq Hne.
  rewrite <- (lookup_delete_ne (Arguments request1) name other) by congruence.
  rewrite <- (lookup_delete_ne (Arguments request2) name other) by congruence.
  now rewrite Heq.
Qed.

(** C9. Two invocations of get_current_sprint, or of get_sprints, that
    differ only in the team argument run identically: they issue the same
    request and end in the same result and the same state of the service.
    The team value, and the default computed for it, reaches no request. *)
Theorem sprint_handlers_ignore_team (request1 request2 : CallToolRequest)
    (w : World St) :
  differ_only_in "team" request1 request2 ->
  handleGetCurrentSprint ext config client request1 w =
    handleGetCurrentSprint ext config client request2 w
  /\ handleGetSprints ext config client request1 w =
       handleGetSprints ext config client request2 w.
Proof.
  intros Hdiff. split.
  - unfold handleGetCurrentSprint.
    destruct (string_ok (arg request1 "team")) as [team1 ok1].
    destruct (string_ok (arg request2 "team")) as [team2 ok2].
    reflexivity.
  - unfold handleGetSprints.
    rewrite (differ_only_in_arg "team" "include_completed" request1 request2 Hdiff)
      by discriminate.
    destruct (string_ok (arg request1 "team")) as [team1 ok1].
    destruct (string_ok (arg request2 "team")) as [team2 ok2].
    reflexivity.
Qed.

End Sprints.

Lemma sprint_handlers_ignore_team_witness :
  let ext := test_externals [] [] [] in
  let client := scripted_client 42 [] empty_item [] "" in
  let request1 := request_of [ ("team", VString "Alpha") ] in
  let request2 := request_of [ ("team", VString "Beta") ] in
  handleGetCurrentSprint ext test_config client request1 start =
    handleGetCurrentSprint ext test_config client request2 start
  /\ handleGetSprints ext test_config client request1 start =
       handleGetSprints ext test_config client request2 start.
Proof.
  intros ext client request1 request2.
  apply (sprint_handlers_ignore_team ext test_config client request1 request2 start).
  vm_compute. reflexivity.
Defined.

(** ** Absent and mistyped arguments *)

Section ArgumentHandling.

Context {St : Type}.
Variable ext : Externals.
Variable config : AzureDevOpsConfig.
Variable client : Client St.

Lemma assert_int_supplied (v : option Value) (w : World St) :
  assert_int v w =
    match supplied_int v with
    | Some n => (Done n, w)
    | None =>
        (Panic ("interface conversion: interface {} is " +:+ dynamic_type v
                  +:+ ", not float64"), w)
    end.
Proof. destruct v as [[]|]; reflexivity. Qed.

Lemma assert_string_supplied (v : option Value) (w : World St) :
  assert_string v w =
    match supplied_string v with
    | Some s => (Done s, w)
    | None =>
        (Panic ("interface conversion: interface {} is " +:+ dynamic_type v
                  +:+ ", not string"), w)
    end.
Proof. destruct v as [[]|]; reflexivity. Qed.

Lemma http_get_returns (fullURL : string) (w : World St) :
  exists g w', http_get ext config client fullURL w = (Done g, w').
Proof.
  unfold http_get. destruct (NewRequest_error ext "GET" fullURL); [now eexists _, _|].
  unfold bind, call. destruct (Do client _ (remote w)) as [[resp|err] s']; now eexists _, _.
Qed.

Lemma handleGetCurrentSprint_returns (request : CallToolRequest) (w : World St) :
  exists r w', handleGetCurrentSprint ext config client request w = (Done r, w').
Proof.
  unfold handleGetCurrentSprint.
  destruct (string_ok (arg request "team")) as [team ok].
  match goal with |- context [http_get _ _ _ ?u] =>
    destruct (http_get_returns u w) as (g & w' & Hg) end.
  rewrite (run_bind _ _ _ _ _ Hg).
  destruct g as [err|err|resp]; try (now eexists _, _).
  destruct (negb (Z.eqb _ _)); [now eexists _, _|].
  destruct (decode_body _ _) as [[|sprint sprints]|err]; now eexists _, _.
Qed.

Lemma handleGetSprints_returns (request : CallToolRequest) (w : World St) :
  exists r w', handleGetSprints ext config client request w = (Done r, w').
Proof.
  unfold handleGetSprints.
  destruct (string_ok (arg request "team")) as [team ok].
  destruct (bool_ok (arg request "include_completed")) as [includeCompleted ok'].
  match goal with |- context [http_get _ _ _ ?u] =>
    destruct (http_get_returns u w) as (g & w' & Hg) end.
  rewrite (run_bind _ _ _ _ _ Hg).
  destruct g as [err|err|resp]; try (now eexists _, _).
  destruct (negb (Z.eqb _ _)); [now eexists _, _|].
  destruct (decode_body _ _) as [value|err]; [|now eexists _, _].
  destruct (Nat.eqb _ _); now eexists _, _.
Qed.

(** C2, as the code has it. An absent or mistyped argument leaves the
    handler running only where the argument is read with a checked
    assertion: the sprint handlers return a result for every argument bag;
    manage_work_item_relations answers an absent or mistyped relation_type
    with the Error result "Invalid relation_type" and no request;
    create_work_item treats an absent or mistyped priority as not supplied.
    Where the argument is read with an unchecked assertion, as are id, field
    and value of update_work_item and id, operation and tags of
    manage_work_item_tags, the handler panics before any request. *)
Theorem checked_arguments_default_unchecked_abort (request : CallToolRequest)
    (w : World St) :
  (exists r w', handleGetCurrentSprint ext config client request w = (Done r, w'))
  /\ (exists r w', handleGetSprints ext config client request w = (Done r, w'))
  /\ (forall sourceID targetID,
        arg request "source_id" = Some (VNumber sourceID) ->
        arg request "target_id" = Some (VNumber targetID) ->
        supplied_string (arg request "relation_type") = None ->
        handleManageWorkItemRelations config client request w =
          (Done (NewToolResultError "Invalid relation_type"), w))
  /\ (forall workItemType title description,
        arg request "type" = Some (VString workItemType) ->
        arg request "title" = Some (VString title) ->
        arg request "description" = Some (VString description) ->
        supplied_string (arg request "priority") = None ->
        issued (snd (handleCreateWorkItem config client request w)) =
          issued w ++
          [ ReqCreateWorkItem
              {| cwType := workItemType; cwProject := Project config;
                 cwDocument := create_document title description None |} ])
  /\ (supplied_int (arg request "id") = None
      \/ supplied_string (arg request "field") = None
      \/ supplied_string (arg request "value") = None ->
      exists msg, handleUpdateWorkItem config client request w = (Panic msg, w))
  /\ (supplied_int (arg request "id") = None
      \/ supplied_string (arg request "operation") = None
      \/ supplied_string (arg request "tags") = None ->
      exists msg,
        handleManageWorkItemTags ext config client request w = (Panic msg, w)).
Proof.
  split; [apply handleGetCurrentSprint_returns|].
  split; [apply handleGetSprints_returns|].
  split; [|split; [|split]].
  - intros sourceID targetID Hs Ht Hr. unfold handleManageWorkItemRelations.
    rewrite (run_bind _ _ w w sourceID) by now apply assert_int_ok.
    rewrite (run_bind _ _ w w targetID) by now apply assert_int_ok.
    unfold supplied_string in Hr. unfold string_ok.
    destruct (arg request "relation_type") as [[]|]; try discriminate; reflexivity.
  - intros workItemType title description Hty Hti Hde Hpr.
    rewrite (handleCreateWorkItem_call config client request w _ _ _ _ Hty Hti Hde Hpr).
    cbv zeta. unfold bind, call.
    destruct (CreateWorkItem client _ (remote w)) as [[workItem|err] s']; [|reflexivity].
    destruct (Fields workItem), (Id workItem); reflexivity.
  - intros H. unfold handleUpdateWorkItem, bind.
    rewrite assert_int_supplied.
    destruct (supplied_int (arg request "id")); [|now eexists].
    rewrite assert_string_supplied.
    destruct (supplied_string (arg request "field")); [|now eexists].
    rewrite assert_string_supplied.
    destruct (supplied_string (arg request "value")); [|now eexists].
    now destruct H as [H|[H|H]].
  - intros H. unfold handleManageWorkItemTags, bind.
    rewrite assert_int_supplied.
    destruct (supplied_int (arg request "id")); [|now eexists].
    rewrite assert_string_supplied.
    destruct (supplied_string (arg request "operation")); [|now eexists].
    rewrite assert_string_supplied.
    destruct (supplied_string (arg request "tags")); [|now eexists].
    now destruct H as [H|[H|H]].
Qed.

End ArgumentHandling.

(** The claim C2 as the specification states it fails: update_work_item
    without its numeric id does not return a result, it panics. *)
Lemma update_work_item_missing_id_panics :
  handleUpdateWorkItem test_config (scripted_client 42 [] empty_item [] "")
    (request_of [ ("field", VString "State"); ("value", VString "Closed") ]) start
  = (Panic "interface conversion: interface {} is nil, not float64", start)
  /\ forall r,
       fst (handleUpdateWorkItem test_config (scripted_client 42 [] empty_item [] "")
              (request_of [ ("field", VString "State"); ("value", VString "Closed") ])
              start)
       <> Done r.
Proof. split; [reflexivity | discriminate]. Qed.

Lemma checked_arguments_default_unchecked_abort_witness :
  let ext := test_externals [] [] [] in
  let client := scripted_client 42 [] empty_item [] "" in
  handleManageWorkItemRelations test_config client
    (request_of [ ("source_id", VNumber 1); ("target_id", VNumber 2);
                  ("relation_type", VNumber 3); ("operation", VString "add") ]) start
  = (Done (NewToolResultError "Invalid relation_type"), start)
  /\ exists msg,
       handleManageWorkItemTags ext test_config client
         (request_of [ ("operation", VString "add"); ("tags", VString "x") ]) start
       = (Panic msg, start).
Proof.
  intros ext client. split.
  - apply (proj1 (proj2 (proj2
      (checked_arguments_default_unchecked_abort ext test_config client
         (request_of [ ("source_id", VNumber 1); ("target_id", VNumber 2);
                       ("relation_type", VNumber 3); ("operation", VString "add") ])
         start))) 1%Z 2%Z); reflexivity.
  - apply (proj2 (proj2 (proj2 (proj2 (proj2
      (checked_arguments_default_unchecked_abort ext test_config client
         (request_of [ ("operation", VString "add"); ("tags", VString "x") ])
         start)))))).
    left. reflexivity.
Defined.

(** ** Tag set algebra of manage_work_item_tags *)

(** What the handler reads back from a tags field that holds a joined list:
    the list, unless it is the list of one empty tag. *)
Lemma current_tags_joined (T : list string) (fields : gmap string Value) :
  fields !! "System.Tags" = Some (VString (strings_Join T "; ")) ->
  T <> [ "" ] ->
  Forall (fun tag => piece_of "; " tag = true) T ->
  current_tags fields = T.
Proof.
  intros Hfield Hne Hpieces. unfold current_tags. rewrite Hfield. cbn [string_ok].
  destruct T as [|tag T]; [reflexivity|].
  destruct (String.eqb (strings_Join (tag :: T) "; ") "") eqn:Hempty.
  - apply String.eqb_eq in Hempty. destruct T as [|tag2 T].
    + cbn [strings_Join] in Hempty. now subst tag.
    + change (strings_Join (tag :: tag2 :: T) "; ")
        with (tag +:+ "; " +:+ strings_Join (tag2 :: T) "; ") in Hempty.
      apply (f_equal String.length) in Hempty. rewrite length_append in Hempty.
      rewrite length_append in Hempty. cbn [String.length] in Hempty. lia.
  - apply Split_Join; [discriminate.. | exact Hpieces].
Qed.


Section Tags.

Variable ext : Externals.

Lemma tagMap_insert_lookup (tags : list string) (tagMap : gmap string bool) (k : string) :
  tagMap_insert ext tagMap tags !! k =
    if decide (k ∈ TrimSpace ext <$> tags) then Some true else tagMap !! k.
Proof.
  revert tagMap. induction tags as [|t tags IH]; intros tagMap.
  - rewrite decide_False; [reflexivity | apply not_elem_of_nil].
  - change (tagMap_insert ext tagMap (t :: tags))
      with (tagMap_insert ext (<[TrimSpace ext t := true]> tagMap) tags).
    rewrite IH, fmap_cons.
    destruct (decide (k ∈ TrimSpace ext <$> tags)) as [Hin|Hnin].
    + rewrite decide_True; [reflexivity | now right].
    + destruct (decide (k = TrimSpace ext t)) as [->|Hne].
      * rewrite lookup_insert_eq. rewrite decide_True; [reflexivity | now left].
      * rewrite lookup_insert_ne by congruence.
        rewrite decide_False; [reflexivity|].
        intros Hin. apply elem_of_cons in Hin as [?|?]; contradiction.
Qed.

Lemma tagMap_insert_dom (tags : list string) (k : string) :
  k ∈ dom (tagMap_insert ext ∅ tags) <-> k ∈ TrimSpace ext <$> tags.
Proof.
  rewrite elem_of_dom, tagMap_insert_lookup.
  destruct (decide (k ∈ _)) as [H|H].
  - split; [now intros _ | now eexists].
  - rewrite lookup_empty. split; [now intros [? ?] | contradiction].
Qed.

Lemma tagMap_insert_twice (current tags : list string) :
  tagMap_insert ext (tagMap_insert ext ∅ current) tags =
    tagMap_insert ext ∅ (current ++ tags).
Proof. unfold tagMap_insert. now rewrite foldl_app. Qed.

(** The result of the add branch: every trimmed tag of either list, once. *)
Lemma tags_add_spec (currentTags tags : list string) :
  NoDup (tags_add ext currentTags tags)
  /\ forall k, k ∈ tags_add ext currentTags tags <->
               k ∈ TrimSpace ext <$> currentTags \/ k ∈ TrimSpace ext <$> tags.
Proof.
  unfold tags_add. rewrite tagMap_insert_twice.
  pose proof (range_keys_perm ext (tagMap_insert ext ∅ (currentTags ++ tags))) as Hp.
  split.
  - rewrite Hp. apply NoDup_elements.
  - intros k. rewrite Hp, elem_of_elements, tagMap_insert_dom, fmap_app.
    apply elem_of_app.
Qed.

(** The result of the remove branch: the current tags, in their order and
    as they were, whose trimmed form is none of the trimmed [tags]. *)
Lemma tags_remove_spec (currentTags tags : list string) :
  tags_remove ext currentTags tags =
    List.filter
      (fun tag => negb (bool_decide (TrimSpace ext tag ∈ TrimSpace ext <$> tags)))
      currentTags.
Proof.
  unfold tags_remove. apply List.filter_ext. intros tag. f_equal.
  rewrite tagMap_insert_lookup, lookup_empty.
  destruct (decide (_ ∈ _)) as [H|H]; simpl.
  - now rewrite bool_decide_true.
  - now rewrite bool_decide_false.
Qed.

Lemma elem_of_tags_remove (currentTags tags : list string) (k : string) :
  k ∈ tags_remove ext currentTags tags <->
  k ∈ currentTags /\ TrimSpace ext k ∉ TrimSpace ext <$> tags.
Proof.
  rewrite tags_remove_spec, list_elem_of_In, List.filter_In, <- list_elem_of_In.
  rewrite negb_true_iff, bool_decide_eq_false. reflexivity.
Qed.

Section TagSet.

Variable T : list string.
Variable x : string.
Hypothesis T_tag_set : tag_set ext T.
Hypothesis x_trimmed : TrimSpace ext x = x.

Lemma tag_set_trimmed (k : string) : k ∈ T -> TrimSpace ext k = k.
Proof. destruct T_tag_set as [_ Htrim]. rewrite Forall_forall in Htrim. apply Htrim. Qed.

Lemma tag_set_fmap_trim : TrimSpace ext <$> T = T.
Proof.
  assert (Hfix : forall l, Forall (fun t => TrimSpace ext t = t) l ->
                           TrimSpace ext <$> l = l).
  { induction 1 as [|t l Ht _ IH]; [reflexivity|]. rewrite fmap_cons. now f_equal. }
  apply Hfix, T_tag_set.
Qed.

Lemma elem_of_tags_add_one (k : string) : k ∈ tags_add ext T [x] <-> k ∈ T \/ k = x.
Proof.
  rewrite (proj2 (tags_add_spec T [x]) k), tag_set_fmap_trim.
  change (TrimSpace ext <$> [x]) with [TrimSpace ext x].
  now rewrite x_trimmed, list_elem_of_singleton.
Qed.

Lemma tags_add_one_trimmed (k : string) : k ∈ tags_add ext T [x] -> TrimSpace ext k = k.
Proof.
  intros Hk. apply elem_of_tags_add_one in Hk as [Hk| ->];
    [now apply tag_set_trimmed | exact x_trimmed].
Qed.

Lemma elem_of_tags_remove_add_one (k : string) :
  k ∈ tags_remove ext (tags_add ext T [x]) [x] <-> k ∈ T /\ k <> x.
Proof.
  rewrite elem_of_tags_remove.
  change (TrimSpace ext <$> [x]) with [TrimSpace ext x].
  rewrite x_trimmed, list_elem_of_singleton. split.
  - intros [Hk Hne]. rewrite (tags_add_one_trimmed k Hk) in Hne.
    apply elem_of_tags_add_one in Hk as [Hk|Hk]; [now split | contradiction].
  - intros [Hk Hne].
    assert (Hk' : k ∈ tags_add ext T [x]) by (apply elem_of_tags_add_one; now left).
    split; [assumption|]. now rewrite (tags_add_one_trimmed k Hk').
Qed.

Lemma NoDup_tags_remove (currentTags tags : list string) :
  NoDup currentTags -> NoDup (tags_remove ext currentTags tags).
Proof.
  intros Hnodup. rewrite tags_remove_spec.
  apply NoDup_ListNoDup, List.NoDup_filter. now apply NoDup_ListNoDup.
Qed.

(** Adding a tag that is present changes nothing but the order. *)
Lemma tags_add_present : x ∈ T -> tags_add ext T [x] ≡ₚ T.
Proof.
  intros Hin. apply NoDup_Permutation.
  - apply tags_add_spec.
  - apply T_tag_set.
  - intros k. rewrite elem_of_tags_add_one.
    split; [intros [?| ->]; assumption | now left].
Qed.

(** Removing a tag that is absent changes nothing at all. *)
Lemma tags_remove_absent : x ∉ T -> tags_remove ext T [x] = T.
Proof.
  intros Hnin. rewrite tags_remove_spec.
  change (TrimSpace ext <$> [x]) with [TrimSpace ext x]. rewrite x_trimmed.
  rewrite <- (List.filter_ext_in (fun _ => true)).
  - clear. induction T as [|t T' IH]; [reflexivity|]. cbn [List.filter]. now f_equal.
  - intros t Ht. apply list_elem_of_In in Ht.
    symmetry. apply negb_true_iff, bool_decide_eq_false.
    rewrite (tag_set_trimmed t Ht), list_elem_of_singleton. now intros ->.
Qed.

(** Removing a tag after adding it leaves the set without that tag. *)
Lemma tags_remove_add_one :
  tags_remove ext (tags_add ext T [x]) [x]
    ≡ₚ List.filter (fun t => negb (String.eqb t x)) T.
Proof.
  apply NoDup_Permutation.
  - apply NoDup_tags_remove, tags_add_spec.
  - apply NoDup_ListNoDup, List.NoDup_filter, NoDup_ListNoDup, T_tag_set.
  - intros k. rewrite elem_of_tags_remove_add_one.
    rewrite (list_elem_of_In (List.filter _ _)), List.filter_In, <- list_elem_of_In.
    now rewrite negb_true_iff, String.eqb_neq.
Qed.

Lemma tags_remove_add_absent :
  x ∉ T -> tags_remove ext (tags_add ext T [x]) [x] ≡ₚ T.
Proof.
  intros Hnin. apply NoDup_Permutation.
  - apply NoDup_tags_remove, tags_add_spec.
  - apply T_tag_set.
  - intros k. rewrite elem_of_tags_remove_add_one. split; [now intros [? _]|].
    intros Hk. split; [assumption|]. now intros ->.
Qed.

(** The same through the tags field: when the field holds what the add
    branch wrote, the remove branch reads it back and leaves the set
    without the tag. *)
Lemma tags_remove_add_through_field (fields : gmap string Value) :
  Forall (fun tag => piece_of "; " tag = true) (x :: T) ->
  x <> "" ->
  fields !! "System.Tags" = Some (VString (strings_Join (tags_add ext T [x]) "; ")) ->
  tags_remove ext (current_tags fields) [x]
    ≡ₚ List.filter (fun t => negb (String.eqb t x)) T.
Proof.
  intros Hpieces Hx Hfield.
  rewrite (current_tags_joined (tags_add ext T [x]) fields Hfield).
  - apply tags_remove_add_one.
  - intros Hone.
    assert (Hin : x ∈ tags_add ext T [x]) by (apply elem_of_tags_add_one; now right).
    rewrite Hone in Hin. apply list_elem_of_singleton in Hin. contradiction.
  - apply Forall_forall. intros k Hk. rewrite Forall_forall in Hpieces.
    apply Hpieces. apply elem_of_tags_add_one in Hk as [Hk| ->]; [now right | now left].
Qed.

End TagSet.

(** C3, as the code has it. On a tag set [T] and a tag [x], both free of
    surrounding white space: adding [x] when it is in [T] yields [T] again
    up to order, without duplicates; removing [x] when it is not in [T]
    yields [T] itself; and removing [x] after adding it yields [T] without
    [x] up to order, which is [T] exactly when [x] was not in [T]. *)
Theorem tag_set_algebra (T : list string) (x : string) :
  tag_set ext T ->
  TrimSpace ext x = x ->
  (x ∈ T -> tags_add ext T [x] ≡ₚ T /\ NoDup (tags_add ext T [x]))
  /\ (x ∉ T -> tags_remove ext T [x] = T)
  /\ tags_remove ext (tags_add ext T [x]) [x] ≡ₚ List.filter (fun t => negb (String.eqb t x)) T
  /\ (x ∉ T -> tags_remove ext (tags_add ext T [x]) [x] ≡ₚ T)
  /\ (x ∈ T -> x ∉ tags_remove ext (tags_add ext T [x]) [x]).
Proof.
  intros HT Hx. split; [|split; [|split; [|split]]].
  - intros Hin. split; [now apply tags_add_present | apply tags_add_spec].
  - now apply tags_remove_absent.
  - now apply tags_remove_add_one.
  - now apply tags_remove_add_absent.
  - intros _ Hin. apply (elem_of_tags_remove_add_one T x HT Hx) in Hin as [_ Hne].
    now apply Hne.
Qed.

End Tags.

(** The claim C3 as the specification states it fails in its third part:
    with [x] already in [T], removing [x] after adding it does not give
    [T] back. *)
Lemma remove_add_loses_present_tag :
  let ext := test_externals [] [] [] in
  tags_remove ext (tags_add ext ["a"; "b"] ["a"]) ["a"] = ["b"]
  /\ ~ (tags_remove ext (tags_add ext ["a"; "b"] ["a"]) ["a"] ≡ₚ ["a"; "b"]).
Proof.
  intros ext.
  assert (H : tags_remove ext (tags_add ext ["a"; "b"] ["a"]) ["a"] = ["b"])
    by (vm_compute; reflexivity).
  split; [exact H|]. rewrite H. intros Hp. apply Permutation_length in Hp. discriminate.
Qed.

Lemma tag_set_algebra_witness :
  let ext := test_externals [] [] [] in
  tags_remove ext (tags_add ext ["a"; "b"] ["c"]) ["c"] ≡ₚ ["a"; "b"].
Proof.
  intros ext.
  refine (proj1 (proj2 (proj2 (proj2
            (tag_set_algebra ext ["a"; "b"] "c" _ eq_refl)))) _).
  - split; compute_done.
  - compute_done.
Defined.

(** ** An operation of manage_work_item_tags other than add and remove *)

Section TagsOperation.

Context {St : Type}.
Variable ext : Externals.
Variable config : AzureDevOpsConfig.
Variable client : Client St.

(** The run of the handler once its arguments are read and the work item
    is fetched: one replace Patch on the tags field with the joined new
    tags, whatever the operation. *)
Lemma manage_tags_run (request : CallToolRequest) (w : World St) (id : Z)
    (operation tagsStr : string) (workItem : WorkItem) (fields : gmap string Value)
    (s1 s2 : St) (r : result WorkItem) :
  arg request "id" = Some (VNumber id) ->
  arg request "operation" = Some (VString operation) ->
  arg request "tags" = Some (VString tagsStr) ->
  let newTags :=
    if String.eqb operation "add"
    then tags_add ext (current_tags fields) (strings_Split tagsStr ",")
    else if String.eqb operation "remove"
         then tags_remove ext (current_tags fields) (strings_Split tagsStr ",")
         else [] in
  let getArgs := {| gwId := id; gwProject := Project config; gwExpand := None |} in
  let updateArgs :=
    {| uwId := id;
       uwProject := Project config;
       uwDocument :=
         [ {| Op := OpReplace; Path := "/fields/System.Tags";
              PatchValue := VString (strings_Join newTags "; ") |} ] |} in
  GetWorkItem client getArgs (remote w) = (Ok workItem, s1) ->
  Fields workItem = Some fields ->
  UpdateWorkItem client updateArgs s1 = (r, s2) ->
  handleManageWorkItemTags ext config client request w =
    (Done
       match r with
       | Ok _ =>
           NewToolResultText
             ("Successfully " +:+ operation +:+ "d tags for work item #" +:+ itoa id)
       | Err err => NewToolResultError ("Failed to update tags: " +:+ err)
       end,
     {| remote := s2;
        issued := issued w ++ [ ReqGetWorkItem getArgs; ReqUpdateWorkItem updateArgs ] |}).
Proof.
  intros Hid Hop Htags newTags getArgs updateArgs Hget Hfields Hupd.
  unfold handleManageWorkItemTags.
  rewrite (run_bind _ _ w w id) by now apply assert_int_ok.
  rewrite (run_bind _ _ w w operation) by now apply assert_string_ok.
  rewrite (run_bind _ _ w w tagsStr) by now apply assert_string_ok.
  rewrite (run_bind _ _ _ _ _ (run_call _ _ _ _ _ Hget)).
  rewrite Hfields, run_deref. cbv zeta.
  fold newTags. fold updateArgs.
  erewrite run_bind; [|apply run_call; exact Hupd].
  cbn [remote issued]. rewrite <- app_assoc.
  destruct r; reflexivity.
Qed.

(** C10. When the operation string of manage_work_item_tags is neither
    "add" nor "remove", the handler raises no input Error: once the work
    item is read it sends a replace Patch on [/fields/System.Tags] with the
    empty string, which erases the tags of the work item, and it reports
    success when the service accepts the Patch. *)
Theorem manage_tags_unknown_operation_erases (request : CallToolRequest)
    (w : World St) (id : Z) (operation tagsStr : string)
    (workItem : WorkItem) (fields : gmap string Value) (s1 s2 : St)
    (r : result WorkItem) :
  arg request "id" = Some (VNumber id) ->
  arg request "operation" = Some (VString operation) ->
  arg request "tags" = Some (VString tagsStr) ->
  operation <> "add" ->
  operation <> "remove" ->
  let getArgs := {| gwId := id; gwProject := Project config; gwExpand := None |} in
  let updateArgs :=
    {| uwId := id;
       uwProject := Project config;
       uwDocument :=
         [ {| Op := OpReplace; Path := "/fields/System.Tags";
              PatchValue := VString "" |} ] |} in
  GetWorkItem client getArgs (remote w) = (Ok workItem, s1) ->
  Fields workItem = Some fields ->
  UpdateWorkItem client updateArgs s1 = (r, s2) ->
  handleManageWorkItemTags ext config client request w =
    (Done
       match r with
       | Ok _ =>
           NewToolResultText
             ("Successfully " +:+ operation +:+ "d tags for work item #" +:+ itoa id)
       | Err err => NewToolResultError ("Failed to update tags: " +:+ err)
       end,
     {| remote := s2;
        issued := issued w ++ [ ReqGetWorkItem getArgs; ReqUpdateWorkItem updateArgs ] |}).
Proof.
  intros Hid Hop Htags Hadd Hrem getArgs updateArgs Hget Hfields Hupd.
  apply String.eqb_neq in Hadd, Hrem.
  pose proof (manage_tags_run request w id operation tagsStr workItem fields s1 s2 r
                Hid Hop Htags) as Hrun.
  cbv zeta in Hrun. rewrite Hadd, Hrem in Hrun.
  exact (Hrun Hget Hfields Hupd).
Qed.

End TagsOperation.

Lemma manage_tags_unknown_operation_erases_witness :
  handleManageWorkItemTags (test_externals [] [] []) test_config
    (scripted_client 42 [] tagged_item [] "")
    (request_of [ ("id", VNumber 5); ("operation", VString "clear");
                  ("tags", VString "a") ]) start
  = (Done (NewToolResultText "Successfully cleard tags for work item #5"),
     {| remote := tt;
        issued :=
          [ ReqGetWorkItem {| gwId := 5; gwProject := "Demo"; gwExpand := None |};
            ReqUpdateWorkItem
              {| uwId := 5; uwProject := "Demo";
                 uwDocument :=
                   [ {| Op := OpReplace; Path := "/fields/System.Tags";
                        PatchValue := VString "" |} ] |} ] |}).
Proof.
  refine (manage_tags_unknown_operation_erases (test_externals [] [] []) test_config
            (scripted_client 42 [] tagged_item [] "")
            (request_of [ ("id", VNumber 5); ("operation", VString "clear");
                          ("tags", VString "a") ]) start
            5%Z "clear" "a" tagged_item {[ "System.Tags" := VString "a; b" ]} tt tt
            (Ok {| Id := Some 5%Z; Fields := None; Relations := None |})
            eq_refl eq_refl eq_refl _ _ eq_refl eq_refl eq_refl); discriminate.
Defined.

(** ** Relation removal of manage_work_item_relations *)

Section Relations.

Context {St : Type}.
Variable config : AzureDevOpsConfig.
Variable client : Client St.

(** The scan returns the removal of the first matching entry, addressed by
    its position in the whole array, or nothing. *)
Lemma relation_scan_first_match (azureRelationType : string) (targetID : Z)
    (relations : list WorkItemRelation) (i : nat) (w : World St) :
  Forall relation_complete relations ->
  relation_scan config azureRelationType targetID relations i w =
    (Done
       match list_find
               (relation_matches azureRelationType (workItemUrl config targetID))
               relations with
       | Some (j, _) => [ remove_relation_at (i + j) ]
       | None => []
       end, w).
Proof.
  intros Hcomplete. revert i.
  induction Hcomplete as [|relation rest [[rel Hrel] [url Hurl]] _ IH]; intros i.
  - reflexivity.
  - cbn [relation_scan list_find].
    rewrite Hrel, run_deref.
    assert (Hrest :
      relation_scan config azureRelationType targetID rest (S i) w =
        (Done
           match prod_map S id <$>
                   list_find
                     (relation_matches azureRelationType (workItemUrl config targetID))
                     rest with
           | Some (j, _) => [ remove_relation_at (i + j) ]
           | None => []
           end, w)).
    { rewrite IH. destruct (list_find _ rest) as [[j r]|]; simpl; [|reflexivity].
      now rewrite Nat.add_succ_r. }
    destruct (String.eqb rel azureRelationType) eqn:Erel.
    + rewrite Hurl, run_deref.
      destruct (String.eqb url (workItemUrl config targetID)) eqn:Eurl.
      * apply String.eqb_eq in Erel, Eurl. subst.
        rewrite decide_True by (split; assumption).
        unfold ret, remove_relation_at. now rewrite Nat.add_0_r.
      * apply String.eqb_neq in Eurl.
        rewrite decide_False; [exact Hrest|].
        intros [_ Hm]. rewrite Hurl in Hm. congruence.
    + apply String.eqb_neq in Erel.
      rewrite decide_False; [exact Hrest|].
      intros [Hm _]. rewrite Hrel in Hm. congruence.
Qed.

(** C6. With operation "remove": when the relation list of the work item
    has no entry that matches both the mapped relation type and the URL
    built for the target item, manage_work_item_relations returns an Error
    result and the only request issued is the read of the work item, no
    Patch; when an entry matches, the Patch issued is one remove operation
    addressed by the position of the first matching entry. *)
Theorem remove_relation_by_first_match (request : CallToolRequest) (w : World St)
    (sourceID targetID : Z) (relationType : string) (workItem : WorkItem) (s1 : St) :
  arg request "source_id" = Some (VNumber sourceID) ->
  arg request "target_id" = Some (VNumber targetID) ->
  arg request "relation_type" = Some (VString relationType) ->
  arg request "operation" = Some (VString "remove") ->
  let azureRelationType := default "" (relationTypeMap !! relationType) in
  let targetUrl := workItemUrl config targetID in
  let getArgs :=
    {| gwId := sourceID; gwProject := Project config; gwExpand := None |} in
  let read := {| remote := s1; issued := issued w ++ [ ReqGetWorkItem getArgs ] |} in
  GetWorkItem client getArgs (remote w) = (Ok workItem, s1) ->
  (Relations workItem = None ->
   handleManageWorkItemRelations config client request w =
     (Done (NewToolResultError "Work item has no relations"), read))
  /\ (forall relations,
        Relations workItem = Some relations ->
        Forall relation_complete relations ->
        match list_find (relation_matches azureRelationType targetUrl) relations with
        | None =>
            handleManageWorkItemRelations config client request w =
              (Done (NewToolResultError "Specified relation not found"), read)
        | Some (i, _) =>
            let updateArgs :=
              {| uwId := sourceID; uwProject := Project config;
                 uwDocument := [ remove_relation_at i ] |} in
            forall r s2,
              UpdateWorkItem client updateArgs s1 = (r, s2) ->
              handleManageWorkItemRelations config client request w =
                (Done
                   match r with
                   | Ok _ =>
                       NewToolResultText
                         ("Successfully removed " +:+ relationType +:+ " relationship")
                   | Err err =>
                       NewToolResultError
                         ("Failed to update work item relations: " +:+ err)
                   end,
                 {| remote := s2;
                    issued :=
                      issued w ++
                      [ ReqGetWorkItem getArgs; ReqUpdateWorkItem updateArgs ] |})
        end).
Proof.
  intros Hsrc Htgt Hrel Hop azureRelationType targetUrl getArgs read Hget.
  assert (Hrun :
    handleManageWorkItemRelations config client request w =
      match Relations workItem with
      | None => ret (NewToolResultError "Work item has no relations")
      | Some relations =>
          bind (relation_scan config azureRelationType targetID relations 0)
            (fun ops =>
               if Nat.eqb (length ops) 0
               then ret (NewToolResultError "Specified relation not found")
               else
                 let updateArgs :=
                   {| uwId := sourceID; uwProject := Project config;
                      uwDocument := ops |} in
                 bind (call (ReqUpdateWorkItem updateArgs)
                         (UpdateWorkItem client updateArgs))
                   (fun r =>
                      match r with
                      | Err err =>
                          ret (NewToolResultError
                                 ("Failed to update work item relations: " +:+ err))
                      | Ok _ =>
                          ret (NewToolResultText
                                 ("Successfully " +:+ "remove" +:+ "d " +:+ relationType
                                    +:+ " relationship"))
                      end))
      end read).
  { unfold handleManageWorkItemRelations.
    rewrite (run_bind _ _ w w sourceID) by now apply assert_int_ok.
    rewrite (run_bind _ _ w w targetID) by now apply assert_int_ok.
    rewrite Hrel. cbn [string_ok negb].
    rewrite (run_bind _ _ w w "remove") by now apply assert_string_ok.
    cbn [String.eqb Ascii.eqb Bool.eqb].
    rewrite (run_bind _ _ _ _ _ (run_call _ _ _ _ _ Hget)).
    reflexivity. }
  split.
  - intros Hnone. now rewrite Hrun, Hnone.
  - intros relations Hsome Hcomplete. rewrite Hrun, Hsome.
    rewrite (run_bind _ _ _ _ _
               (relation_scan_first_match azureRelationType targetID relations 0 read
                  Hcomplete)).
    fold targetUrl.
    destruct (list_find (relation_matches azureRelationType targetUrl) relations)
      as [[i relation]|]; [|reflexivity].
    intros updateArgs r s2 Hupd. cbn [length Nat.eqb Nat.add].
    erewrite run_bind; [|apply run_call; exact Hupd].
    unfold read. cbn [issued remote]. rewrite <- app_assoc.
    destruct r; reflexivity.
Qed.

End Relations.

Lemma remove_relation_by_first_match_witness :
  let client := scripted_client 42 [] linked_item [] "" in
  handleManageWorkItemRelations test_config client (remove_related_request 7) start
  = (Done (NewToolResultError "Specified relation not found"),
     {| remote := tt;
        issued :=
          [ ReqGetWorkItem {| gwId := 1; gwProject := "Demo"; gwExpand := None |} ] |})
  /\ issued (snd (handleManageWorkItemRelations test_config client
                    (remove_related_request 9) start))
     = [ ReqGetWorkItem {| gwId := 1; gwProject := "Demo"; gwExpand := None |};
         ReqUpdateWorkItem
           {| uwId := 1; uwProject := "Demo";
              uwDocument :=
                [ {| Op := OpRemove; Path := "/relations/2"; PatchValue := VNull |} ] |} ].
Proof.
  intros client.
  assert (Hcomplete : forall relations,
            Relations linked_item = Some relations -> Forall relation_complete relations).
  { intros relations [= <-]. repeat constructor; now eexists. }
  split.
  - exact (proj2 (remove_relation_by_first_match test_config client
                    (remove_related_request 7) start 1%Z 7%Z "related" linked_item tt
                    eq_refl eq_refl eq_refl eq_refl eq_refl)
             _ eq_refl (Hcomplete _ eq_refl)).
  - rewrite (proj2 (remove_relation_by_first_match test_config client
                      (remove_related_request 9) start 1%Z 9%Z "related" linked_item tt
                      eq_refl eq_refl eq_refl eq_refl eq_refl)
               _ eq_refl (Hcomplete _ eq_refl)
               (Ok {| Id := Some 1%Z; Fields := None; Relations := None |}) tt eq_refl).
    reflexivity.
Defined.

(** ** The cap of query_work_items *)

Section Query.

Context {St : Type}.
Variable ext : Externals.
Variable config : AzureDevOpsConfig.
Variable client : Client St.

Lemma mapM_total {A B} (f : A -> M St B) (g : A -> B) (xs : list A) (w : World St) :
  (forall x w', x ∈ xs -> f x w' = (Done (g x), w')) ->
  mapM f xs w = (Done (g <$> xs), w).
Proof.
  induction xs as [|x xs IH]; intros Hf; [reflexivity|].
  cbn [mapM]. rewrite (run_bind _ _ w w (g x)) by (apply Hf; now left).
  rewrite (run_bind _ _ w w (g <$> xs)); [reflexivity|].
  apply IH. intros y w' Hy. apply Hf. now right.
Qed.

Lemma mapM_reference_ids (ids : list Z) (w : World St) :
  mapM (fun ref => deref (RefId ref)) (reference <$> ids) w = (Done ids, w).
Proof.
  induction ids as [|id ids IH]; [reflexivity|].
  rewrite fmap_cons. cbn [mapM]. change (RefId (reference id)) with (Some id).
  rewrite run_deref. now rewrite (run_bind _ _ w w ids IH).
Qed.

Lemma mapM_returns {A B} (f : A -> M St B) (xs : list A) (w : World St) :
  Forall (fun x => forall w', exists y, f x w' = (Done y, w')) xs ->
  exists ys, mapM f xs w = (Done ys, w) /\ length ys = length xs.
Proof.
  induction 1 as [|x xs Hx _ [ys [IH Hlen]]]; [now exists []|].
  destruct (Hx w) as [y Hy]. exists (y :: ys). split; [|simpl; now rewrite Hlen].
  cbn [mapM]. rewrite (run_bind _ _ w w y Hy). now rewrite (run_bind _ _ w w ys IH).
Qed.

Lemma query_id_line_returns (id : Z) (w : World St) :
  exists line, query_id_line (reference id) w = (Done line, w).
Proof. now eexists. Qed.

Lemma query_detail_line_returns (item : WorkItem) (w : World St) :
  is_Some (Id item) ->
  exists line, query_detail_line ext item w = (Done line, w).
Proof. intros [id Hid]. unfold query_detail_line. rewrite Hid. now eexists. Qed.

(** The lines under the header: the details when they were fetched, the
    bare IDs of all matches otherwise. *)
Lemma query_lines_return (ids : list Z) (r : result (option (list WorkItem)))
    (w : World St) :
  details_have_ids r ->
  exists lines,
    match r with
    | Ok (Some (item :: items)) => mapM (query_detail_line ext) (item :: items)
    | _ => mapM query_id_line (reference <$> ids)
    end w = (Done lines, w).
Proof.
  intros Hdetails.
  assert (Hfallback : exists lines,
            mapM (@query_id_line St) (reference <$> ids) w = (Done lines, w)).
  { destruct (mapM_returns (@query_id_line St) (reference <$> ids) w) as [ys [H _]];
      [|now exists ys].
    apply Forall_fmap, Forall_forall. intros id _ w'. apply query_id_line_returns. }
  destruct r as [[[|item items]|]|err]; try exact Hfallback.
  destruct (mapM_returns (query_detail_line ext) (item :: items) w) as [ys [H _]];
    [|now exists ys].
  eapply Forall_impl; [exact Hdetails|].
  intros it Hit w'. now apply query_detail_line_returns.
Qed.

(** C4. When the query matches nothing, query_work_items answers "No work
    items found matching the query." and issues no request beyond the
    query. When it matches more than 20 work items, details are fetched in
    one request for exactly the first 20 IDs, in result order, and the
    first line of the transcript states the number of all matches. *)
Theorem query_work_items_cap (request : CallToolRequest) (w : World St)
    (query : string) (queryResult : WorkItemQueryResult) (s1 : St) :
  arg request "query" = Some (VString query) ->
  let wiqlArgs := {| qwQuery := query; qwProject := Project config |} in
  QueryByWiql client wiqlArgs (remote w) = (Ok queryResult, s1) ->
  (WorkItems queryResult = None \/ WorkItems queryResult = Some [] ->
   handleQueryWorkItems ext config client request w =
     (Done (NewToolResultText "No work items found matching the query."),
      {| remote := s1; issued := issued w ++ [ ReqQueryByWiql wiqlArgs ] |}))
  /\ (forall ids,
        WorkItems queryResult = Some (reference <$> ids) ->
        20 < length ids ->
        let getArgs :=
          {| gwsIds := take 20 ids; gwsProject := None; gwsExpand := None |} in
        forall r s2,
          GetWorkItems client getArgs s1 = (r, s2) ->
          details_have_ids r ->
          exists lines,
            handleQueryWorkItems ext config client request w =
              (Done (NewToolResultText
                       (strings_Join (query_header (length ids) 20 :: "" :: lines) nl)),
               {| remote := s2;
                  issued :=
                    issued w ++
                    [ ReqQueryByWiql wiqlArgs; ReqGetWorkItems getArgs ] |})).
Proof.
  intros Hquery wiqlArgs Hwiql.
  assert (Hrun :
    handleQueryWorkItems ext config client request w =
    (match WorkItems queryResult with
     | None => ret (NewToolResultText "No work items found matching the query.")
     | Some workItemRefs =>
         if Nat.eqb (length workItemRefs) 0
         then ret (NewToolResultText "No work items found matching the query.")
         else
           bind
             (if Nat.ltb 0 (length workItemRefs)
              then
                let count := length workItemRefs in
                let count :=
                  if Nat.ltb maxDetailsToFetch count then maxDetailsToFetch else count in
                bind (mapM (fun ref => deref (RefId ref)) (firstn count workItemRefs))
                  (fun ids =>
                     if Nat.ltb 0 (length ids)
                     then
                       let results :=
                         [ query_header (length workItemRefs) count; "" ] in
                       let getArgs :=
                         {| gwsIds := ids; gwsProject := None; gwsExpand := None |} in
                       bind (call (ReqGetWorkItems getArgs) (GetWorkItems client getArgs))
                         (fun r =>
                            bind
                              match r with
                              | Ok (Some (item :: items)) =>
                                  mapM (query_detail_line ext) (item :: items)
                              | _ => mapM query_id_line workItemRefs
                              end
                              (fun lines => ret (results ++ lines)))
                     else ret [])
              else ret [])
             (fun results => ret (NewToolResultText (strings_Join results nl)))
     end {| remote := s1; issued := issued w ++ [ ReqQueryByWiql wiqlArgs ] |})).
  { unfold handleQueryWorkItems.
    rewrite (run_bind _ _ w w query) by now apply assert_string_ok.
    now rewrite (run_bind _ _ _ _ _ (run_call _ _ _ _ _ Hwiql)). }
  split.
  - intros Hempty. rewrite Hrun. now destruct Hempty as [-> | ->].
  - intros ids Hrefs Hlen getArgs r s2 Hget Hdetails.
    assert (Hlen' : length (reference <$> ids) = length ids) by apply length_fmap.
    destruct (query_lines_return ids r
                {| remote := s2;
                   issued :=
                     issued w ++ [ ReqQueryByWiql wiqlArgs; ReqGetWorkItems getArgs ] |}
                Hdetails) as [lines Hlines].
    exists lines. rewrite Hrun, Hrefs. cbv zeta. rewrite Hlen'.
    assert (Hcount : Nat.ltb maxDetailsToFetch (length ids) = true)
      by (apply Nat.ltb_lt; exact Hlen).
    assert (Hpos : Nat.ltb 0 (length ids) = true)
      by (apply Nat.ltb_lt; unfold maxDetailsToFetch in *; lia).
    assert (Hnz : Nat.eqb (length ids) 0 = false)
      by (apply Nat.eqb_neq; lia).
    rewrite Hnz, Hpos, Hcount.
    change (firstn maxDetailsToFetch (reference <$> ids))
      with (take 20 (reference <$> ids)).
    rewrite <- fmap_take.
    erewrite run_bind; [|erewrite run_bind; [|apply mapM_reference_ids]].
    2: { assert (Htake : Nat.ltb 0 (length (take 20 ids)) = true)
           by (apply Nat.ltb_lt; rewrite length_take; lia).
         rewrite Htake. fold getArgs.
         erewrite run_bind; [|apply run_call; exact Hget].
         cbn [remote issued]. rewrite <- app_assoc. cbn [app].
         erewrite run_bind; [|exact Hlines]. reflexivity. }
    reflexivity.
Qed.

End Query.

Lemma query_work_items_cap_witness :
  let ext := test_externals [] [] [] in
  let client := scripted_client 42 [] empty_item (reference <$> twenty_five_ids) "" in
  exists lines,
    handleQueryWorkItems ext test_config client query_request start =
      (Done (NewToolResultText
               (strings_Join
                  ("Found 25 work items. Showing details for the first 20:"
                     :: "" :: lines) nl)),
       {| remote := tt;
          issued :=
            [ ReqQueryByWiql
                {| qwQuery := "SELECT [System.Id] FROM WorkItems"; qwProject := "Demo" |};
              ReqGetWorkItems
                {| gwsIds := List.map Z.of_nat (seq 101 20);
                   gwsProject := None; gwsExpand := None |} ] |}).
Proof.
  intros ext client.
  refine (proj2 (query_work_items_cap ext test_config client query_request start
                   "SELECT [System.Id] FROM WorkItems"
                   {| WorkItems := Some (reference <$> twenty_five_ids) |} tt
                   eq_refl eq_refl)
            twenty_five_ids eq_refl _ (Err "details unavailable") tt eq_refl I).
  vm_compute. lia.
Defined.

(** ** Partial failure of batch_update_work_items *)

Section BatchUpdate.

Context {St : Type}.
Variable ext : Externals.
Variable config : AzureDevOpsConfig.
Variable client : Client St.

Lemma mapM_app {A B} (f : A -> M St B) (xs1 xs2 : list A) (w w1 w2 : World St)
    (ys1 ys2 : list B) :
  mapM f xs1 w = (Done ys1, w1) ->
  mapM f xs2 w1 = (Done ys2, w2) ->
  mapM f (xs1 ++ xs2) w = (Done (ys1 ++ ys2), w2).
Proof.
  revert w ys1. induction xs1 as [|x xs1 IH]; intros w ys1 H1 H2.
  - injection H1 as <- <-. exact H2.
  - cbn [mapM app] in *. unfold bind in H1 |- *.
    destruct (f x w) as [[y|msg] w'] eqn:Hx; [|discriminate].
    destruct (mapM f xs1 w') as [[ys|msg] w''] eqn:Hxs; [|discriminate].
    injection H1 as <- <-.
    now rewrite (IH w' ys Hxs H2).
Qed.

(** One valid update: one Patch request, and a line that reports its
    outcome. *)
Lemma batch_update_item_valid (update : Update) (w : World St) :
  updates_answer_with_id client ->
  valid_field update ->
  exists line w',
    batch_update_item config client update w = (Done line, w')
    /\ issued w' = issued w ++ [ batch_update_request config update ]
    /\ update_outcome_line update line.
Proof.
  intros Hids [systemField Hfield]. unfold batch_update_item, batch_update_request.
  rewrite Hfield. cbn [default].
  unfold bind, call.
  destruct (UpdateWorkItem client _ (remote w)) as [[workItem|err] s'] eqn:Hupd.
  - destruct (Hids _ _ _ _ Hupd) as [wid Hwid]. rewrite Hwid.
    eexists _, _. split; [reflexivity|]. split; [reflexivity|]. left. now exists wid.
  - eexists _, _. split; [reflexivity|]. split; [reflexivity|]. right. now exists err.
Qed.

(** A run of valid updates: one line and one Patch request each, in order,
    whatever the outcome of each Patch. *)
Lemma batch_update_valid_run (updates : list Update) (w : World St) :
  updates_answer_with_id client ->
  Forall valid_field updates ->
  exists lines w',
    mapM (batch_update_item config client) updates w = (Done lines, w')
    /\ issued w' = issued w ++ (batch_update_request config <$> updates)
    /\ Forall2 update_outcome_line updates lines.
Proof.
  intros Hids Hvalid. revert w.
  induction Hvalid as [|update updates Hu _ IH]; intros w.
  - exists [], w. split; [reflexivity|]. split; [now rewrite app_nil_r | constructor].
  - destruct (batch_update_item_valid update w Hids Hu) as (line & w1 & Hrun & Hiss & Hline).
    destruct (IH w1) as (lines & w2 & Hrun' & Hiss' & Hlines).
    exists (line :: lines), w2. split; [|split].
    + cbn [mapM]. rewrite (run_bind _ _ _ _ _ Hrun). now rewrite (run_bind _ _ _ _ _ Hrun').
    + rewrite Hiss', Hiss, <- app_assoc. reflexivity.
    + now constructor.
Qed.

Lemma update_outcome_line_not_invalid (updates : list Update) (lines : list string) :
  Forall2 update_outcome_line updates lines ->
  List.filter is_invalid_field_line lines = [].
Proof.
  induction 1 as [|update line updates lines Hline _ IH]; [reflexivity|].
  cbn [List.filter]. rewrite IH.
  now destruct Hline as [[id ->]|[err ->]].
Qed.

(** C5. In a batch of N updates of which exactly one names a field outside
    the four aliases, the transcript of batch_update_work_items joins N
    lines with line feeds (and splits back into these N lines when none of
    them holds a line feed itself); exactly one of them is an invalid-field
    failure, the one of that update, which causes no request; every other
    update issues its Patch and gets the line of its own outcome, as it
    would in the batch without the invalid update: the loop goes on after a
    failure. *)
Theorem batch_update_one_invalid_field (request : CallToolRequest) (w : World St)
    (updatesJSON : string) (before after : list Update) (invalid : Update) :
  arg request "updates" = Some (VString updatesJSON) ->
  Unmarshal_updates ext updatesJSON = Ok (before ++ invalid :: after) ->
  fieldMap !! Field invalid = None ->
  Forall valid_field before ->
  Forall valid_field after ->
  updates_answer_with_id client ->
  exists (lines_before lines_after : list string) (w1 w2 : World St),
    let lines := lines_before ++ invalid_field_line invalid :: lines_after in
    handleBatchUpdateWorkItems ext config client request w =
      (Done (NewToolResultText (strings_Join lines nl)), w2)
    /\ length lines = length (before ++ invalid :: after)
    /\ (Forall (fun line => strings_Contains line nl = false) lines ->
        strings_Split (strings_Join lines nl) nl = lines)
    /\ List.filter is_invalid_field_line lines = [ invalid_field_line invalid ]
    /\ issued w2 = issued w ++ (batch_update_request config <$> (before ++ after))
    /\ mapM (batch_update_item config client) before w = (Done lines_before, w1)
    /\ mapM (batch_update_item config client) after w1 = (Done lines_after, w2)
    /\ mapM (batch_update_item config client) (before ++ after) w =
         (Done (lines_before ++ lines_after), w2)
    /\ Forall2 update_outcome_line before lines_before
    /\ Forall2 update_outcome_line after lines_after.
Proof.
  intros Harg Hjson Hinvalid Hbefore Hafter Hids.
  destruct (batch_update_valid_run before w Hids Hbefore)
    as (lines_before & w1 & Hrun1 & Hiss1 & Hlines1).
  destruct (batch_update_valid_run after w1 Hids Hafter)
    as (lines_after & w2 & Hrun2 & Hiss2 & Hlines2).
  exists lines_before, lines_after, w1, w2. cbv zeta.
  assert (Hone : mapM (batch_update_item config client) (invalid :: after) w1 =
                   (Done (invalid_field_line invalid :: lines_after), w2)).
  { cbn [mapM]. unfold batch_update_item at 1. rewrite Hinvalid, run_ret.
    now rewrite (run_bind _ _ _ _ _ Hrun2). }
  repeat split.
  - unfold handleBatchUpdateWorkItems.
    rewrite (run_bind _ _ w w updatesJSON) by now apply assert_string_ok.
    rewrite Hjson. now rewrite (run_bind _ _ _ _ _ (mapM_app _ _ _ _ _ _ _ _ Hrun1 Hone)).
  - rewrite !length_app. cbn [length].
    now rewrite (Forall2_length _ _ _ Hlines1), (Forall2_length _ _ _ Hlines2).
  - intros Hnl. apply Split_Join.
    + discriminate.
    + intros Hnil. apply app_eq_nil in Hnil as [_ Hnil]. discriminate.
    + eapply Forall_impl; [exact Hnl|]. intros line. apply piece_of_nl.
  - rewrite List.filter_app. cbn [List.filter].
    rewrite (update_outcome_line_not_invalid _ _ Hlines1).
    rewrite (update_outcome_line_not_invalid _ _ Hlines2).
    assert (Hmark : is_invalid_field_line (invalid_field_line invalid) = true)
      by apply HasPrefix_append.
    now rewrite Hmark.
  - rewrite Hiss2, Hiss1, fmap_app, <- app_assoc. reflexivity.
  - exact Hrun1.
  - exact Hrun2.
  - exact (mapM_app _ _ _ _ _ _ _ _ Hrun1 Hrun2).
  - exact Hlines1.
  - exact Hlines2.
Qed.

End BatchUpdate.

Lemma scripted_updates_answer_with_id newId failing stored matches body :
  updates_answer_with_id (scripted_client newId failing stored matches body).
Proof.
  intros a s workItem s'. cbn [UpdateWorkItem scripted_client].
  destruct (bool_decide _); [discriminate|]. intros [= <- _]. now eexists.
Qed.

Lemma batch_update_one_invalid_field_witness :
  let ext := test_externals batch_of_four [] [] in
  let client := scripted_client 42 [3%Z] empty_item [] "" in
  exists lines w2,
    handleBatchUpdateWorkItems ext test_config client batch_request start =
      (Done (NewToolResultText (strings_Join lines nl)), w2)
    /\ length lines = 4
    /\ List.filter is_invalid_field_line lines = [ "Invalid field for #2: Severity" ]
    /\ length (issued w2) = 3.
Proof.
  intros ext client.
  destruct (batch_update_one_invalid_field ext test_config client batch_request start
              "[four updates]"
              [ {| ID := 1; Field := "State"; UpdateValue := "Closed" |} ]
              [ {| ID := 3; Field := "Title"; UpdateValue := "Renamed" |};
                {| ID := 4; Field := "Priority"; UpdateValue := "1" |} ]
              {| ID := 2; Field := "Severity"; UpdateValue := "High" |}
              eq_refl eq_refl eq_refl)
    as (lines_before & lines_after & w1 & w2 & Hrun & Hlen & _ & Hinvalid & Hissued & _).
  - repeat constructor; now eexists.
  - repeat constructor; now eexists.
  - apply scripted_updates_answer_with_id.
  - eexists _, w2. split; [exact Hrun|]. split; [exact Hlen|]. split; [exact Hinvalid|].
    rewrite Hissued. reflexivity.
Defined.

(** ** Wiki selection *)

Section WikiSelection.

Context {St : Type}.
Variable ext : Externals.
Variable config : AzureDevOpsConfig.
Variable client : Client St.

Hypothesis requests_built : forall url, NewRequest_error ext "GET" url = None.

Lemma http_get_run (url : string) (w : World St) :
  http_get ext config client url w =
    (let req :=
       {| Method := "GET"; URL := url; BasicAuth := ("", PersonalAccessToken config) |} in
     let (r, s') := Do client req (remote w) in
     (Done match r with Ok resp => Response resp | Err err => DoFailed err end,
      {| remote := s'; issued := issued w ++ [ ReqHttp req ] |})).
Proof.
  unfold http_get. rewrite requests_built. unfold bind, call. cbv zeta.
  destruct (Do client _ (remote w)) as [[resp|err] s']; reflexivity.
Qed.

(** A request followed by steps that issue none. *)
Lemma issued_after_http_get {A} (url : string) (k : GetOutcome -> M St A)
    (w : World St) :
  (forall g w', issued (snd (k g w')) = issued w') ->
  issued (snd (bind (http_get ext config client url) k w)) =
    issued w ++
    [ ReqHttp {| Method := "GET"; URL := url;
                 BasicAuth := ("", PersonalAccessToken config) |} ].
Proof.
  intros Hk. unfold bind. rewrite http_get_run. cbv zeta.
  destruct (Do client _ (remote w)) as [r s']. now rewrite Hk.
Qed.

Lemma getWikisForProject_listed (wikis : list (string * string)) (w : World St)
    (s1 : St) :
  wikis_listed ext config client (remote w) wikis s1 ->
  getWikisForProject ext config client w =
    (Done (Ok (present_wiki <$> wikis)),
     {| remote := s1; issued := issued w ++ [ ReqHttp (wikis_request ext config) ] |}).
Proof.
  intros (resp & body & Hdo & Hbody & Hstatus & Hdecode).
  unfold getWikisForProject. unfold bind at 1. rewrite http_get_run. cbv zeta.
  fold (wikis_request ext config). rewrite Hdo, Hbody, Hstatus. cbn [Z.eqb negb StatusOK Pos.eqb].
  rewrite Hdecode. destruct wikis as [|first others]; reflexivity.
Qed.

Lemma select_wiki_present (test : string -> bool) (wikis : list (string * string))
    (wikiId : string) (w : World St) :
  select_wiki test (present_wiki <$> wikis) wikiId w =
    (Done match List.find (fun wiki => test (snd wiki)) wikis with
          | Some wiki => fst wiki
          | None => wikiId
          end, w).
Proof.
  induction wikis as [|[id name] wikis IH]; [reflexivity|].
  rewrite fmap_cons. cbn [select_wiki fst snd List.find].
  change (present_wiki (id, name))
    with (Some {| WikiId := Some id; WikiName := Some name |}).
  rewrite run_deref. cbn [WikiName]. rewrite run_deref.
  destruct (test name); [reflexivity | exact IH].
Qed.

Lemma default_then_select_present (test : string -> bool) (first : string * string)
    (others : list (string * string)) (w : World St) :
  default_then_select test (present_wiki first) (present_wiki <$> first :: others) w =
    (Done (choose_wiki test first others), w).
Proof.
  unfold default_then_select, choose_wiki.
  change (present_wiki first)
    with (Some {| WikiId := Some (fst first); WikiName := Some (snd first) |}).
  rewrite run_deref. cbn [WikiId]. rewrite run_deref.
  apply select_wiki_present.
Qed.

Lemma log_wikis_present (wikis : list (string * string)) (w : World St) :
  exists ids,
    mapM (fun wiki =>
            bind (deref wiki) (fun wk =>
            bind (deref (WikiName wk)) (fun _ => deref (WikiId wk))))
      (present_wiki <$> wikis) w = (Done ids, w).
Proof.
  eexists. apply (mapM_total _ (fun wiki => default "" (wiki ≫= WikiId))).
  intros wiki w' Hin. apply list_elem_of_fmap in Hin as ([id name] & -> & _).
  reflexivity.
Qed.

Lemma mapM_silent {A B} (f : A -> M St B) (xs : list A) (w : World St) :
  (forall x w', snd (f x w') = w') ->
  snd (mapM f xs w) = w.
Proof.
  intros Hf. induction xs as [|x xs IH]; [reflexivity|].
  cbn [mapM]. unfold bind. pose proof (Hf x w) as Hx.
  destruct (f x w) as [[y|msg] w']; cbn [snd] in Hx; subst w'; [|reflexivity].
  destruct (mapM f xs w) as [[ys|msg] w']; cbn [snd] in IH; subst w'; reflexivity.
Qed.

Lemma search_page_silent (query queryLower : string) (page : WikiSearchEntry)
    (w : World St) :
  snd (search_page ext query queryLower page w) = w.
Proof.
  unfold search_page. destruct (strings_Contains _ _); [|reflexivity].
  cbv zeta. unfold bind, slice.
  destruct (_ && _ && _)%bool; reflexivity.
Qed.

(** C7. For a non-empty list of wikis in returned order, get_wiki_page
    addresses the first wiki whose lower-cased name contains the lower-cased
    project name with its spaces removed, or contains "documentation", and
    otherwise the first wiki of the list; manage_wiki_page, list_wiki_pages
    and search_wiki address the first wiki whose name as received contains
    the project name as configured, and otherwise the first wiki. *)
Theorem wiki_selection_heuristic (request : CallToolRequest) (w : World St)
    (first : string * string) (others : list (string * string)) (s1 : St) :
  wikis_listed ext config client (remote w) (first :: others) s1 ->
  let by_lowered_name :=
    choose_wiki
      (fun name =>
         strings_Contains (ToLower ext name)
           (ToLower ext (strings_ReplaceAll (Project config) " " ""))
         || strings_Contains (ToLower ext name) "documentation")
      first others in
  let by_name :=
    choose_wiki (fun name => strings_Contains name (Project config)) first others in
  (forall path,
     arg request "path" = Some (VString path) ->
     issued (snd (handleGetWikiPage ext config client request w)) =
       issued w ++
       [ ReqHttp (wikis_request ext config);
         ReqHttp
           (pages_request ext config by_lowered_name
              [ ("path", if strings_HasPrefix path "/" then path else "/" +:+ path);
                ("recursionLevel",
                 if fst (bool_ok (arg request "include_children"))
                 then "oneLevel" else "none");
                ("includeContent", "true");
                ("api-version", "7.2-preview") ]) ])
  /\ (forall path content,
        arg request "path" = Some (VString path) ->
        arg request "content" = Some (VString content) ->
        issued (snd (handleManageWikiPage ext config client request w)) =
          issued w ++
          [ ReqHttp (wikis_request ext config);
            ReqCreateOrUpdatePage
              {| cpWikiIdentifier := by_name; cpPath := path;
                 cpProject := Project config; cpContent := content |} ])
  /\ issued (snd (handleListWikiPages ext config client request w)) =
       issued w ++
       [ ReqHttp (wikis_request ext config);
         ReqHttp
           (pages_request ext config by_name
              ((if String.eqb (fst (string_ok (arg request "path"))) "" then []
                else [ ("path", fst (string_ok (arg request "path"))) ])
               ++ [ ("recursionLevel",
                     if fst (bool_ok (arg request "recursive"))
                     then "full" else "oneLevel");
                    ("api-version", "7.2-preview") ])) ]
  /\ (forall query,
        arg request "query" = Some (VString query) ->
        issued (snd (handleSearchWiki ext config client request w)) =
          issued w ++
          [ ReqHttp (wikis_request ext config);
            ReqHttp
              (pages_request ext config by_name
                 ([ ("recursionLevel", "full") ]
                  ++ match supplied_string (arg request "path") with
                     | Some path => [ ("path", path) ]
                     | None => []
                     end
                  ++ [ ("includeContent", "true"); ("api-version", "7.2-preview") ])) ]).
Proof.
  intros Hlisted by_lowered_name by_name.
  pose proof (getWikisForProject_listed _ w s1 Hlisted) as Hwikis.
  split; [|split; [|split]].
  - intros path Hpath.
    destruct (bool_ok (arg request "include_children")) as [includeChildren ok] eqn:Hok.
    unfold handleGetWikiPage.
    rewrite (run_bind _ _ w w path) by now apply assert_string_ok.
    rewrite Hok.
    rewrite (run_bind _ _ _ _ _ Hwikis).
    destruct (log_wikis_present (first :: others)
                {| remote := s1;
                   issued := issued w ++ [ ReqHttp (wikis_request ext config) ] |})
      as [ids Hlog].
    rewrite (run_bind _ _ _ _ _ Hlog).
    rewrite fmap_cons.
    rewrite (run_bind _ _ _ _ _
               (default_then_select_present
                  (matches_project_or_documentation ext config) first others _)).
    rewrite issued_after_http_get.
    + cbn [issued fst]. rewrite <- app_assoc.
      now destruct (strings_HasPrefix path "/").
    + intros g w'. destruct g as [err|err|resp]; try reflexivity.
      destruct (Body resp); [|reflexivity].
      destruct (negb (Z.eqb _ _)); [reflexivity|].
      destruct (Unmarshal_page ext _); reflexivity.
  - intros path content Hpath Hcontent. unfold handleManageWikiPage.
    rewrite (run_bind _ _ w w path) by now apply assert_string_ok.
    rewrite (run_bind _ _ w w content) by now apply assert_string_ok.
    rewrite (run_bind _ _ _ _ _ Hwikis).
    rewrite fmap_cons.
    rewrite (run_bind _ _ _ _ _
               (default_then_select_present (matches_project config) first others _)).
    unfold bind, call. cbn [remote issued].
    destruct (CreateOrUpdatePage client _ s1) as [[[]|err] s2];
      cbn [snd issued]; now rewrite <- app_assoc.
  - destruct (string_ok (arg request "path")) as [path ok] eqn:Hpath.
    destruct (bool_ok (arg request "recursive")) as [recursive ok'] eqn:Hrec.
    unfold handleListWikiPages. rewrite Hpath, Hrec.
    rewrite (run_bind _ _ _ _ _ Hwikis).
    rewrite fmap_cons.
    rewrite (run_bind _ _ _ _ _
               (default_then_select_present (matches_project config) first others _)).
    rewrite issued_after_http_get.
    + cbn [issued fst]. rewrite <- app_assoc.
      now destruct (String.eqb path "").
    + intros g w'. destruct g as [err|err|resp]; try reflexivity.
      destruct (Body resp); [|reflexivity].
      destruct (negb (Z.eqb _ _)); [reflexivity|].
      destruct (Unmarshal_list ext _); reflexivity.
  - intros query Hquery.
    assert (Hpath : string_ok (arg request "path") =
                      (default "" (supplied_string (arg request "path")),
                       bool_decide (is_Some (supplied_string (arg request "path")))))
      by (destruct (arg request "path") as [[]|]; reflexivity).
    unfold handleSearchWiki.
    rewrite (run_bind _ _ w w query) by now apply assert_string_ok.
    rewrite Hpath.
    rewrite (run_bind _ _ _ _ _ Hwikis).
    rewrite fmap_cons.
    rewrite (run_bind _ _ _ _ _
               (default_then_select_present (matches_project config) first others _)).
    rewrite issued_after_http_get.
    + cbn [issued]. rewrite <- app_assoc.
      now destruct (supplied_string (arg request "path")).
    + intros g w'. destruct g as [err|err|resp]; try reflexivity.
      destruct (Body resp); [|reflexivity].
      destruct (negb (Z.eqb _ _)); [reflexivity|].
      destruct (Unmarshal_search ext _) as [pages|err]; [|reflexivity].
      unfold bind.
      pose proof (mapM_silent (search_page ext query (ToLower ext query)) pages w'
                    (search_page_silent query (ToLower ext query))) as Hsilent.
      destruct (mapM _ pages w') as [[found|msg] w'']; cbn [snd] in Hsilent; subst w'';
        [|reflexivity].
      destruct (Nat.eqb _ _); reflexivity.
Qed.

End WikiSelection.

Lemma wiki_selection_heuristic_witness :
  let ext := test_externals [] [] (present_wiki <$> three_wikis) in
  let client := scripted_client 42 [] empty_item [] "" in
  issued (snd (handleGetWikiPage ext test_config client home_page_request start)) =
    [ ReqHttp (wikis_request ext test_config);
      ReqHttp
        (pages_request ext test_config "id-2"
           [ ("path", "/Home"); ("recursionLevel", "none");
             ("includeContent", "true"); ("api-version", "7.2-preview") ]) ]
  /\ issued (snd (handleListWikiPages ext test_config client home_page_request start)) =
       [ ReqHttp (wikis_request ext test_config);
         ReqHttp
           (pages_request ext test_config "id-3"
              [ ("path", "Home"); ("recursionLevel", "oneLevel");
                ("api-version", "7.2-preview") ]) ].
Proof.
  intros ext client.
  assert (Hlisted : wikis_listed ext test_config client tt three_wikis tt).
  { exists {| StatusCode := 200; Body := Ok "" |}, "". repeat split. }
  pose proof (wiki_selection_heuristic ext test_config client (fun _ => eq_refl)
                home_page_request start ("id-1", "Handbook")
                [ ("id-2", "Team Documentation"); ("id-3", "Demo.wiki") ] tt Hlisted)
    as (Hget & _ & Hlist & _).
  split; [exact (Hget "Home" eq_refl) | exact Hlist].
Defined.

(** * Further properties of the handlers *)

(** ** Attachment removal *)

Section AttachmentRemoval.

Context {St : Type}.
Variable config : AzureDevOpsConfig.
Variable client : Client St.

Lemma attachment_scan_first_match (attachmentID : string)
    (relations : list WorkItemRelation) (i : nat) (w : World St) :
  Forall relation_complete relations ->
  attachment_scan attachmentID relations i w =
    (Done
       match list_find (attachment_matches attachmentID) relations with
       | Some (j, _) => Z.of_nat (i + j)
       | None => (-1)%Z
       end, w).
Proof.
  intros Hcomplete. revert i.
  induction Hcomplete as [|relation rest [[rel Hrel] [url Hurl]] _ IH]; intros i.
  - reflexivity.
  - cbn [attachment_scan list_find].
    rewrite Hrel, run_deref.
    assert (Hrest :
      attachment_scan attachmentID rest (S i) w =
        (Done
           match prod_map S id <$> list_find (attachment_matches attachmentID) rest with
           | Some (j, _) => Z.of_nat (i + j)
           | None => (-1)%Z
           end, w)).
    { rewrite IH. destruct (list_find _ rest) as [[j r]|]; simpl; [|reflexivity].
      now rewrite Nat.add_succ_r. }
    destruct (String.eqb rel "AttachedFile") eqn:Erel.
    + rewrite Hurl, run_deref.
      destruct (strings_Contains url attachmentID) eqn:Eurl.
      * apply String.eqb_eq in Erel. subst rel.
        rewrite decide_True.
        -- unfold ret. now rewrite Nat.add_0_r.
        -- split; [assumption|]. now rewrite Hurl.
      * rewrite decide_False; [exact Hrest|].
        intros [_ Hm]. rewrite Hurl in Hm. cbn in Hm. congruence.
    + apply String.eqb_neq in Erel.
      rewrite decide_False; [exact Hrest|].
      intros [Hm _]. rewrite Hrel in Hm. congruence.
Qed.

Lemma handleRemoveWorkItemAttachment_run (request : CallToolRequest) (w : World St)
    (id : Z) (attachmentID : string) (workItem : WorkItem) (s1 : St)
    (relations : list WorkItemRelation) :
  arg request "id" = Some (VNumber id) ->
  arg request "attachment_id" = Some (VString attachmentID) ->
  let getArgs :=
    {| gwId := id; gwProject := Project config; gwExpand := Some "relations" |} in
  let read := {| remote := s1; issued := issued w ++ [ ReqGetWorkItem getArgs ] |} in
  GetWorkItem client getArgs (remote w) = (Ok workItem, s1) ->
  Relations workItem = Some relations ->
  Forall relation_complete relations ->
  match list_find (attachment_matches attachmentID) relations with
  | None =>
      handleRemoveWorkItemAttachment config client request w =
        (Done (NewToolResultError "Attachment not found"), read)
  | Some (i, _) =>
      let updateArgs :=
        {| uwId := id; uwProject := Project config;
           uwDocument := [ remove_relation_at i ] |} in
      forall r s2,
        UpdateWorkItem client updateArgs s1 = (r, s2) ->
        handleRemoveWorkItemAttachment config client request w =
          (Done
             match r with
             | Ok _ =>
                 NewToolResultText ("Removed attachment from work item #" +:+ itoa id)
             | Err err => NewToolResultError ("Failed to remove attachment: " +:+ err)
             end,
           {| remote := s2;
              issued :=
                issued w ++ [ ReqGetWorkItem getArgs; ReqUpdateWorkItem updateArgs ] |})
  end.
Proof.
  intros Hid Hatt getArgs read Hget Hrels Hcomplete.
  assert (Hrun :
    handleRemoveWorkItemAttachment config client request w =
      bind (attachment_scan attachmentID relations 0)
        (fun relationIndex =>
           if Z.eqb relationIndex (-1)
           then ret (NewToolResultError "Attachment not found")
           else
             let updateArgs :=
               {| uwId := id; uwProject := Project config;
                  uwDocument :=
                    [ {| Op := OpRemove; Path := "/relations/" +:+ itoa relationIndex;
                         PatchValue := VNull |} ] |} in
             bind (call (ReqUpdateWorkItem updateArgs) (UpdateWorkItem client updateArgs))
               (fun r =>
                  match r with
                  | Err err =>
                      ret (NewToolResultError ("Failed to remove attachment: " +:+ err))
                  | Ok _ =>
                      ret (NewToolResultText
                             ("Removed attachment from work item #" +:+ itoa id))
                  end)) read).
  { unfold handleRemoveWorkItemAttachment.
    rewrite (run_bind _ _ w w id) by now apply assert_int_ok.
    rewrite (run_bind _ _ w w attachmentID) by now apply assert_string_ok.
    rewrite (run_bind _ _ _ _ _ (run_call _ _ _ _ _ Hget)).
    now rewrite Hrels. }
  rewrite Hrun.
  rewrite (run_bind _ _ _ _ _
             (attachment_scan_first_match attachmentID relations 0 read Hcomplete)).
  destruct (list_find (attachment_matches attachmentID) relations) as [[i relation]|];
    [|reflexivity].
  intros updateArgs r s2 Hupd. cbn [Nat.add].
  assert (Hfound : Z.eqb (Z.of_nat i) (-1) = false) by (apply Z.eqb_neq; lia).
  rewrite Hfound. fold (remove_relation_at i). fold updateArgs.
  erewrite run_bind; [|apply run_call; exact Hupd].
  unfold read. cbn [issued remote]. rewrite <- app_assoc.
  destruct r; reflexivity.
Qed.

(** X1. remove_work_item_attachment addresses the first relation that is an
    attached file and whose URL contains the given identifier: its Patch is
    one remove at the position of that entry. When no entry is such, or the
    work item has no relation list, it returns an Error result and issues
    no Patch. *)
Theorem remove_attachment_by_first_match (request : CallToolRequest) (w : World St)
    (id : Z) (attachmentID : string) (workItem : WorkItem) (s1 : St) :
  arg request "id" = Some (VNumber id) ->
  arg request "attachment_id" = Some (VString attachmentID) ->
  let getArgs :=
    {| gwId := id; gwProject := Project config; gwExpand := Some "relations" |} in
  let read := {| remote := s1; issued := issued w ++ [ ReqGetWorkItem getArgs ] |} in
  GetWorkItem client getArgs (remote w) = (Ok workItem, s1) ->
  (Relations workItem = None ->
   handleRemoveWorkItemAttachment config client request w =
     (Done (NewToolResultError "Work item has no attachments"), read))
  /\ (forall relations,
        Relations workItem = Some relations ->
        Forall relation_complete relations ->
        match list_find (attachment_matches attachmentID) relations with
        | None =>
            handleRemoveWorkItemAttachment config client request w =
              (Done (NewToolResultError "Attachment not found"), read)
        | Some (i, _) =>
            forall r s2,
              UpdateWorkItem client
                {| uwId := id; uwProject := Project config;
                   uwDocument := [ remove_relation_at i ] |} s1 = (r, s2) ->
              issued (snd (handleRemoveWorkItemAttachment config client request w)) =
                issued w ++
                [ ReqGetWorkItem getArgs;
                  ReqUpdateWorkItem
                    {| uwId := id; uwProject := Project config;
                       uwDocument := [ remove_relation_at i ] |} ]
        end).
Proof.
  intros Hid Hatt getArgs read Hget. split.
  - intros Hnone. unfold handleRemoveWorkItemAttachment.
    rewrite (run_bind _ _ w w id) by now apply assert_int_ok.
    rewrite (run_bind _ _ w w attachmentID) by now apply assert_string_ok.
    rewrite (run_bind _ _ _ _ _ (run_call _ _ _ _ _ Hget)).
    now rewrite Hnone.
  - intros relations Hrels Hcomplete.
    pose proof (handleRemoveWorkItemAttachment_run request w id attachmentID workItem
                  s1 relations Hid Hatt Hget Hrels Hcomplete) as Hrun.
    destruct (list_find (attachment_matches attachmentID) relations) as [[i relation]|];
      [|exact Hrun].
    intros r s2 Hupd. now rewrite (Hrun r s2 Hupd).
Qed.

Lemma Contains_empty (s : string) : strings_Contains s "" = true.
Proof. destruct s; reflexivity. Qed.

Lemma list_find_ext_Forall {A} (P Q : A -> Prop) `{forall x, Decision (P x)}
    `{forall x, Decision (Q x)} (l : list A) :
  Forall (fun x => P x <-> Q x) l -> list_find P l = list_find Q l.
Proof.
  induction 1 as [|x l Hx _ IH]; [reflexivity|].
  cbn [list_find]. rewrite IH.
  destruct (decide (P x)) as [HP|HP].
  - rewrite decide_True; [reflexivity | now apply Hx].
  - rewrite decide_False; [reflexivity | now rewrite <- Hx].
Qed.

(** X2. With the empty string as attachment identifier,
    remove_work_item_attachment removes the first attached file of the work
    item, whatever its URL: every URL contains the empty string. *)
Theorem remove_attachment_empty_identifier (request : CallToolRequest) (w : World St)
    (id : Z) (workItem : WorkItem) (s1 s2 : St) (relations : list WorkItemRelation)
    (i : nat) (relation : WorkItemRelation) (r : result WorkItem) :
  arg request "id" = Some (VNumber id) ->
  arg request "attachment_id" = Some (VString "") ->
  let getArgs :=
    {| gwId := id; gwProject := Project config; gwExpand := Some "relations" |} in
  let updateArgs :=
    {| uwId := id; uwProject := Project config;
       uwDocument := [ remove_relation_at i ] |} in
  GetWorkItem client getArgs (remote w) = (Ok workItem, s1) ->
  Relations workItem = Some relations ->
  Forall relation_complete relations ->
  list_find is_attached_file relations = Some (i, relation) ->
  UpdateWorkItem client updateArgs s1 = (r, s2) ->
  handleRemoveWorkItemAttachment config client request w =
    (Done
       match r with
       | Ok _ => NewToolResultText ("Removed attachment from work item #" +:+ itoa id)
       | Err err => NewToolResultError ("Failed to remove attachment: " +:+ err)
       end,
     {| remote := s2;
        issued := issued w ++ [ ReqGetWorkItem getArgs; ReqUpdateWorkItem updateArgs ] |}).
Proof.
  intros Hid Hatt getArgs updateArgs Hget Hrels Hcomplete Hfind Hupd.
  pose proof (handleRemoveWorkItemAttachment_run request w id "" workItem s1 relations
                Hid Hatt Hget Hrels Hcomplete) as Hrun.
  rewrite (list_find_ext_Forall (attachment_matches "") is_attached_file) in Hrun.
  - rewrite Hfind in Hrun. exact (Hrun r s2 Hupd).
  - apply Forall_forall. intros x _. unfold attachment_matches, is_attached_file.
    rewrite Contains_empty. tauto.
Qed.

End AttachmentRemoval.

Lemma item_with_attachments_complete (relations : list WorkItemRelation) :
  Relations item_with_attachments = Some relations ->
  Forall relation_complete relations.
Proof. intros [= <-]. repeat constructor; now eexists. Qed.

Lemma remove_attachment_by_first_match_witness :
  let client := scripted_client 42 [] item_with_attachments [] "" in
  handleRemoveWorkItemAttachment test_config client (remove_attachment_request "zzz")
    start
  = (Done (NewToolResultError "Attachment not found"),
     {| remote := tt;
        issued :=
          [ ReqGetWorkItem
              {| gwId := 1; gwProject := "Demo"; gwExpand := Some "relations" |} ] |})
  /\ issued (snd (handleRemoveWorkItemAttachment test_config client
                    (remove_attachment_request "abc-12") start))
     = [ ReqGetWorkItem
           {| gwId := 1; gwProject := "Demo"; gwExpand := Some "relations" |};
         ReqUpdateWorkItem
           {| uwId := 1; uwProject := "Demo";
              uwDocument := [ remove_relation_at 2 ] |} ].
Proof.
  intros client. split.
  - exact (proj2 (remove_attachment_by_first_match test_config client
                    (remove_attachment_request "zzz") start 1%Z "zzz"
                    item_with_attachments tt eq_refl eq_refl eq_refl)
             _ eq_refl (item_with_attachments_complete _ eq_refl)).
  - exact (proj2 (remove_attachment_by_first_match test_config client
                    (remove_attachment_request "abc-12") start 1%Z "abc-12"
                    item_with_attachments tt eq_refl eq_refl eq_refl)
             _ eq_refl (item_with_attachments_complete _ eq_refl)
             (Ok {| Id := Some 1%Z; Fields := None; Relations := None |}) tt eq_refl).
Defined.

Lemma remove_attachment_empty_identifier_witness :
  issued (snd (handleRemoveWorkItemAttachment test_config
                 (scripted_client 42 [] item_with_attachments [] "")
                 (remove_attachment_request "") start))
  = [ ReqGetWorkItem {| gwId := 1; gwProject := "Demo"; gwExpand := Some "relations" |};
      ReqUpdateWorkItem
        {| uwId := 1; uwProject := "Demo"; uwDocument := [ remove_relation_at 1 ] |} ].
Proof.
  rewrite (remove_attachment_empty_identifier test_config
             (scripted_client 42 [] item_with_attachments [] "")
             (remove_attachment_request "") start 1%Z item_with_attachments tt tt
             _ 1
             (attached "https://dev.azure.com/org/_apis/wit/attachments/abc-1")
             (Ok {| Id := Some 1%Z; Fields := None; Relations := None |})
             eq_refl eq_refl eq_refl eq_refl
             (item_with_attachments_complete _ eq_refl) eq_refl eq_refl).
  reflexivity.
Defined.

(** ** Reading the tags *)

Lemma split_scan_nonempty (sep s : string) (skip : nat) : split_scan sep s skip <> [].
Proof.
  revert skip. induction s as [|c s IH]; intros skip; [discriminate|].
  cbn [split_scan]. destruct skip as [|k]; [|apply IH].
  destruct (String.prefix sep (String c s)); [discriminate|].
  destruct (split_scan sep s 0); discriminate.
Qed.

Section ReadingTags.

Context {St : Type}.
Variable config : AzureDevOpsConfig.
Variable client : Client St.

(** X3. get_work_item_tags and manage_work_item_tags read the tags field
    alike: the first reports "No tags found" exactly when the second would
    start from the empty tag list, that is when the field is absent, not a
    string, or empty; otherwise it shows the field as stored. *)
Theorem get_tags_agrees_with_manage (request : CallToolRequest) (w : World St)
    (id : Z) (workItem : WorkItem) (fields : gmap string Value) (s1 : St) :
  arg request "id" = Some (VNumber id) ->
  let getArgs := {| gwId := id; gwProject := Project config; gwExpand := None |} in
  let read := {| remote := s1; issued := issued w ++ [ ReqGetWorkItem getArgs ] |} in
  GetWorkItem client getArgs (remote w) = (Ok workItem, s1) ->
  Fields workItem = Some fields ->
  (handleGetWorkItemTags config client request w =
     (Done (NewToolResultText ("No tags found for work item #" +:+ itoa id)), read)
   <-> current_tags fields = [])
  /\ (current_tags fields <> [] ->
      exists tags,
        fields !! "System.Tags" = Some (VString tags)
        /\ handleGetWorkItemTags config client request w =
             (Done (NewToolResultText
                      ("Tags for work item #" +:+ itoa id +:+ ":" +:+ nl +:+ tags)),
              read)).
Proof.
  intros Hid getArgs read Hget Hfields.
  assert (Hrun :
    handleGetWorkItemTags config client request w =
      (Done
         (let '(tags, ok) := string_ok (fields !! "System.Tags") in
          if ok && negb (String.eqb tags "")
          then NewToolResultText
                 ("Tags for work item #" +:+ itoa id +:+ ":" +:+ nl +:+ tags)
          else NewToolResultText ("No tags found for work item #" +:+ itoa id)),
       read)).
  { unfold handleGetWorkItemTags.
    rewrite (run_bind _ _ w w id) by now apply assert_int_ok.
    rewrite (run_bind _ _ _ _ _ (run_call _ _ _ _ _ Hget)).
    rewrite Hfields, run_deref.
    destruct (string_ok (fields !! "System.Tags")) as [tags ok].
    destruct (ok && negb (String.eqb tags "")); reflexivity. }
  rewrite Hrun. unfold current_tags.
  destruct (fields !! "System.Tags") as [[|tags| | | |]|]; cbn [string_ok andb];
    try (split; [split; [reflexivity | reflexivity] | intros H; now destruct H]).
  destruct (String.eqb tags "") eqn:Hempty; cbn [negb].
  - split; [split; reflexivity | intros H; now destruct H].
  - split.
    + split.
      * intros H. injection H as H. discriminate H.
      * intros H. now apply split_scan_nonempty in H.
    + intros _. exists tags. split; reflexivity.
Qed.

End ReadingTags.

Lemma get_tags_agrees_with_manage_witness :
  handleGetWorkItemTags test_config (scripted_client 42 [] tagged_item [] "")
    (request_of [ ("id", VNumber 5) ]) start
  <> (Done (NewToolResultText ("No tags found for work item #" +:+ itoa 5)),
      {| remote := tt;
         issued :=
           [ ReqGetWorkItem {| gwId := 5; gwProject := "Demo"; gwExpand := None |} ] |}).
Proof.
  intros H.
  apply (proj1 (get_tags_agrees_with_manage test_config
                  (scripted_client 42 [] tagged_item [] "")
                  (request_of [ ("id", VNumber 5) ]) start 5%Z tagged_item
                  {[ "System.Tags" := VString "a; b" ]} tt eq_refl eq_refl eq_refl)) in H.
  discriminate H.
Defined.

(** ** The two update paths *)

Lemma fieldMap_lookup (field systemField : string) :
  fieldMap !! field = Some systemField ->
  (field, systemField) ∈
    [ ("Title", "System.Title"); ("Description", "System.Description");
      ("State", "System.State"); ("Priority", "Microsoft.VSTS.Common.Priority") ].
Proof. intros H. now apply elem_of_list_to_map_2 in H. Qed.

Lemma fieldMap_translates (field systemField : string) :
  fieldMap !! field = Some systemField -> systemField <> field.
Proof.
  intros H. apply fieldMap_lookup in H.
  repeat (apply elem_of_cons in H as [[= -> ->]|H]; [discriminate|]).
  now apply not_elem_of_nil in H.
Qed.

Section UpdatePaths.

Context {St : Type}.
Variable config : AzureDevOpsConfig.
Variable client : Client St.

Lemma batch_update_item_issued (update : Update) (w : World St) :
  valid_field update ->
  issued (snd (batch_update_item config client update w)) =
    issued w ++ [ batch_update_request config update ].
Proof.
  intros [systemField Hfield]. unfold batch_update_item, batch_update_request.
  rewrite Hfield. cbn [default from_option id]. unfold bind, call.
  destruct (UpdateWorkItem client _ (remote w)) as [[workItem|err] s']; [|reflexivity].
  destruct (Id workItem); reflexivity.
Qed.

(** X4. update_work_item sends the given field name as it is, as the field
    reference of one replace operation, and reports the ID of the response;
    batch_update_work_items translates the same name first. For the same
    ID, value and any of the four aliases the two handlers therefore send
    different Patch requests. *)
Theorem single_update_sends_field_verbatim (request : CallToolRequest) (w : World St)
    (id : Z) (field value : string) :
  arg request "id" = Some (VNumber id) ->
  arg request "field" = Some (VString field) ->
  arg request "value" = Some (VString value) ->
  issued (snd (handleUpdateWorkItem config client request w)) =
    issued w ++ [ single_update_request config id field value ]
  /\ (forall workItem s1 wid,
        UpdateWorkItem client
          {| uwId := id; uwProject := Project config;
             uwDocument :=
               [ {| Op := OpReplace; Path := "/fields/" +:+ field;
                    PatchValue := VString value |} ] |} (remote w)
          = (Ok workItem, s1) ->
        Id workItem = Some wid ->
        fst (handleUpdateWorkItem config client request w) =
          Done (NewToolResultText ("Updated work item #" +:+ itoa wid)))
  /\ (forall update,
        ID update = id -> Field update = field -> UpdateValue update = value ->
        valid_field update ->
        issued (snd (batch_update_item config client update w)) =
          issued w ++ [ batch_update_request config update ]
        /\ batch_update_request config update
           <> single_update_request config id field value).
Proof.
  intros Hid Hfield Hvalue.
  assert (Hrun :
    handleUpdateWorkItem config client request w =
      bind (call (single_update_request config id field value)
              (UpdateWorkItem client
                 {| uwId := id; uwProject := Project config;
                    uwDocument :=
                      [ {| Op := OpReplace; Path := "/fields/" +:+ field;
                           PatchValue := VString value |} ] |}))
        (fun r =>
           match r with
           | Err err => ret (NewToolResultError ("Failed to update work item: " +:+ err))
           | Ok workItem =>
               bind (deref (Id workItem))
                 (fun wid => ret (NewToolResultText ("Updated work item #" +:+ itoa wid)))
           end) w).
  { unfold handleUpdateWorkItem.
    rewrite (run_bind _ _ w w id) by now apply assert_int_ok.
    rewrite (run_bind _ _ w w field) by now apply assert_string_ok.
    now rewrite (run_bind _ _ w w value) by now apply assert_string_ok. }
  split; [|split].
  - rewrite Hrun. unfold bind, call.
    destruct (UpdateWorkItem client _ (remote w)) as [[workItem|err] s']; [|reflexivity].
    destruct (Id workItem); reflexivity.
  - intros workItem s1 wid Hupd Hwid. rewrite Hrun.
    rewrite (run_bind _ _ _ _ _ (run_call _ _ _ _ _ Hupd)).
    now rewrite Hwid.
  - intros update Huid Hufield Huvalue Hvalid. split.
    + now apply batch_update_item_issued.
    + destruct Hvalid as [systemField Hsys].
      unfold batch_update_request, single_update_request. rewrite Hsys.
      intros [= _ Hpath _]. subst field.
      apply String.app_inj in Hpath. now apply fieldMap_translates in Hsys.
Qed.

End UpdatePaths.

Lemma single_update_sends_field_verbatim_witness :
  let client := scripted_client 42 [] empty_item [] "" in
  let request :=
    request_of [ ("id", VNumber 42); ("field", VString "State");
                 ("value", VString "Closed") ] in
  handleUpdateWorkItem test_config client request start =
    (Done (NewToolResultText "Updated work item #42"),
     {| remote := tt;
        issued :=
          [ ReqUpdateWorkItem
              {| uwId := 42; uwProject := "Demo";
                 uwDocument :=
                   [ {| Op := OpReplace; Path := "/fields/State";
                        PatchValue := VString "Closed" |} ] |} ] |}).
Proof.
  intros client request.
  destruct (single_update_sends_field_verbatim test_config client request start
              42%Z "State" "Closed" eq_refl eq_refl eq_refl) as (Hissued & Htext & _).
  specialize (Htext {| Id := Some 42%Z; Fields := None; Relations := None |} tt 42%Z
                eq_refl eq_refl).
  destruct (handleUpdateWorkItem test_config client request start) as [o w'].
  cbn [fst snd] in *. subst o. destruct w' as [[] iss]. cbn [issued] in Hissued.
  now subst iss.
Defined.

(** ** Adding a relation *)

Lemma relationTypeMap_unmapped (relationType : string) :
  relationType <> "parent" -> relationType <> "child" -> relationType <> "related" ->
  relationTypeMap !! relationType = None.
Proof.
  intros Hp Hc Hr. unfold relationTypeMap. cbn [list_to_map foldr uncurry fst snd].
  rewrite !lookup_insert_ne by congruence. apply lookup_empty.
Qed.

Section AddRelation.

Context {St : Type}.
Variable config : AzureDevOpsConfig.
Variable client : Client St.

(** X5. With operation "add", manage_work_item_relations issues one
    request, the Patch that appends the relation, without reading the work
    item first. A relation type outside parent, child and related is not
    rejected: the Patch then carries the empty relation type. *)
Theorem add_relation_single_patch (request : CallToolRequest) (w : World St)
    (sourceID targetID : Z) (relationType : string) (r : result WorkItem) (s1 : St) :
  arg request "source_id" = Some (VNumber sourceID) ->
  arg request "target_id" = Some (VNumber targetID) ->
  arg request "relation_type" = Some (VString relationType) ->
  arg request "operation" = Some (VString "add") ->
  let azureRelationType := default "" (relationTypeMap !! relationType) in
  UpdateWorkItem client
    (add_relation_args config sourceID targetID azureRelationType) (remote w)
    = (r, s1) ->
  handleManageWorkItemRelations config client request w =
    (Done
       match r with
       | Ok _ =>
           NewToolResultText ("Successfully addd " +:+ relationType +:+ " relationship")
       | Err err =>
           NewToolResultError ("Failed to update work item relations: " +:+ err)
       end,
     {| remote := s1;
        issued :=
          issued w ++
          [ ReqUpdateWorkItem
              (add_relation_args config sourceID targetID azureRelationType) ] |})
  /\ (relationType <> "parent" -> relationType <> "child" ->
      relationType <> "related" -> azureRelationType = "").
Proof.
  intros Hsrc Htgt Hrel Hop azureRelationType Hupd. split.
  - unfold handleManageWorkItemRelations.
    rewrite (run_bind _ _ w w sourceID) by now apply assert_int_ok.
    rewrite (run_bind _ _ w w targetID) by now apply assert_int_ok.
    rewrite Hrel. cbn [string_ok negb].
    rewrite (run_bind _ _ w w "add") by now apply assert_string_ok.
    cbn [String.eqb Ascii.eqb Bool.eqb].
    erewrite run_bind; [|apply run_call; exact Hupd].
    destruct r; reflexivity.
  - intros Hp Hc Hr. unfold azureRelationType.
    now rewrite relationTypeMap_unmapped.
Qed.

End AddRelation.

Lemma add_relation_single_patch_witness :
  let client := scripted_client 42 [] empty_item [] "" in
  let request :=
    request_of [ ("source_id", VNumber 1); ("target_id", VNumber 2);
                 ("relation_type", VString "children"); ("operation", VString "add") ] in
  handleManageWorkItemRelations test_config client request start =
    (Done (NewToolResultText "Successfully addd children relationship"),
     {| remote := tt;
        issued := [ ReqUpdateWorkItem (add_relation_args test_config 1 2 "") ] |}).
Proof.
  intros client request.
  exact (proj1 (add_relation_single_patch test_config client request start 1%Z 2%Z
                  "children" (Ok {| Id := Some 1%Z; Fields := None; Relations := None |})
                  tt eq_refl eq_refl eq_refl eq_refl eq_refl)).
Defined.

(** ** Queries with few matches, and queries whose details cannot be fetched *)

Section QueryDetails.

Context {St : Type}.
Variable ext : Externals.
Variable config : AzureDevOpsConfig.
Variable client : Client St.

Lemma mapM_id_lines (ids : list Z) (w : World St) :
  mapM (@query_id_line St) (reference <$> ids) w = (Done (id_line <$> ids), w).
Proof.
  rewrite (mapM_total (@query_id_line St)
             (fun ref => id_line (default 0%Z (RefId ref))) (reference <$> ids) w).
  - now rewrite <- list_fmap_compose.
  - intros ref w' Href. apply list_elem_of_fmap in Href as (id & -> & _). reflexivity.
Qed.

(** The run of the handler on a non-empty result, up to the lines under
    the header. *)
Lemma handleQueryWorkItems_run (request : CallToolRequest) (w : World St)
    (query : string) (queryResult : WorkItemQueryResult) (s1 s2 : St) (ids : list Z)
    (r : result (option (list WorkItem))) :
  arg request "query" = Some (VString query) ->
  let wiqlArgs := {| qwQuery := query; qwProject := Project config |} in
  QueryByWiql client wiqlArgs (remote w) = (Ok queryResult, s1) ->
  WorkItems queryResult = Some (reference <$> ids) ->
  ids <> [] ->
  let count := Nat.min (length ids) maxDetailsToFetch in
  let getArgs := {| gwsIds := take count ids; gwsProject := None; gwsExpand := None |} in
  GetWorkItems client getArgs s1 = (r, s2) ->
  handleQueryWorkItems ext config client request w =
    bind
      match r with
      | Ok (Some (item :: items)) => mapM (query_detail_line ext) (item :: items)
      | _ => mapM query_id_line (reference <$> ids)
      end
      (fun lines =>
         ret (NewToolResultText
                (strings_Join (query_header (length ids) count :: "" :: lines) nl)))
      {| remote := s2;
         issued := issued w ++ [ ReqQueryByWiql wiqlArgs; ReqGetWorkItems getArgs ] |}.
Proof.
  intros Hquery wiqlArgs Hwiql Hrefs Hne count getArgs Hget.
  assert (Hlen : length ids <> 0) by (destruct ids; [contradiction | discriminate]).
  unfold handleQueryWorkItems.
  rewrite (run_bind _ _ w w query) by now apply assert_string_ok.
  rewrite (run_bind _ _ _ _ _ (run_call _ _ _ _ _ Hwiql)).
  rewrite Hrefs. cbv zeta. rewrite length_fmap.
  assert (Hnz : Nat.eqb (length ids) 0 = false) by now apply Nat.eqb_neq.
  assert (Hpos : Nat.ltb 0 (length ids) = true) by (apply Nat.ltb_lt; lia).
  rewrite Hnz, Hpos.
  assert (Hcount :
    (if Nat.ltb maxDetailsToFetch (length ids) then maxDetailsToFetch else length ids)
    = count).
  { unfold count. destruct (Nat.ltb_spec maxDetailsToFetch (length ids)); lia. }
  rewrite Hcount.
  change (firstn count (reference <$> ids)) with (take count (reference <$> ids)).
  rewrite <- fmap_take.
  unfold bind at 1. unfold bind at 1.
  rewrite mapM_reference_ids.
  assert (Htake : Nat.ltb 0 (length (take count ids)) = true).
  { apply Nat.ltb_lt. rewrite length_take. unfold count, maxDetailsToFetch. lia. }
  rewrite Htake. fold getArgs.
  erewrite run_bind; [|apply run_call; exact Hget].
  cbn [remote issued]. rewrite <- app_assoc. cbn [app].
  unfold bind.
  destruct (match r with
            | Ok (Some (item :: items)) => mapM (query_detail_line ext) (item :: items)
            | _ => mapM query_id_line (reference <$> ids)
            end _) as [[lines|msg] w']; reflexivity.
Qed.

(** X6. When the query matches between 1 and 20 work items,
    query_work_items requests the details of all of them in one request, in
    result order, and the header counts them all as shown; the transcript
    then has one line for each work item the service returned. *)
Theorem query_few_matches_fetches_all (request : CallToolRequest) (w : World St)
    (query : string) (queryResult : WorkItemQueryResult) (s1 s2 : St) (ids : list Z)
    (item : WorkItem) (items : list WorkItem) :
  arg request "query" = Some (VString query) ->
  let wiqlArgs := {| qwQuery := query; qwProject := Project config |} in
  let getArgs := {| gwsIds := ids; gwsProject := None; gwsExpand := None |} in
  QueryByWiql client wiqlArgs (remote w) = (Ok queryResult, s1) ->
  WorkItems queryResult = Some (reference <$> ids) ->
  0 < length ids <= 20 ->
  GetWorkItems client getArgs s1 = (Ok (Some (item :: items)), s2) ->
  Forall (fun it => is_Some (Id it)) (item :: items) ->
  exists lines,
    length lines = length (item :: items)
    /\ handleQueryWorkItems ext config client request w =
         (Done (NewToolResultText
                  (strings_Join
                     (query_header (length ids) (length ids) :: "" :: lines) nl)),
          {| remote := s2;
             issued :=
               issued w ++ [ ReqQueryByWiql wiqlArgs; ReqGetWorkItems getArgs ] |}).
Proof.
  intros Hquery wiqlArgs getArgs Hwiql Hrefs Hlen Hget Hids.
  assert (Hne : ids <> []) by (intros ->; cbn in Hlen; lia).
  assert (Hmin : Nat.min (length ids) maxDetailsToFetch = length ids)
    by (unfold maxDetailsToFetch; lia).
  pose proof (handleQueryWorkItems_run request w query queryResult s1 s2 ids
                (Ok (Some (item :: items))) Hquery Hwiql Hrefs Hne) as Hrun.
  cbv zeta in Hrun. rewrite Hmin, firstn_all in Hrun. specialize (Hrun Hget).
  destruct (mapM_returns (query_detail_line ext) (item :: items)
              {| remote := s2;
                 issued :=
                   issued w ++ [ ReqQueryByWiql wiqlArgs; ReqGetWorkItems getArgs ] |})
    as (lines & Hlines & Hlength).
  { eapply Forall_impl; [exact Hids|].
    intros it Hit w'. now apply query_detail_line_returns. }
  exists lines. split; [exact Hlength|].
  rewrite Hrun. now rewrite (run_bind _ _ _ _ _ Hlines).
Qed.

(** X7. When the details cannot be fetched (the request fails, or answers
    nil or no work item), query_work_items falls back to one "ID: n" line
    for every match of the query, also beyond the first 20, under the same
    header. *)
Theorem query_fallback_lists_all_ids (request : CallToolRequest) (w : World St)
    (query : string) (queryResult : WorkItemQueryResult) (s1 s2 : St) (ids : list Z)
    (r : result (option (list WorkItem))) :
  arg request "query" = Some (VString query) ->
  let wiqlArgs := {| qwQuery := query; qwProject := Project config |} in
  let count := Nat.min (length ids) 20 in
  let getArgs := {| gwsIds := take count ids; gwsProject := None; gwsExpand := None |} in
  QueryByWiql client wiqlArgs (remote w) = (Ok queryResult, s1) ->
  WorkItems queryResult = Some (reference <$> ids) ->
  ids <> [] ->
  GetWorkItems client getArgs s1 = (r, s2) ->
  details_unavailable r ->
  handleQueryWorkItems ext config client request w =
    (Done (NewToolResultText
             (strings_Join
                (query_header (length ids) count :: "" :: (id_line <$> ids)) nl)),
     {| remote := s2;
        issued := issued w ++ [ ReqQueryByWiql wiqlArgs; ReqGetWorkItems getArgs ] |}).
Proof.
  intros Hquery wiqlArgs count getArgs Hwiql Hrefs Hne Hget Hunavailable.
  rewrite (handleQueryWorkItems_run request w query queryResult s1 s2 ids r
             Hquery Hwiql Hrefs Hne Hget).
  assert (Hfallback :
    match r with
    | Ok (Some (item :: items)) => mapM (query_detail_line ext) (item :: items)
    | _ => mapM query_id_line (reference <$> ids)
    end = mapM (@query_id_line St) (reference <$> ids)).
  { destruct r as [[[|item items]|]|err]; try reflexivity. contradiction. }
  rewrite Hfallback. now rewrite (run_bind _ _ _ _ _ (mapM_id_lines ids _)).
Qed.

End QueryDetails.

Lemma query_few_matches_fetches_all_witness :
  let ext := test_externals [] [] [] in
  let client := answering_client empty_item (reference <$> three_ids) three_items in
  exists lines,
    length lines = 3
    /\ handleQueryWorkItems ext test_config client query_request start =
         (Done (NewToolResultText
                  (strings_Join
                     ("Found 3 work items. Showing details for the first 3:" :: ""
                        :: lines) nl)),
          {| remote := tt;
             issued :=
               [ ReqQueryByWiql
                   {| qwQuery := "SELECT [System.Id] FROM WorkItems";
                      qwProject := "Demo" |};
                 ReqGetWorkItems
                   {| gwsIds := three_ids; gwsProject := None; gwsExpand := None |} ] |}).
Proof.
  intros ext client.
  apply (query_few_matches_fetches_all ext test_config client query_request start
           "SELECT [System.Id] FROM WorkItems"
           {| WorkItems := Some (reference <$> three_ids) |} tt tt three_ids
           (titled_item 7 "First")
           [ titled_item 8 "Second"; titled_item 9 "Third" ]
           eq_refl eq_refl eq_refl).
  - cbn. lia.
  - reflexivity.
  - repeat constructor; now eexists.
Defined.

Lemma query_fallback_lists_all_ids_witness :
  let ext := test_externals [] [] [] in
  let client := scripted_client 42 [] empty_item (reference <$> twenty_five_ids) "" in
  fst (handleQueryWorkItems ext test_config client query_request start) =
    Done (NewToolResultText
            (strings_Join
               ("Found 25 work items. Showing details for the first 20:" :: ""
                  :: (id_line <$> twenty_five_ids)) nl)).
Proof.
  intros ext client.
  rewrite (query_fallback_lists_all_ids ext test_config client query_request start
             "SELECT [System.Id] FROM WorkItems"
             {| WorkItems := Some (reference <$> twenty_five_ids) |} tt tt
             twenty_five_ids (Err "details unavailable")
             eq_refl eq_refl eq_refl ltac:(discriminate) eq_refl I).
  reflexivity.
Defined.

(** ** Creating work items in a batch *)

Section BatchCreate.

Context {St : Type}.
Variable more : MoreExternals.
Variable config : AzureDevOpsConfig.
Variable client : Client St.

Lemma batch_create_item_run (item : NewItem) (w : World St) :
  creations_have_ids client ->
  exists line s',
    batch_create_item config client item w =
      (Done line,
       {| remote := s'; issued := issued w ++ [ batch_create_request config item ] |})
    /\ create_outcome_line item line.
Proof.
  intros Hids. unfold batch_create_item, batch_create_request, create_document.
  assert (Hdocument :
    (if negb (String.eqb (ItemPriority item) "")
     then [ {| Op := OpAdd; Path := "/fields/System.Title";
               PatchValue := VString (ItemTitle item) |};
            {| Op := OpAdd; Path := "/fields/System.Description";
               PatchValue := VString (ItemDescription item) |} ] ++
          [ {| Op := OpAdd; Path := "/fields/Microsoft.VSTS.Common.Priority";
               PatchValue := VString (ItemPriority item) |} ]
     else [ {| Op := OpAdd; Path := "/fields/System.Title";
               PatchValue := VString (ItemTitle item) |};
            {| Op := OpAdd; Path := "/fields/System.Description";
               PatchValue := VString (ItemDescription item) |} ])
    = [ {| Op := OpAdd; Path := "/fields/System.Title";
           PatchValue := VString (ItemTitle item) |};
        {| Op := OpAdd; Path := "/fields/System.Description";
           PatchValue := VString (ItemDescription item) |} ] ++
      match (if decide (ItemPriority item = "") then None else Some (ItemPriority item)) with
      | Some p =>
          [ {| Op := OpAdd; Path := "/fields/Microsoft.VSTS.Common.Priority";
               PatchValue := VString p |} ]
      | None => []
      end).
  { destruct (decide (ItemPriority item = "")) as [Hp|Hp].
    - rewrite Hp. reflexivity.
    - apply String.eqb_neq in Hp. rewrite Hp. reflexivity. }
  cbv zeta. rewrite Hdocument.
  set (createArgs := {| cwType := ItemType item; cwProject := Project config;
                        cwDocument := _ |}).
  destruct (CreateWorkItem client createArgs (remote w)) as [r s'] eqn:Hcreate.
  erewrite run_bind; [|apply run_call; exact Hcreate].
  destruct r as [workItem|err].
  - destruct (Hids _ _ _ _ Hcreate) as [wid Hwid]. rewrite Hwid, run_deref.
    eexists _, s'. split; [reflexivity|]. right. now exists wid.
  - eexists _, s'. split; [reflexivity|]. left. now exists err.
Qed.

Lemma batch_create_items_run (items : list NewItem) (w : World St) :
  creations_have_ids client ->
  exists lines s',
    mapM (batch_create_item config client) items w =
      (Done lines,
       {| remote := s'; issued := issued w ++ (batch_create_request config <$> items) |})
    /\ Forall2 create_outcome_line items lines.
Proof.
  intros Hids. revert w. induction items as [|item items IH]; intros w.
  - exists [], (remote w). split; [|constructor].
    cbn. rewrite app_nil_r. now destruct w.
  - destruct (batch_create_item_run item w Hids) as (line & s1 & Hline & Houtcome).
    destruct (IH {| remote := s1;
                    issued := issued w ++ [ batch_create_request config item ] |})
      as (lines & s2 & Hlines & Houtcomes).
    exists (line :: lines), s2. split; [|now constructor].
    cbn [mapM]. rewrite (run_bind _ _ _ _ _ Hline), (run_bind _ _ _ _ _ Hlines).
    cbn [issued]. rewrite <- app_assoc. reflexivity.
Qed.

(** X8. batch_create_work_items sends one create request per item of the
    decoded batch, in the order of the batch and whatever the service
    answers to the earlier ones, and reports one line per item, a failure
    or a creation, each with the title given in the input.  The document of
    an item is that of create_work_item, except that an empty priority is
    left out. *)
Theorem batch_create_one_request_per_item (request : CallToolRequest) (w : World St)
    (itemsJSON : string) (items : list NewItem) :
  arg request "items" = Some (VString itemsJSON) ->
  Unmarshal_items more itemsJSON = Ok items ->
  creations_have_ids client ->
  exists lines s',
    handleBatchCreateWorkItems more config client request w =
      (Done (NewToolResultText (strings_Join lines nl)),
       {| remote := s'; issued := issued w ++ (batch_create_request config <$> items) |})
    /\ Forall2 create_outcome_line items lines.
Proof.
  intros Hitems Hdecode Hids.
  destruct (batch_create_items_run items w Hids) as (lines & s' & Hlines & Houtcomes).
  exists lines, s'. split; [|exact Houtcomes].
  unfold handleBatchCreateWorkItems.
  rewrite (run_bind _ _ w w itemsJSON) by now apply assert_string_ok.
  rewrite Hdecode. now rewrite (run_bind _ _ _ _ _ Hlines).
Qed.

End BatchCreate.

Lemma batch_create_one_request_per_item_witness :
  let client := scripted_client 42 [] empty_item [] "" in
  exists lines s',
    handleBatchCreateWorkItems (test_more two_new_items) test_config client
      batch_create_call start =
      (Done (NewToolResultText (strings_Join lines nl)),
       {| remote := s';
          issued := issued start ++ (batch_create_request test_config <$> two_new_items) |})
    /\ Forall2 create_outcome_line two_new_items lines.
Proof.
  intros client.
  apply (batch_create_one_request_per_item (test_more two_new_items) test_config client
           batch_create_call start "[...]" two_new_items eq_refl eq_refl).
  intros a s workItem s' Hcreate. cbn in Hcreate.
  injection Hcreate as <- _. now eexists.
Defined.

(** ** Decimal numbers: [strconv.Atoi] inverts [strconv.Itoa] *)

Lemma string_of_uint_chars (d : Decimal.uint) :
  string_forall decimal_char (NilEmpty.string_of_uint d) = true.
Proof.
  induction d; cbn [NilEmpty.string_of_uint string_forall]; try rewrite IHd; reflexivity.
Qed.

Lemma itoa_chars (n : Z) : string_forall decimal_char (itoa n) = true.
Proof.
  unfold itoa, NilZero.string_of_int, NilZero.string_of_uint.
  destruct (Z.to_int n) as [d|d].
  - destruct d; try reflexivity; apply (string_of_uint_chars (_ d)).
  - cbn [string_forall]. destruct d; try reflexivity; apply (string_of_uint_chars (_ d)).
Qed.

Lemma to_int_nonnil (n : Z) :
  Z.to_int n <> Decimal.Pos Decimal.Nil /\ Z.to_int n <> Decimal.Neg Decimal.Nil.
Proof.
  destruct n as [|p|p]; cbn [Z.to_int]; split; try discriminate;
    intros H; injection H as H; now apply DecimalPos.Unsigned.to_uint_nonnil in H.
Qed.

Lemma Atoi_itoa (n : Z) : in_int_range n = true -> strconv_Atoi (itoa n) = Some n.
Proof.
  intros Hrange. destruct (to_int_nonnil n) as [Hpos Hneg].
  pose proof (NilZero.isi (Z.to_int n) Hpos Hneg) as Hparse.
  unfold strconv_Atoi. fold (itoa n) in Hparse.
  assert (Hhead : match itoa n with
                  | EmptyString => False
                  | String c _ => Ascii.eqb c "+" = false
                  end).
  { unfold itoa, NilZero.string_of_int, NilZero.string_of_uint.
    destruct (Z.to_int n) as [d|d]; [|reflexivity].
    destruct d; reflexivity. }
  destruct (itoa n) as [|c rest]; [contradiction|].
  rewrite Hhead, Hparse, DecimalZ.of_to, Hrange. reflexivity.
Qed.

(** A string without the byte [c] is a piece of a split at [c]. *)
Lemma piece_of_char (c : ascii) (e : string) :
  strings_Contains e (String c "") = false -> piece_of (String c "") e = true.
Proof.
  induction e as [|x e IH]; [reflexivity|].
  cbn [strings_Contains piece_of]. intros H.
  apply orb_false_iff in H as [Hhead Htail].
  rewrite (IH Htail), andb_true_r. apply negb_true_iff.
  rewrite append_cons. cbn [String.prefix] in *.
  destruct (ascii_dec c x); [|reflexivity].
  now rewrite prefix_empty in Hhead.
Qed.

Lemma Contains_char_forall (P : ascii -> bool) (c : ascii) (s : string) :
  P c = false -> string_forall P s = true -> strings_Contains s (String c "") = false.
Proof.
  intros Hc. induction s as [|x s IH]; [reflexivity|].
  cbn [string_forall strings_Contains String.prefix]. intros H.
  apply andb_true_iff in H as [Hx Hs]. rewrite (IH Hs), orb_false_r.
  destruct (ascii_dec c x) as [<-|]; [congruence | reflexivity].
Qed.

(** ** The work items of get_work_item_details *)

Section WorkItemDetails.

Context {St : Type}.
Variable ext : Externals.
Variable config : AzureDevOpsConfig.
Variable client : Client St.

Lemma parse_ids_names (pieces : list string) (ns : list Z) :
  Forall2 (names_id ext) pieces ns -> parse_ids ext pieces = inr ns.
Proof.
  induction 1 as [|piece n pieces ns (_ & Htrim & Hrange) _ IH]; [reflexivity|].
  cbn [parse_ids]. now rewrite Htrim, (Atoi_itoa n Hrange), IH.
Qed.

Lemma parse_ids_first_bad (good : list string) (bad : string) (rest : list string) :
  Forall (fun piece => is_Some (strconv_Atoi (TrimSpace ext piece))) good ->
  strconv_Atoi (TrimSpace ext bad) = None ->
  parse_ids ext (good ++ bad :: rest) = inl bad.
Proof.
  intros Hgood Hbad. induction Hgood as [|piece good [n Hn] _ IH].
  - cbn [app parse_ids]. now rewrite Hbad.
  - cbn [app parse_ids]. now rewrite Hn, IH.
Qed.

Lemma details_entry_silent (item : WorkItem) (w : World St) :
  snd (details_entry (St := St) item w) = w.
Proof.
  unfold details_entry, bind, deref, ret.
  destruct (Fields item); [|reflexivity]. now destruct (Id item).
Qed.

(** X9. get_work_item_details reads its [ids] argument as pieces separated
    by commas, each the decimal form of an integer, possibly surrounded by
    white space, and asks the service for exactly these IDs, in the order
    given, in a single request with all relations and fields expanded. *)
Theorem details_requests_listed_ids (request : CallToolRequest) (w : World St)
    (pieces : list string) (ns : list Z)
    (r : result (option (list WorkItem))) (s1 : St) :
  arg request "ids" = Some (VString (strings_Join pieces ",")) ->
  Forall2 (names_id ext) pieces ns ->
  ns <> [] ->
  GetWorkItems client
    {| gwsIds := ns; gwsProject := Some (Project config); gwsExpand := Some "all" |}
    (remote w) = (r, s1) ->
  snd (handleGetWorkItemDetails ext config client request w) =
    {| remote := s1; issued := issued w ++ [ details_request config ns ] |}.
Proof.
  intros Hids Hnames Hne Hget.
  assert (Hsplit : strings_Split (strings_Join pieces ",") "," = pieces).
  { apply Split_Join; [discriminate| |].
    - intros ->. inversion Hnames. congruence.
    - clear -Hnames. induction Hnames as [|piece n pieces ns (Hcomma & _) _ IH];
        constructor; [now apply piece_of_char | exact IH]. }
  unfold handleGetWorkItemDetails.
  rewrite (run_bind _ _ w w _ (assert_string_ok _ _ w Hids)).
  cbv zeta. rewrite Hsplit, (parse_ids_names pieces ns Hnames).
  erewrite run_bind; [|apply run_call; exact Hget].
  destruct r as [[items|]|err]; try reflexivity.
  rewrite run_deref. unfold bind at 1.
  pose proof (mapM_silent (details_entry (St := St)) items
                {| remote := s1; issued := issued w ++ [ details_request config ns ] |}
                details_entry_silent) as Hsilent.
  unfold details_request in *.
  destruct (mapM _ items _) as [[entries|msg] w']; cbn [snd] in Hsilent; now subst w'.
Qed.

(** X10. When a piece of the [ids] argument is no integer,
    get_work_item_details answers with an error that quotes the first such
    piece as it was typed, white space included, and asks the service for
    nothing, also when the pieces before it were valid. *)
Theorem details_rejects_first_bad_piece (request : CallToolRequest) (w : World St)
    (idsStr : string) (good : list string) (bad : string) (rest : list string) :
  arg request "ids" = Some (VString idsStr) ->
  strings_Split idsStr "," = good ++ bad :: rest ->
  Forall (fun piece => is_Some (strconv_Atoi (TrimSpace ext piece))) good ->
  strconv_Atoi (TrimSpace ext bad) = None ->
  handleGetWorkItemDetails ext config client request w =
    (Done (NewToolResultError ("Invalid ID format: " +:+ bad)), w).
Proof.
  intros Hids Hsplit Hgood Hbad. unfold handleGetWorkItemDetails.
  rewrite (run_bind _ _ w w _ (assert_string_ok _ _ w Hids)).
  cbv zeta. rewrite Hsplit, (parse_ids_first_bad good bad rest Hgood Hbad).
  reflexivity.
Qed.

End WorkItemDetails.

Lemma details_requests_listed_ids_witness :
  let ext := test_externals [] [] [] in
  let client := answering_client empty_item [] three_items in
  snd (handleGetWorkItemDetails ext test_config client (details_call "7, 8 ,-9") start) =
    {| remote := tt;
       issued := [ details_request test_config [ 7; 8; -9 ]%Z ] |}.
Proof.
  intros ext client.
  apply (details_requests_listed_ids ext test_config client (details_call "7, 8 ,-9")
           start [ "7"; " 8 "; "-9" ] [ 7; 8; -9 ]%Z (Ok (Some three_items)) tt eq_refl).
  - repeat constructor.
  - discriminate.
  - reflexivity.
Defined.

Lemma details_rejects_first_bad_piece_witness :
  let ext := test_externals [] [] [] in
  let client := answering_client empty_item [] three_items in
  handleGetWorkItemDetails ext test_config client (details_call "7, x,9") start =
    (Done (NewToolResultError "Invalid ID format:  x"), start).
Proof.
  intros ext client.
  apply (details_rejects_first_bad_piece ext test_config client (details_call "7, x,9")
           start "7, x,9" [ "7" ] " x" [ "9" ] eq_refl eq_refl).
  - repeat constructor. now exists 7%Z.
  - reflexivity.
Defined.

(** ** The related work items of get_related_work_items *)

(** The last piece of a split at the byte [c] is what follows the last
    occurrence of [c]. *)
Lemma split_scan_after_char (c : ascii) (a e : string) :
  strings_Contains e (String c "") = false ->
  exists front,
    front <> [] /\ split_scan (String c "") (a +:+ String c e) 0 = front ++ [e].
Proof.
  intros He. pose proof (split_scan_last _ _ (piece_of_char c e He)) as Hlast.
  induction a as [|x a (front & Hfront & IH)].
  - exists [ "" ]. split; [discriminate|].
    change ("" +:+ String c e) with (String c e). cbn [split_scan String.prefix].
    destruct (ascii_dec c c); [|congruence].
    rewrite prefix_empty. cbn [String.length Nat.sub]. now rewrite Hlast.
  - rewrite append_cons. cbn [split_scan]. rewrite IH.
    destruct (String.prefix _ _).
    + exists ("" :: front). split; [discriminate|].
      cbn [String.length Nat.sub]. now rewrite IH.
    + destruct front as [|piece front]; [contradiction|].
      exists (String x piece :: front). split; [discriminate | reflexivity].
Qed.

Lemma last_Split_char (c : ascii) (a e : string) :
  strings_Contains e (String c "") = false ->
  List.last (strings_Split (a +:+ String c e) (String c "")) "" = e.
Proof.
  intros He. destruct (split_scan_after_char c a e He) as (front & _ & Hsplit).
  unfold strings_Split. rewrite Hsplit. apply last_last.
Qed.

Lemma relationTypeMap_related_unknown (relationType : string) :
  ~ known_relation_type relationType ->
  relationTypeMap_related !! relationType = None.
Proof.
  intros Hunknown. unfold known_relation_type in Hunknown.
  unfold relationTypeMap_related. cbn [list_to_map foldr uncurry fst snd].
  rewrite !lookup_insert_ne by (intros <-; tauto). apply lookup_empty.
Qed.

Section RelatedWorkItems.

Context {St : Type}.
Variable config : AzureDevOpsConfig.
Variable client : Client St.

Lemma last_Split_workItemUrl (targetID : Z) :
  List.last (strings_Split (workItemUrl config targetID) "/") "" = itoa targetID.
Proof.
  unfold workItemUrl.
  change "/_apis/wit/workItems/" with ("/_apis/wit/workItems" +:+ "/").
  rewrite (append_assoc "/_apis/wit/workItems" "/"), <- append_assoc.
  change ("/" +:+ itoa targetID) with (String "/" (itoa targetID)).
  apply last_Split_char.
  now apply (Contains_char_forall decimal_char), itoa_chars.
Qed.

Lemma related_scan_links (relationType : string) (links : list (string * Z))
    (w : World St) :
  Forall (fun link => in_int_range (snd link) = true) links ->
  related_scan relationType
    ((fun link => link_to config (fst link) (snd link)) <$> links) w =
    (Done ((fun link => "Found relation of type: " +:+ fst link) <$> links,
           snd <$> List.filter (asked_link relationType) links), w).
Proof.
  induction 1 as [|[rel targetID] links Hrange _ IH]; [reflexivity|].
  rewrite !fmap_cons. cbn [related_scan List.filter].
  unfold link_to at 1. cbn [Rel Url fst snd] in *. rewrite run_deref.
  change (String.eqb relationType "all"
          || String.eqb rel (default "" (relationTypeMap_related !! relationType)))
    with (asked_link relationType (rel, targetID)).
  destruct (asked_link relationType (rel, targetID)).
  - erewrite (run_bind _ _ w w [targetID]).
    + now rewrite (run_bind _ _ _ _ _ IH).
    + unfold link_to. cbn [Url]. rewrite run_deref.
      now rewrite last_Split_workItemUrl, (Atoi_itoa targetID Hrange).
  - rewrite run_ret. now rewrite (run_bind _ _ _ _ _ IH).
Qed.

Lemma related_scan_unasked (relationType : string) (relations : list WorkItemRelation)
    (rels : list string) (w : World St) :
  Forall2 (fun relation rel =>
             Rel relation = Some rel /\ asked_link relationType (rel, 0%Z) = false)
    relations rels ->
  related_scan relationType relations w =
    (Done ((fun rel => "Found relation of type: " +:+ rel) <$> rels, []), w).
Proof.
  induction 1 as [|relation rel relations rels [Hrel Hunasked] _ IH]; [reflexivity|].
  cbn [related_scan]. rewrite Hrel, run_deref.
  unfold asked_link in Hunasked. cbn [fst] in Hunasked. rewrite Hunasked, run_ret.
  now rewrite (run_bind _ _ _ _ _ IH).
Qed.

(** X11. Asked for a relation type it does not know by name (a name other
    than all, parent, children and related: so also [child], the name
    manage_work_item_relations uses), get_related_work_items does not reject
    the request: it reads the work item, matches none of its relations, asks
    for no details and answers with its debugging transcript, in which the
    type is mapped to the empty string. *)
Theorem related_unknown_type_matches_nothing (request : CallToolRequest) (w : World St)
    (id : Z) (relationType : string) (workItem : WorkItem) (s1 : St)
    (relations : list WorkItemRelation) (rels : list string) :
  arg request "id" = Some (VNumber id) ->
  arg request "relation_type" = Some (VString relationType) ->
  ~ known_relation_type relationType ->
  let getArgs :=
    {| gwId := id; gwProject := Project config; gwExpand := Some "relations" |} in
  GetWorkItem client getArgs (remote w) = (Ok workItem, s1) ->
  Relations workItem = Some relations ->
  Forall2 (fun relation rel => Rel relation = Some rel /\ rel <> "") relations rels ->
  handleGetRelatedWorkItems config client request w =
    (Done (NewToolResultText
             ("Debug info:" +:+ nl
                +:+ strings_Join
                      (("Looking for relation type: " +:+ relationType
                          +:+ " (mapped to: )")
                         :: ((fun rel => "Found relation of type: " +:+ rel) <$> rels)) nl
                +:+ nl +:+ nl +:+ "No matching related items found")),
     {| remote := s1; issued := issued w ++ [ ReqGetWorkItem getArgs ] |}).
Proof.
  intros Hid Htype Hunknown getArgs Hget Hrelations Hrels.
  pose proof (relationTypeMap_related_unknown relationType Hunknown) as Hunmapped.
  assert (Hnot_all : String.eqb relationType "all" = false).
  { apply String.eqb_neq. intros ->. apply Hunknown. now left. }
  unfold handleGetRelatedWorkItems.
  rewrite (run_bind _ _ w w _ (assert_int_ok _ _ w Hid)).
  rewrite (run_bind _ _ w w _ (assert_string_ok _ _ w Htype)).
  erewrite run_bind; [|apply run_call; exact Hget].
  cbv beta iota. rewrite Hrelations, Hunmapped. cbv zeta.
  erewrite run_bind.
  2: { apply (related_scan_unasked relationType relations rels).
       eapply Forall2_impl; [exact Hrels|].
       intros relation rel [Hrel Hne]. split; [exact Hrel|].
       unfold asked_link. rewrite Hnot_all, Hunmapped. cbn.
       apply String.eqb_neq. exact Hne. }
  reflexivity.
Qed.

(** X12. get_related_work_items reads back the links that
    manage_work_item_relations adds: on a work item whose relations are such
    links, it takes the target of every link of the asked type (of every
    link, for [all]) from the last segment of the link's URL, and asks for
    the details of exactly these work items, in the order of the links. *)
Theorem related_reads_back_added_links (request : CallToolRequest) (w : World St)
    (id : Z) (relationType : string) (workItem : WorkItem) (s1 s2 : St)
    (links : list (string * Z)) (r : result (option (list WorkItem))) :
  arg request "id" = Some (VNumber id) ->
  arg request "relation_type" = Some (VString relationType) ->
  GetWorkItem client
    {| gwId := id; gwProject := Project config; gwExpand := Some "relations" |}
    (remote w) = (Ok workItem, s1) ->
  Relations workItem =
    Some ((fun link => link_to config (fst link) (snd link)) <$> links) ->
  Forall (fun link => in_int_range (snd link) = true) links ->
  let relatedIds := snd <$> List.filter (asked_link relationType) links in
  relatedIds <> [] ->
  GetWorkItems client
    {| gwsIds := relatedIds; gwsProject := Some (Project config); gwsExpand := None |}
    s1 = (r, s2) ->
  snd (handleGetRelatedWorkItems config client request w) =
    {| remote := s2; issued := issued w ++ related_requests config id relatedIds |}.
Proof.
  intros Hid Htype Hget Hrelations Hrange relatedIds Hne Hgets.
  unfold handleGetRelatedWorkItems.
  rewrite (run_bind _ _ w w _ (assert_int_ok _ _ w Hid)).
  rewrite (run_bind _ _ w w _ (assert_string_ok _ _ w Htype)).
  erewrite run_bind; [|apply run_call; exact Hget].
  cbv beta iota. rewrite Hrelations. cbv zeta.
  erewrite run_bind; [|apply (related_scan_links relationType links _ Hrange)].
  cbn [fst snd]. fold relatedIds.
  assert (Hlen : Nat.eqb (length relatedIds) 0 = false).
  { apply Nat.eqb_neq. destruct relatedIds; [contradiction | discriminate]. }
  rewrite Hlen.
  erewrite run_bind; [|apply run_call; exact Hgets].
  cbn [remote issued]. rewrite <- app_assoc. cbn [app]. unfold related_requests.
  destruct r as [[items|]|err]; try reflexivity.
  rewrite run_deref. unfold bind at 1.
  match goal with
  | |- context [mapM ?f items ?w'] =>
      pose proof (mapM_silent f items w') as Hsilent;
      destruct (mapM f items w') as [[entries|msg] w'']
  end.
  all: cbn [snd] in *; rewrite Hsilent; try reflexivity.
  all: intros item w'; unfold bind, deref, ret;
    destruct (Fields item); [|reflexivity]; now destruct (Id item).
Qed.

End RelatedWorkItems.

Lemma related_unknown_type_matches_nothing_witness :
  let client := answering_client family_item [] three_items in
  handleGetRelatedWorkItems test_config client (related_call "child") start =
    (Done (NewToolResultText
             ("Debug info:" +:+ nl
                +:+ strings_Join
                      [ "Looking for relation type: child (mapped to: )";
                        "Found relation of type: System.LinkTypes.Hierarchy-Reverse";
                        "Found relation of type: System.LinkTypes.Hierarchy-Forward";
                        "Found relation of type: System.LinkTypes.Related";
                        "Found relation of type: System.LinkTypes.Hierarchy-Forward" ] nl
                +:+ nl +:+ nl +:+ "No matching related items found")),
     {| remote := tt;
        issued :=
          [ ReqGetWorkItem
              {| gwId := 1; gwProject := "Demo"; gwExpand := Some "relations" |} ] |}).
Proof.
  intros client.
  rewrite (related_unknown_type_matches_nothing test_config client (related_call "child")
             start 1 "child" family_item tt
             ((fun link => link_to test_config (fst link) (snd link)) <$> family_links)
             (fst <$> family_links) eq_refl eq_refl).
  - reflexivity.
  - unfold known_relation_type. intros [H|[H|[H|H]]]; discriminate.
  - reflexivity.
  - reflexivity.
  - repeat constructor; discriminate.
Defined.

Lemma related_reads_back_added_links_witness :
  let client := answering_client family_item [] three_items in
  snd (handleGetRelatedWorkItems test_config client (related_call "children") start) =
    {| remote := tt; issued := related_requests test_config 1 [ 11; 12 ]%Z |}.
Proof.
  intros client.
  apply (related_reads_back_added_links test_config client (related_call "children")
           start 1 "children" family_item tt tt family_links (Ok (Some three_items))
           eq_refl eq_refl eq_refl eq_refl).
  - repeat constructor.
  - discriminate.
  - reflexivity.
Defined.

(** ** The snippet of search_wiki *)

Lemma Index_bounds (s substr : string) :
  (-1 <= strings_Index s substr <= Z.of_nat (String.length s))%Z.
Proof.
  induction s as [|c s IH]; cbn [strings_Index String.length].
  - destruct (String.prefix substr ""); lia.
  - destruct (String.prefix substr (String c s)); [lia|].
    destruct (Z.ltb_spec (strings_Index s substr) 0); lia.
Qed.



Section SearchSnippet.

Context {St : Type}.
Variable ext : Externals.

(** X13. The snippet of a search_wiki entry is cut from the file name of
    the page with bounds computed in its lower-cased form.  Whenever
    lower-casing keeps the length of the file name, as it does for ASCII
    names, the bounds are in range: the page contributes exactly one entry
    if its lower-cased file name contains the lower-cased query and none
    otherwise, and the search does not abort. *)
Theorem search_snippet_within_bounds (query queryLower : string)
    (page : WikiSearchEntry) (w : World St) :
  String.length (ToLower ext (FileName page)) = String.length (FileName page) ->
  exists entries,
    search_page ext query queryLower page w = (Done entries, w)
    /\ length entries =
         if strings_Contains (ToLower ext (FileName page)) queryLower then 1 else 0.
Proof.
  intros Hlength. unfold search_page.
  destruct (strings_Contains (ToLower ext (FileName page)) queryLower);
    [|now exists []].
  cbv zeta. unfold slice.
  pose proof (Index_bounds (ToLower ext (FileName page)) queryLower) as [Hlow Hhigh].
  rewrite Hlength in Hhigh.
  set (index := strings_Index (ToLower ext (FileName page)) queryLower) in *.
  set (start := if Z.ltb 100 index then (index - 100)%Z else 0%Z).
  set (end_ := if Z.ltb (index + Z.of_nat (String.length query) + 100)
                     (Z.of_nat (String.length (FileName page)))
               then (index + Z.of_nat (String.length query) + 100)%Z
               else Z.of_nat (String.length (FileName page))).
  assert (Hin : (Z.leb 0 start && Z.leb start end_
                 && Z.leb end_ (Z.of_nat (String.length (FileName page))))%bool = true).
  { unfold start, end_.
    destruct (Z.ltb_spec 100 index);
      destruct (Z.ltb_spec (index + Z.of_nat (String.length query) + 100)
                  (Z.of_nat (String.length (FileName page))));
      rewrite !andb_true_iff, !Z.leb_le; lia. }
  rewrite Hin, run_ret. eexists. split; reflexivity.
Qed.


End SearchSnippet.

Lemma search_snippet_within_bounds_witness :
  let ext := test_externals [] [] [] in
  exists entries,
    search_page ext "NOTES" "notes" readme_page start = (Done entries, start)
    /\ length entries =
         if strings_Contains (ToLower ext (FileName readme_page)) "notes" then 1 else 0.
Proof.
  intros ext.
  apply (search_snippet_within_bounds ext "NOTES" "notes" readme_page start).
  reflexivity.
Defined.


(** ** The wiki tools when the wikis cannot be listed *)

Section WikiListing.

Context {St : Type}.
Variable ext : Externals.
Variable more : MoreExternals.
Variable config : AzureDevOpsConfig.
Variable client : Client St.

(** X15. Every wiki tool first lists the wikis of the project.  When that
    fails, for whatever cause, each of the five tools answers with the error
    "Failed to get wikis: <cause>" and does nothing further: no page is read,
    searched or written. *)
Theorem wiki_tools_stop_on_listing_failure (request : CallToolRequest) (w w1 : World St)
    (path content query err : string) :
  arg request "path" = Some (VString path) ->
  arg request "content" = Some (VString content) ->
  arg request "query" = Some (VString query) ->
  getWikisForProject ext config client w = (Done (Err err), w1) ->
  let failure := (Done (NewToolResultError ("Failed to get wikis: " +:+ err)), w1) in
  handleManageWikiPage ext config client request w = failure
  /\ handleGetWikiPage ext config client request w = failure
  /\ handleListWikiPages ext config client request w = failure
  /\ handleSearchWiki ext config client request w = failure
  /\ handleGetWikis ext config client request w = failure.
Proof.
  intros Hpath Hcontent Hquery Hwikis failure.
  unfold handleManageWikiPage, handleGetWikiPage, handleListWikiPages,
    handleSearchWiki, handleGetWikis.
  rewrite !(run_bind _ _ w w _ (assert_string_ok _ _ w Hpath)).
  rewrite !(run_bind _ _ w w _ (assert_string_ok _ _ w Hcontent)).
  rewrite !(run_bind _ _ w w _ (assert_string_ok _ _ w Hquery)).
  rewrite Hpath.
  destruct (bool_ok (arg request "include_children")) as [includeChildren ?].
  destruct (bool_ok (arg request "recursive")) as [recursive ?].
  cbn [string_ok]. cbv zeta.
  rewrite !(run_bind _ _ _ _ _ Hwikis). repeat split; reflexivity.
Qed.

(** X16. When the project has no wiki, each of the five wiki tools answers
    with the error "No wikis found for this project" and does nothing
    further. *)
Theorem wiki_tools_stop_without_wikis (request : CallToolRequest) (w w1 : World St)
    (path content query : string) :
  arg request "path" = Some (VString path) ->
  arg request "content" = Some (VString content) ->
  arg request "query" = Some (VString query) ->
  getWikisForProject ext config client w = (Done (Ok []), w1) ->
  let failure := (Done (NewToolResultError "No wikis found for this project"), w1) in
  handleManageWikiPage ext config client request w = failure
  /\ handleGetWikiPage ext config client request w = failure
  /\ handleListWikiPages ext config client request w = failure
  /\ handleSearchWiki ext config client request w = failure
  /\ handleGetWikis ext config client request w = failure.
Proof.
  intros Hpath Hcontent Hquery Hwikis failure.
  unfold handleManageWikiPage, handleGetWikiPage, handleListWikiPages,
    handleSearchWiki, handleGetWikis.
  rewrite !(run_bind _ _ w w _ (assert_string_ok _ _ w Hpath)).
  rewrite !(run_bind _ _ w w _ (assert_string_ok _ _ w Hcontent)).
  rewrite !(run_bind _ _ w w _ (assert_string_ok _ _ w Hquery)).
  rewrite Hpath.
  destruct (bool_ok (arg request "include_children")) as [includeChildren ?].
  destruct (bool_ok (arg request "recursive")) as [recursive ?].
  cbn [string_ok]. cbv zeta.
  rewrite !(run_bind _ _ _ _ _ Hwikis). repeat split; reflexivity.
Qed.

End WikiListing.

Lemma wiki_tools_stop_on_listing_failure_witness :
  let ext := test_externals [] [] [] in
  let failure :=
    (Done (NewToolResultError "Failed to get wikis: connection refused"),
     {| remote := tt; issued := [ ReqHttp (wikis_request ext test_config) ] |}) in
  handleManageWikiPage ext test_config unreachable_client wiki_call start = failure
  /\ handleGetWikiPage ext test_config unreachable_client wiki_call start = failure
  /\ handleListWikiPages ext test_config unreachable_client wiki_call start = failure
  /\ handleSearchWiki ext test_config unreachable_client wiki_call start = failure
  /\ handleGetWikis ext test_config unreachable_client wiki_call start = failure.
Proof.
  intros ext failure.
  apply (wiki_tools_stop_on_listing_failure ext test_config unreachable_client wiki_call
           start {| remote := tt; issued := [ ReqHttp (wikis_request ext test_config) ] |}
           "/Home" "# Home" "home" "connection refused"); reflexivity.
Defined.

Lemma wiki_tools_stop_without_wikis_witness :
  let ext := test_externals [] [] [] in
  let client := scripted_client 42 [] empty_item [] "{}" in
  let failure :=
    (Done (NewToolResultError "No wikis found for this project"),
     {| remote := tt; issued := [ ReqHttp (wikis_request ext test_config) ] |}) in
  handleManageWikiPage ext test_config client wiki_call start = failure
  /\ handleGetWikiPage ext test_config client wiki_call start = failure
  /\ handleListWikiPages ext test_config client wiki_call start = failure
  /\ handleSearchWiki ext test_config client wiki_call start = failure
  /\ handleGetWikis ext test_config client wiki_call start = failure.
Proof.
  intros ext client failure.
  apply (wiki_tools_stop_without_wikis ext test_config client wiki_call
           start {| remote := tt; issued := [ ReqHttp (wikis_request ext test_config) ] |}
           "/Home" "# Home" "home"); reflexivity.
Defined.

(** ** The fields of get_work_item_fields *)

Lemma List_filter_Permutation {A} (f : A -> bool) (l l' : list A) :
  l ≡ₚ l' -> List.filter f l ≡ₚ List.filter f l'.
Proof.
  induction 1 as [|x l l' _ IH|x y l|l l' l'' _ IH1 _ IH2]; cbn [List.filter].
  - reflexivity.
  - destruct (f x); [now constructor | exact IH].
  - destruct (f x), (f y); try reflexivity. apply perm_swap.
  - now transitivity (List.filter f l').
Qed.

Section WorkItemFields.

Context {St : Type}.
Variable ext : Externals.
Variable more : MoreExternals.
Variable config : AzureDevOpsConfig.
Variable client : Client St.

(** X17. With a [field_name] filter, get_work_item_fields shows exactly the
    fields of the work item whose reference name contains the filter, letter
    case apart: each of them once, in the order in which the map happens to
    be walked.  It answers "No fields found matching: <filter>" exactly when
    there is no such field. *)
Theorem fields_filter_shows_matching_fields (request : CallToolRequest) (w : World St)
    (id : Z) (fieldName : string) (workItem : WorkItem) (s1 : St)
    (fields : gmap string Value) :
  arg request "work_item_id" = Some (VNumber id) ->
  arg request "field_name" = Some (VString fieldName) ->
  let getArgs := {| gwId := id; gwProject := Project config; gwExpand := None |} in
  GetWorkItem client getArgs (remote w) = (Ok workItem, s1) ->
  Fields workItem = Some fields ->
  let shown := List.filter (field_matches ext fieldName) (map_to_list fields) in
  exists text,
    handleGetWorkItemFields ext more config client request w =
      (Done (NewToolResultText text),
       {| remote := s1; issued := issued w ++ [ ReqGetWorkItem getArgs ] |})
    /\ (shown = [] -> text = "No fields found matching: " +:+ fieldName)
    /\ (shown <> [] ->
        exists lines,
          text = strings_Join lines nl /\ lines ≡ₚ (field_entry ext more <$> shown)).
Proof.
  intros Hid Hname getArgs Hget Hfields shown.
  unfold handleGetWorkItemFields.
  rewrite (run_bind _ _ w w _ (assert_int_ok _ _ w Hid)).
  erewrite run_bind; [|apply run_call; exact Hget].
  cbv beta iota. rewrite Hname. cbn [string_ok]. rewrite Hfields, run_deref.
  cbv zeta.
  set (walked := List.filter _ (range_fields more fields)).
  assert (Hwalked : walked ≡ₚ shown).
  { unfold walked, shown.
    rewrite (List_filter_Permutation _ _ _ (range_fields_perm more fields)).
    erewrite List.filter_ext; [reflexivity|].
    intros field. cbn [andb]. now rewrite negb_involutive. }
  rewrite length_map.
  clearbody walked. destruct walked as [|field rest].
  - cbn [length Nat.eqb]. eexists. split; [reflexivity|]. split; [reflexivity|].
    intros Hshown. apply Permutation_nil_l in Hwalked. congruence.
  - cbn [length Nat.eqb]. eexists. split; [reflexivity|]. split.
    + intros Hshown. rewrite Hshown in Hwalked.
      symmetry in Hwalked. now apply Permutation_nil_cons in Hwalked.
    + intros _. eexists. split; [reflexivity|].
      change (List.map ?f ?l) with (f <$> l).
      now rewrite Hwalked.
Qed.

End WorkItemFields.

Lemma fields_filter_shows_matching_fields_witness :
  let ext := test_externals [] [] [] in
  let more := test_more [] in
  let client := scripted_client 42 [] described_item [] "" in
  let shown :=
    List.filter (field_matches ext "SYSTEM")
      (map_to_list
         ({[ "System.Title" := VString "Crash";
             "System.State" := VString "Active";
             "Microsoft.VSTS.Common.Priority" := VNumber 2 ]} : gmap string Value)) in
  exists text,
    handleGetWorkItemFields ext more test_config client (fields_call "SYSTEM") start =
      (Done (NewToolResultText text),
       {| remote := tt;
          issued :=
            issued start ++
            [ ReqGetWorkItem {| gwId := 5; gwProject := "Demo"; gwExpand := None |} ] |})
    /\ (shown = [] -> text = "No fields found matching: " +:+ "SYSTEM")
    /\ (shown <> [] ->
        exists lines,
          text = strings_Join lines nl /\ lines ≡ₚ (field_entry ext more <$> shown)).
Proof.
  intros ext more client.
  exact (fields_filter_shows_matching_fields ext more test_config client
           (fields_call "SYSTEM") start 5 "SYSTEM" described_item tt
           {[ "System.Title" := VString "Crash";
              "System.State" := VString "Active";
              "Microsoft.VSTS.Common.Priority" := VNumber 2 ]}
           eq_refl eq_refl eq_refl eq_refl).
Defined.

(** ** The configuration check of main *)


(** ** The prompts *)

(** Joining the pieces of a split with [new] replaces every occurrence of
    the separator by [new]. *)
Lemma Join_split_scan (sep new s : string) (skip : nat) :
  strings_Join (split_scan sep s skip) new = replace_scan sep new s skip.
Proof.
  revert skip. induction s as [|c s IH]; intros skip; [reflexivity|].
  cbn [split_scan replace_scan]. destruct skip as [|k]; [|apply IH].
  destruct (String.prefix sep (String c s)).
  - rewrite <- IH.
    pose proof (split_scan_nonempty sep s (String.length sep - 1)) as Hne.
    destruct (split_scan sep s (String.length sep - 1)) as [|piece rest];
      [contradiction | reflexivity].
  - rewrite <- IH.
    pose proof (split_scan_nonempty sep s 0) as Hne.
    destruct (split_scan sep s 0) as [|piece [|piece2 rest]];
      [contradiction | reflexivity | reflexivity].
Qed.

(** X19. The description prompt turns every hyphen of the description, also
    one inside a word, into the boundary "</li>\n<li>" between two list
    items, and adds neither the opening tag of the first item nor the closing
    tag of the last: what it puts between <ul> and </ul> is the description
    with its hyphens replaced, so a description without hyphen appears there
    unchanged, without any list item. *)
Theorem description_prompt_replaces_hyphens (request : GetPromptRequest) :
  let description := prompt_arg request "description" in
  assistant_text (handleFormatWorkItemDescription request) =
    Some ("Here's your description formatted with HTML:" +:+ nl +:+ nl +:+ "<ul>" +:+ nl
            +:+ strings_ReplaceAll description "-" ("</li>" +:+ nl +:+ "<li>")
            +:+ nl +:+ "</ul>")
  /\ (strings_Contains description "-" = false ->
      assistant_text (handleFormatWorkItemDescription request) =
        Some ("Here's your description formatted with HTML:" +:+ nl +:+ nl +:+ "<ul>"
                +:+ nl +:+ description +:+ nl +:+ "</ul>")).
Proof.
  intros description. unfold handleFormatWorkItemDescription, assistant_text.
  cbn [Messages List.find fst snd String.eqb Ascii.eqb Bool.eqb fmap option_fmap option_map].
  fold description. split.
  - unfold strings_Split, strings_ReplaceAll. now rewrite Join_split_scan.
  - intros Hplain. unfold strings_Split.
    now rewrite (split_scan_last "-" description (piece_of_char _ _ Hplain)).
Qed.

Lemma description_prompt_replaces_hyphens_witness :
  assistant_text
    (handleFormatWorkItemDescription (prompt_of [ ("description", "Fix login") ])) =
    Some ("Here's your description formatted with HTML:" +:+ nl +:+ nl +:+ "<ul>"
            +:+ nl +:+ "Fix login" +:+ nl +:+ "</ul>").
Proof.
  apply (proj2 (description_prompt_replaces_hyphens
                  (prompt_of [ ("description", "Fix login") ]))).
  reflexivity.
Defined.

(** X20. The WIQL prompt fails only when [query_type] is missing.  A query
    type it has no template for is not rejected: the prompt is returned with
    an empty template and an empty explanation, whatever additional fields
    were asked for. *)
Theorem wiql_prompt_unknown_type_is_empty (request : GetPromptRequest) :
  (PromptArguments request !! "query_type" = None ->
   handleWiqlQueryFormatPrompt request = Err "query_type is required")
  /\ (forall queryType,
        PromptArguments request !! "query_type" = Some queryType ->
        ~ known_query_type queryType ->
        assistant_text (handleWiqlQueryFormatPrompt request) =
          Some (wiql_answer queryType "" "")).
Proof.
  unfold handleWiqlQueryFormatPrompt. split.
  - now intros ->.
  - intros queryType -> Hunknown. unfold known_query_type in Hunknown. cbv zeta.
    assert (H1 : String.eqb queryType "current_sprint" = false)
      by (apply String.eqb_neq; tauto).
    assert (H2 : String.eqb queryType "assigned_to_me" = false)
      by (apply String.eqb_neq; tauto).
    assert (H3 : String.eqb queryType "active_bugs" = false)
      by (apply String.eqb_neq; tauto).
    assert (H4 : String.eqb queryType "blocked_items" = false)
      by (apply String.eqb_neq; tauto).
    assert (H5 : String.eqb queryType "recent_activity" = false)
      by (apply String.eqb_neq; tauto).
    rewrite H1, H2, H3, H4, H5. reflexivity.
Qed.

Lemma wiql_prompt_unknown_type_is_empty_witness :
  assistant_text
    (handleWiqlQueryFormatPrompt
       (prompt_of [ ("query_type", "my_bugs"); ("additional_fields", "[System.Tags]") ])) =
    Some (wiql_answer "my_bugs" "" "").
Proof.
  apply (wiql_prompt_unknown_type_is_empty
           (prompt_of [ ("query_type", "my_bugs"); ("additional_fields", "[System.Tags]") ])).
  - reflexivity.
  - unfold known_query_type. intros [H|[H|[H|[H|H]]]]; discriminate.
Defined.
